(** * SmacPlannerLattice: configuration, planning call and reconfiguration

    A shallow embedding of [nav2_smac_planner/src/smac_planner_lattice.cpp].

    The planner object is a record of its member variables; [configure],
    [createPlan] and [dynamicParametersCallback] are functions on it.  The
    collaborators whose code lives elsewhere (the A* engine, the smoother, the
    costmap, the lattice file reader) enter as section variables.

    Numbers.  A C++ [int] is a [Z] with the narrowing conversion written out
    ([to_int]).  A [float] or [double] that the file computes is a value of
    [Fp.t]: the rational a finite value denotes, an infinity or NaN; every
    conversion or operation that rounds in the source rounds here (nearest,
    ties to even, 24 and 53 significant bits, gradual underflow, overflow to
    an infinity).  What the file is given from outside (a parameter, the
    resolution of the costmap, the turning radius of a lattice file) is a
    finite number, a [Q].  A conversion the source leaves undefined has no
    value ([None]). *)

From Stdlib Require Import ZArith QArith Qround Qabs Qreduction Qpower.
From Stdlib Require Import List String Bool Lia.
Import ListNotations.

Local Open Scope Z_scope.

(** ** Machine integers *)

Module Int.

Definition max : Z := 2147483647.
Definition min : Z := -2147483648.

(** Conversion of a wider integer (the 64-bit value of an integer
    parameter) to [int]: reduction modulo 2^32 into [min, max]. *)
Definition to_int (z : Z) : Z := (z + 2147483648) mod 4294967296 - 2147483648.

Definition in_range (z : Z) : Prop := min <= z <= max.

End Int.

(** ** Binary floating point *)

Module Fp.

Local Open Scope Q_scope.

(** 2^e as a rational, for any integer exponent. *)
Definition pow2 (e : Z) : Q :=
  if (0 <=? e)%Z then inject_Z (2 ^ e) else / inject_Z (2 ^ (- e)).

(** floor (log2 |q|), for q <> 0. *)
Definition ilog2 (q : Q) : Z :=
  let e := (Z.log2 (Z.abs (Qnum q)) - Z.log2 (Zpos (Qden q)))%Z in
  if Qle_bool (pow2 e) (Qabs q) then e else (e - 1)%Z.

(** Nearest integer, ties to the even one. *)
Definition round_half_even (q : Q) : Z :=
  let f := Qfloor q in
  match Qcompare (q - inject_Z f) (1 # 2) with
  | Lt => f
  | Gt => (f + 1)%Z
  | Eq => if Z.even f then f else (f + 1)%Z
  end.

(** Rounding to [prec] significant bits with least normal exponent
    [emin]; the result is in lowest terms. *)
Definition round (prec emin : Z) (q : Q) : Q :=
  if Qeq_bool q 0 then 0
  else
    let e := Z.max (ilog2 q) emin in
    let ulp := pow2 (e - (prec - 1)) in
    Qred (inject_Z (round_half_even (q / ulp)) * ulp).

(** A floating value.  A zero carries no sign, and a zero given from
    outside counts as +0: in this file the sign of a zero decides nothing
    but the sign of another zero, or of an infinity whose conversion to
    [int] is undefined whatever its sign. *)
Inductive t : Type :=
| finite (q : Q)
| infinity (negative : bool)
| nan.

Definition negative (q : Q) : bool := negb (Qle_bool 0 q).

(** The largest finite value of the format with [prec] significant bits
    and largest exponent [emax]. *)
Definition largest (prec emax : Z) : Q :=
  inject_Z (2 ^ prec - 1) * pow2 (emax - (prec - 1)).

(** The value of the format that stands for the real number [q]: [q]
    rounded as if the exponent had no bound above, and an infinity when that
    lies beyond the largest finite value. *)
Definition of_Q (prec emin emax : Z) (q : Q) : t :=
  let r := round prec emin q in
  if Qle_bool (Qabs r) (largest prec emax) then finite r
  else infinity (negative q).

(** Conversion of a floating value to the format. *)
Definition convert (prec emin emax : Z) (x : t) : t :=
  match x with
  | finite q => of_Q prec emin emax q
  | infinity s => infinity s
  | nan => nan
  end.

Definition opp (x : t) : t :=
  match x with
  | finite q => finite (Qred (- q))
  | infinity s => infinity (negb s)
  | nan => nan
  end.

(** [a + b] and [a / b] computed in the format. *)
Definition add (prec emin emax : Z) (a b : t) : t :=
  match a, b with
  | nan, _ | _, nan => nan
  | infinity s, infinity s' => if Bool.eqb s s' then infinity s else nan
  | infinity s, finite _ => infinity s
  | finite _, infinity s => infinity s
  | finite x, finite y => of_Q prec emin emax (x + y)
  end.

Definition div (prec emin emax : Z) (a b : t) : t :=
  match a, b with
  | nan, _ | _, nan => nan
  | infinity _, infinity _ => nan
  | infinity s, finite d => infinity (xorb s (negative d))
  | finite _, infinity _ => finite 0
  | finite n, finite d =>
      if Qeq_bool d 0 then
        if Qeq_bool n 0 then nan else infinity (negative n)
      else of_Q prec emin emax (n / d)
  end.

(** [float]: binary32. *)
Definition to_float : t -> t := convert 24 (-126) 127.
Definition float_div : t -> t -> t := div 24 (-126) 127.
Definition float_of_int (n : Z) : t := of_Q 24 (-126) 127 (inject_Z n).

(** [double]: binary64. *)
Definition to_double : t -> t := convert 53 (-1022) 1023.
Definition double_add : t -> t -> t := add 53 (-1022) 1023.
Definition double_sub (a b : t) : t := add 53 (-1022) 1023 a (opp b).
Definition double_div : t -> t -> t := div 53 (-1022) 1023.
Definition double_of_int (n : Z) : t := of_Q 53 (-1022) 1023 (inject_Z n).

(** [static_cast<int>] of a floating value: truncation toward zero.  The
    source leaves the conversion undefined when the truncated value is not
    an [int], and for an infinity or NaN. *)
Definition to_int (x : t) : option Z :=
  match x with
  | finite q =>
      let n := Z.quot (Qnum q) (Zpos (Qden q)) in
      if ((Int.min <=? n) && (n <=? Int.max))%Z then Some n else None
  | infinity _ | nan => None
  end.

(** [x] is at most [q]: a finite value that is, or the negative
    infinity. *)
Definition le (x : t) (q : Q) : Prop :=
  match x with
  | finite r => r <= q
  | infinity s => s = true
  | nan => False
  end.

(** A number that is a [double]. *)
Definition is_double (q : Q) : Prop := to_double (finite q) = finite (Qred q).

End Fp.

(** ** Exceptions and results *)

(** A C++ exception, as the one handler of the file tells them apart: an
    object of class std::runtime_error or of a class derived from it, or an
    object of any other class. *)
Inductive exception : Type :=
| runtime_error (what : string)
| other_exception (what : string).

Inductive result (A : Type) : Type :=
| Ok (a : A)
| Throw (e : exception).
Arguments Ok {A} a.
Arguments Throw {A} e.

(** A computation on a mutable object of type [S] that may throw; the
    object is returned in the state in which the exception left it. *)
Definition M (S A : Type) : Type := S -> result A * S.

Definition ret {S A : Type} (a : A) : M S A := fun s => (Ok a, s).

Definition bind {S A B : Type} (m : M S A) (k : A -> M S B) : M S B :=
  fun s =>
    match m s with
    | (Ok a, s') => k a s'
    | (Throw e, s') => (Throw e, s')
    end.

Definition modify {S : Type} (f : S -> S) : M S unit := fun s => (Ok tt, f s).
Definition gets {S A : Type} (f : S -> A) : M S A := fun s => (Ok (f s), s).
Definition lift {S A : Type} (r : result A) : M S A := fun s => (r, s).

Declare Scope planner_scope.
Delimit Scope planner_scope with planner.
Notation "x <- m ;; k" := (bind m (fun x => k))
  (at level 61, m at next level, right associativity) : planner_scope.
Notation "m ;; k" := (bind m (fun _ => k))
  (at level 61, right associativity) : planner_scope.

(** [for (auto x : xs) body(x)] *)
Fixpoint for_each {S A : Type} (body : A -> M S unit) (xs : list A) : M S unit :=
  match xs with
  | [] => ret tt
  | x :: xs' => bind (body x) (fun _ => for_each body xs')
  end.

(** ** Data *)

(** rclcpp parameters.  [PArray] stands for the array kinds, none of which
    the planner reads. *)
Inductive ParameterValue : Type :=
| PNotSet
| PBool (b : bool)
| PInteger (i : Z)
| PDouble (d : Q)
| PString (s : string)
| PArray.

Record rclcpp_Parameter : Type := {
  get_name : string;
  get_value : ParameterValue
}.

Record SetParametersResult : Type := { successful : bool }.

Inductive MotionModel : Type := UNKNOWN | STATE_LATTICE.

(** Modelled from the spec: the declaration of LatticeMetadata is not
    under src/; section 3 lists "number of heading bins, minimum turning
    radius, grid resolution dependency". *)
Record LatticeMetadata : Type := {
  min_turning_radius : Q;
  grid_resolution : Q;
  number_of_headings : Z
}.

Record SearchInfo : Type := {
  minimum_turning_radius : Fp.t;
  non_straight_penalty : Fp.t;
  change_penalty : Fp.t;
  reverse_penalty : Fp.t;
  cost_penalty : Fp.t;
  analytic_expansion_ratio : Fp.t;
  lattice_filepath : string;
  cache_obstacle_heuristic : bool;
  allow_reverse_expansion : bool
}.

Definition set_minimum_turning_radius (v : Fp.t) (i : SearchInfo) : SearchInfo :=
  {| minimum_turning_radius := v;
     non_straight_penalty := non_straight_penalty i;
     change_penalty := change_penalty i;
     reverse_penalty := reverse_penalty i;
     cost_penalty := cost_penalty i;
     analytic_expansion_ratio := analytic_expansion_ratio i;
     lattice_filepath := lattice_filepath i;
     cache_obstacle_heuristic := cache_obstacle_heuristic i;
     allow_reverse_expansion := allow_reverse_expansion i |}.

Definition set_non_straight_penalty (v : Fp.t) (i : SearchInfo) : SearchInfo :=
  {| minimum_turning_radius := minimum_turning_radius i;
     non_straight_penalty := v;
     change_penalty := change_penalty i;
     reverse_penalty := reverse_penalty i;
     cost_penalty := cost_penalty i;
     analytic_expansion_ratio := analytic_expansion_ratio i;
     lattice_filepath := lattice_filepath i;
     cache_obstacle_heuristic := cache_obstacle_heuristic i;
     allow_reverse_expansion := allow_reverse_expansion i |}.

Definition set_change_penalty (v : Fp.t) (i : SearchInfo) : SearchInfo :=
  {| minimum_turning_radius := minimum_turning_radius i;
     non_straight_penalty := non_straight_penalty i;
     change_penalty := v;
     reverse_penalty := reverse_penalty i;
     cost_penalty := cost_penalty i;
     analytic_expansion_ratio := analytic_expansion_ratio i;
     lattice_filepath := lattice_filepath i;
     cache_obstacle_heuristic := cache_obstacle_heuristic i;
     allow_reverse_expansion := allow_reverse_expansion i |}.

Definition set_reverse_penalty (v : Fp.t) (i : SearchInfo) : SearchInfo :=
  {| minimum_turning_radius := minimum_turning_radius i;
     non_straight_penalty := non_straight_penalty i;
     change_penalty := change_penalty i;
     reverse_penalty := v;
     cost_penalty := cost_penalty i;
     analytic_expansion_ratio := analytic_expansion_ratio i;
     lattice_filepath := lattice_filepath i;
     cache_obstacle_heuristic := cache_obstacle_heuristic i;
     allow_reverse_expansion := allow_reverse_expansion i |}.

Definition set_cost_penalty (v : Fp.t) (i : SearchInfo) : SearchInfo :=
  {| minimum_turning_radius := minimum_turning_radius i;
     non_straight_penalty := non_straight_penalty i;
     change_penalty := change_penalty i;
     reverse_penalty := reverse_penalty i;
     cost_penalty := v;
     analytic_expansion_ratio := analytic_expansion_ratio i;
     lattice_filepath := lattice_filepath i;
     cache_obstacle_heuristic := cache_obstacle_heuristic i;
     allow_reverse_expansion := allow_reverse_expansion i |}.

Definition set_analytic_expansion_ratio (v : Fp.t) (i : SearchInfo) : SearchInfo :=
  {| minimum_turning_radius := minimum_turning_radius i;
     non_straight_penalty := non_straight_penalty i;
     change_penalty := change_penalty i;
     reverse_penalty := reverse_penalty i;
     cost_penalty := cost_penalty i;
     analytic_expansion_ratio := v;
     lattice_filepath := lattice_filepath i;
     cache_obstacle_heuristic := cache_obstacle_heuristic i;
     allow_reverse_expansion := allow_reverse_expansion i |}.

Definition set_lattice_filepath (v : string) (i : SearchInfo) : SearchInfo :=
  {| minimum_turning_radius := minimum_turning_radius i;
     non_straight_penalty := non_straight_penalty i;
     change_penalty := change_penalty i;
     reverse_penalty := reverse_penalty i;
     cost_penalty := cost_penalty i;
     analytic_expansion_ratio := analytic_expansion_ratio i;
     lattice_filepath := v;
     cache_obstacle_heuristic := cache_obstacle_heuristic i;
     allow_reverse_expansion := allow_reverse_expansion i |}.

Definition set_cache_obstacle_heuristic (v : bool) (i : SearchInfo) : SearchInfo :=
  {| minimum_turning_radius := minimum_turning_radius i;
     non_straight_penalty := non_straight_penalty i;
     change_penalty := change_penalty i;
     reverse_penalty := reverse_penalty i;
     cost_penalty := cost_penalty i;
     analytic_expansion_ratio := analytic_expansion_ratio i;
     lattice_filepath := lattice_filepath i;
     cache_obstacle_heuristic := v;
     allow_reverse_expansion := allow_reverse_expansion i |}.

Definition set_allow_reverse_expansion (v : bool) (i : SearchInfo) : SearchInfo :=
  {| minimum_turning_radius := minimum_turning_radius i;
     non_straight_penalty := non_straight_penalty i;
     change_penalty := change_penalty i;
     reverse_penalty := reverse_penalty i;
     cost_penalty := cost_penalty i;
     analytic_expansion_ratio := analytic_expansion_ratio i;
     lattice_filepath := lattice_filepath i;
     cache_obstacle_heuristic := cache_obstacle_heuristic i;
     allow_reverse_expansion := v |}.

(** Search coordinates and ROS messages. *)
Record Coordinates : Type := { coord_x : Q; coord_y : Q; coord_theta : Q }.
Definition CoordinateVector : Type := list Coordinates.

Record Point : Type := { point_x : Q; point_y : Q; point_z : Q }.
Record Quaternion : Type := { quat_x : Q; quat_y : Q; quat_z : Q; quat_w : Q }.
Record Pose : Type := { position : Point; orientation : Quaternion }.
Record Header : Type := { stamp : Z; frame_id : string }.
Record PoseStamped : Type := { header : Header; pose : Pose }.
Record Path : Type := { path_header : Header; poses : list PoseStamped }.

(** What one run of the engine's [createPath(path, num_iterations, tolerance)]
    hands back: its boolean with the two out-parameters, or an exception. *)
Inductive CreatePathOutcome : Type :=
| Returns (found : bool) (path : CoordinateVector) (num_iterations : Z)
| Throws (e : exception).

(** What a planning call does besides returning. *)
Inductive Event : Type :=
| Warn (msg : string)
| Publish (plan : Path)
| Smooth (plan : Path) (time_remaining : Fp.t).

(** ** Derived quantities *)

(** [float / double], the quotient stored back into a [float]: the
    division is carried out in [double] and the result narrowed. *)
Definition float_div_double (a : Fp.t) (b : Q) : Fp.t :=
  Fp.to_float (Fp.double_div a (Fp.finite b)).

(** Lines 118-123 and 379-384: the table size over the resolution, both
    as [float], and the [int] it is cut down to. *)
Definition lookup_table_quotient (lookup_table_size resolution : Q) : Fp.t :=
  Fp.float_div (Fp.to_float (Fp.finite lookup_table_size))
    (Fp.to_float (Fp.finite resolution)).

Definition lookup_table_cells (lookup_table_size resolution : Q) : option Z :=
  Fp.to_int (lookup_table_quotient lookup_table_size resolution).

(** Lines 118-132 and, verbatim again, 379-393: the heuristic lookup table
    dimension, in cells, from its size in metres; no value when one of the
    conversions to [int] is undefined. *)
Definition lookup_table_dim (lookup_table_size resolution : Q) : option Fp.t :=
  let lookup_table_dim := lookup_table_quotient lookup_table_size resolution in
  (* Make sure its a whole number *)
  match Fp.to_int lookup_table_dim with
  | None => None
  | Some cells =>
      let lookup_table_dim := Fp.float_of_int cells in
      (* Make sure its an odd number *)
      match Fp.to_int lookup_table_dim with
      | None => None
      | Some cells =>
          if Z.rem cells 2 =? 0
          then Some (Fp.to_float (Fp.double_add lookup_table_dim (Fp.finite 1)))
          else Some lookup_table_dim
      end
  end.

(** A dimension that is a whole, odd number. *)
Definition is_odd (d : option Fp.t) : bool :=
  match d with
  | Some (Fp.finite q) =>
      let r := Qred q in (Qden r =? 1)%positive && Z.odd (Qnum r)
  | _ => false
  end.

(** ** The planner *)

Section Planner.

Local Open Scope string_scope.
Local Open Scope planner_scope.

(** *** Collaborators *)

Variable Costmap2D : Type.
Variable getResolution : Costmap2D -> Q.
Variable Footprint : Type.
Variable SmootherParams : Type.

(** [LatticeMotionTable::getLatticeMetadata]: reads the lattice file, or
    throws when it cannot. *)
Variable getLatticeMetadata : string -> result LatticeMetadata.

Record Costmap2DROS : Type := {
  getCostmap : Costmap2D;
  getGlobalFrameID : string;
  getRobotFootprint : Footprint;
  getUseRadius : bool
}.

Variable findCircumscribedCost : Costmap2DROS -> Q.

(** The lifecycle node as [configure] sees it: the value each
    [get_parameter] returns once the parameter is declared (the declared
    default when it was not set), and the smoother's own parameters. *)
Record LifecycleNode : Type := {
  param_allow_unknown : bool;
  param_max_iterations : Z;
  param_lattice_filepath : string;
  param_cache_obstacle_heuristic : bool;
  param_reverse_penalty : Q;
  param_change_penalty : Q;
  param_non_straight_penalty : Q;
  param_cost_penalty : Q;
  param_analytic_expansion_ratio : Q;
  param_max_planning_time : Q;
  param_lookup_table_size : Q;
  param_allow_reverse_expansion : bool;
  smoother_params : SmootherParams
}.

Record GridCollisionChecker : Type := {
  checker_costmap : Costmap2D;
  num_quantizations : Z;
  footprint : Footprint;
  use_radius : bool;
  circumscribed_cost : Q
}.

(** The A* engine as this file builds and drives it: what the
    constructor and [initialize] were given, and what [setCollisionChecker],
    [setStart] and [setGoal] stored since. *)
Record AStarAlgorithm : Type := {
  motion_model : MotionModel;
  search_info : SearchInfo;
  traverse_unknown : bool;
  max_iterations : Z;
  max_on_approach_iterations : Z;
  max_planning_time : Q;
  lookup_table_size : option Fp.t;
  dim_3_size : Z;
  collision_checker : option GridCollisionChecker;
  start : option (Z * Z * Z);
  goal : option (Z * Z * Z)
}.

Definition getMaxIterations (a : AStarAlgorithm) : Z := max_iterations a.

(** [std::make_unique<AStarAlgorithm<NodeLattice>>(motion_model, search_info)]
    followed by [initialize(...)]. *)
Definition make_a_star (motion_model : MotionModel) (search_info : SearchInfo)
    (allow_unknown : bool) (max_iterations max_on_approach_iterations : Z)
    (max_planning_time : Q) (lookup_table_size : option Fp.t) (dim_3_size : Z)
    : AStarAlgorithm :=
  {| motion_model := motion_model;
     search_info := search_info;
     traverse_unknown := allow_unknown;
     max_iterations := max_iterations;
     max_on_approach_iterations := max_on_approach_iterations;
     max_planning_time := max_planning_time;
     lookup_table_size := lookup_table_size;
     dim_3_size := dim_3_size;
     collision_checker := None;
     start := None;
     goal := None |}.

Definition setCollisionChecker (c : GridCollisionChecker) (a : AStarAlgorithm) : AStarAlgorithm :=
  {| motion_model := motion_model a;
     search_info := search_info a;
     traverse_unknown := traverse_unknown a;
     max_iterations := max_iterations a;
     max_on_approach_iterations := max_on_approach_iterations a;
     max_planning_time := max_planning_time a;
     lookup_table_size := lookup_table_size a;
     dim_3_size := dim_3_size a;
     collision_checker := Some c;
     start := start a;
     goal := goal a |}.

Definition setStart (mx my dim_3 : Z) (a : AStarAlgorithm) : AStarAlgorithm :=
  {| motion_model := motion_model a;
     search_info := search_info a;
     traverse_unknown := traverse_unknown a;
     max_iterations := max_iterations a;
     max_on_approach_iterations := max_on_approach_iterations a;
     max_planning_time := max_planning_time a;
     lookup_table_size := lookup_table_size a;
     dim_3_size := dim_3_size a;
     collision_checker := collision_checker a;
     start := Some (mx, my, dim_3);
     goal := goal a |}.

Definition setGoal (mx my dim_3 : Z) (a : AStarAlgorithm) : AStarAlgorithm :=
  {| motion_model := motion_model a;
     search_info := search_info a;
     traverse_unknown := traverse_unknown a;
     max_iterations := max_iterations a;
     max_on_approach_iterations := max_on_approach_iterations a;
     max_planning_time := max_planning_time a;
     lookup_table_size := lookup_table_size a;
     dim_3_size := dim_3_size a;
     collision_checker := collision_checker a;
     start := start a;
     goal := Some (mx, my, dim_3) |}.

(** [std::make_unique<Smoother>(params)] followed by [initialize(radius)]. *)
Record Smoother : Type := {
  params : SmootherParams;
  smoother_min_turning_radius : Q
}.

(** *** The object *)

Record SmacPlannerLattice : Type := {
  _a_star : AStarAlgorithm;
  _collision_checker : GridCollisionChecker;
  _smoother : Smoother;
  _costmap : Costmap2D;
  _costmap_ros : Costmap2DROS;
  _search_info : SearchInfo;
  _allow_unknown : bool;
  _max_iterations : Z;
  _max_planning_time : Q;
  _lookup_table_size : Q;
  _metadata : LatticeMetadata;
  _motion_model : MotionModel;
  _name : string;
  _global_frame : string
}.

Definition set_a_star (v : AStarAlgorithm) (p : SmacPlannerLattice) : SmacPlannerLattice :=
  {| _a_star := v;
     _collision_checker := _collision_checker p;
     _smoother := _smoother p;
     _costmap := _costmap p;
     _costmap_ros := _costmap_ros p;
     _search_info := _search_info p;
     _allow_unknown := _allow_unknown p;
     _max_iterations := _max_iterations p;
     _max_planning_time := _max_planning_time p;
     _lookup_table_size := _lookup_table_size p;
     _metadata := _metadata p;
     _motion_model := _motion_model p;
     _name := _name p;
     _global_frame := _global_frame p |}.

Definition set_smoother (v : Smoother) (p : SmacPlannerLattice) : SmacPlannerLattice :=
  {| _a_star := _a_star p;
     _collision_checker := _collision_checker p;
     _smoother := v;
     _costmap := _costmap p;
     _costmap_ros := _costmap_ros p;
     _search_info := _search_info p;
     _allow_unknown := _allow_unknown p;
     _max_iterations := _max_iterations p;
     _max_planning_time := _max_planning_time p;
     _lookup_table_size := _lookup_table_size p;
     _metadata := _metadata p;
     _motion_model := _motion_model p;
     _name := _name p;
     _global_frame := _global_frame p |}.

Definition set_search_info (v : SearchInfo) (p : SmacPlannerLattice) : SmacPlannerLattice :=
  {| _a_star := _a_star p;
     _collision_checker := _collision_checker p;
     _smoother := _smoother p;
     _costmap := _costmap p;
     _costmap_ros := _costmap_ros p;
     _search_info := v;
     _allow_unknown := _allow_unknown p;
     _max_iterations := _max_iterations p;
     _max_planning_time := _max_planning_time p;
     _lookup_table_size := _lookup_table_size p;
     _metadata := _metadata p;
     _motion_model := _motion_model p;
     _name := _name p;
     _global_frame := _global_frame p |}.

Definition set_allow_unknown (v : bool) (p : SmacPlannerLattice) : SmacPlannerLattice :=
  {| _a_star := _a_star p;
     _collision_checker := _collision_checker p;
     _smoother := _smoother p;
     _costmap := _costmap p;
     _costmap_ros := _costmap_ros p;
     _search_info := _search_info p;
     _allow_unknown := v;
     _max_iterations := _max_iterations p;
     _max_planning_time := _max_planning_time p;
     _lookup_table_size := _lookup_table_size p;
     _metadata := _metadata p;
     _motion_model := _motion_model p;
     _name := _name p;
     _global_frame := _global_frame p |}.

Definition set_max_iterations (v : Z) (p : SmacPlannerLattice) : SmacPlannerLattice :=
  {| _a_star := _a_star p;
     _collision_checker := _collision_checker p;
     _smoother := _smoother p;
     _costmap := _costmap p;
     _costmap_ros := _costmap_ros p;
     _search_info := _search_info p;
     _allow_unknown := _allow_unknown p;
     _max_iterations := v;
     _max_planning_time := _max_planning_time p;
     _lookup_table_size := _lookup_table_size p;
     _metadata := _metadata p;
     _motion_model := _motion_model p;
     _name := _name p;
     _global_frame := _global_frame p |}.

Definition set_max_planning_time (v : Q) (p : SmacPlannerLattice) : SmacPlannerLattice :=
  {| _a_star := _a_star p;
     _collision_checker := _collision_checker p;
     _smoother := _smoother p;
     _costmap := _costmap p;
     _costmap_ros := _costmap_ros p;
     _search_info := _search_info p;
     _allow_unknown := _allow_unknown p;
     _max_iterations := _max_iterations p;
     _max_planning_time := v;
     _lookup_table_size := _lookup_table_size p;
     _metadata := _metadata p;
     _motion_model := _motion_model p;
     _name := _name p;
     _global_frame := _global_frame p |}.

Definition set_lookup_table_size (v : Q) (p : SmacPlannerLattice) : SmacPlannerLattice :=
  {| _a_star := _a_star p;
     _collision_checker := _collision_checker p;
     _smoother := _smoother p;
     _costmap := _costmap p;
     _costmap_ros := _costmap_ros p;
     _search_info := _search_info p;
     _allow_unknown := _allow_unknown p;
     _max_iterations := _max_iterations p;
     _max_planning_time := _max_planning_time p;
     _lookup_table_size := v;
     _metadata := _metadata p;
     _motion_model := _motion_model p;
     _name := _name p;
     _global_frame := _global_frame p |}.

Definition set_metadata (v : LatticeMetadata) (p : SmacPlannerLattice) : SmacPlannerLattice :=
  {| _a_star := _a_star p;
     _collision_checker := _collision_checker p;
     _smoother := _smoother p;
     _costmap := _costmap p;
     _costmap_ros := _costmap_ros p;
     _search_info := _search_info p;
     _allow_unknown := _allow_unknown p;
     _max_iterations := _max_iterations p;
     _max_planning_time := _max_planning_time p;
     _lookup_table_size := _lookup_table_size p;
     _metadata := v;
     _motion_model := _motion_model p;
     _name := _name p;
     _global_frame := _global_frame p |}.

Definition on_search_info (f : SearchInfo -> SearchInfo)
    (p : SmacPlannerLattice) : SmacPlannerLattice :=
  set_search_info (f (_search_info p)) p.

(** *** configure *)

Definition configure (node : LifecycleNode) (name : string)
    (costmap_ros : Costmap2DROS) : result SmacPlannerLattice :=
  let costmap := getCostmap costmap_ros in
  (* General planner params *)
  let allow_unknown := param_allow_unknown node in
  let max_iterations := Int.to_int (param_max_iterations node) in
  let filepath := param_lattice_filepath node in
  let max_planning_time := param_max_planning_time node in
  let lookup_table_size := param_lookup_table_size node in
  match getLatticeMetadata filepath with
  | Throw e => Throw e
  | Ok metadata =>
      let search_info :=
        {| minimum_turning_radius :=
             float_div_double (Fp.finite (min_turning_radius metadata))
               (getResolution costmap);
           non_straight_penalty :=
             Fp.to_float (Fp.finite (param_non_straight_penalty node));
           change_penalty := Fp.to_float (Fp.finite (param_change_penalty node));
           reverse_penalty := Fp.to_float (Fp.finite (param_reverse_penalty node));
           cost_penalty := Fp.to_float (Fp.finite (param_cost_penalty node));
           analytic_expansion_ratio :=
             Fp.to_float (Fp.finite (param_analytic_expansion_ratio node));
           lattice_filepath := filepath;
           cache_obstacle_heuristic := param_cache_obstacle_heuristic node;
           allow_reverse_expansion := param_allow_reverse_expansion node |} in
      let motion_model := STATE_LATTICE in
      let max_iterations :=
        if (max_iterations <=? 0)%Z then Int.max else max_iterations in
      let lookup_table_dim :=
        lookup_table_dim lookup_table_size (getResolution costmap) in
      (* Initialize collision checker using 72 evenly sized bins *)
      let collision_checker :=
        {| checker_costmap := costmap;
           num_quantizations := 72;
           footprint := getRobotFootprint costmap_ros;
           use_radius := getUseRadius costmap_ros;
           circumscribed_cost := findCircumscribedCost costmap_ros |} in
      (* Initialize A* template *)
      let a_star :=
        make_a_star motion_model search_info allow_unknown max_iterations
          Int.max max_planning_time lookup_table_dim
          (number_of_headings metadata) in
      (* Initialize path smoother *)
      let smoother :=
        {| params := smoother_params node;
           smoother_min_turning_radius := min_turning_radius metadata |} in
      Ok {| _a_star := a_star;
            _collision_checker := collision_checker;
            _smoother := smoother;
            _costmap := costmap;
            _costmap_ros := costmap_ros;
            _search_info := search_info;
            _allow_unknown := allow_unknown;
            _max_iterations := max_iterations;
            _max_planning_time := max_planning_time;
            _lookup_table_size := lookup_table_size;
            _metadata := metadata;
            _motion_model := motion_model;
            _name := name;
            _global_frame := getGlobalFrameID costmap_ros |}
  end.

(** *** dynamicParametersCallback *)

(** The object together with the two locals of the callback. *)
Record Reinit : Type := {
  this : SmacPlannerLattice;
  reinit_a_star : bool;
  reinit_smoother : bool
}.

Definition assign (f : SmacPlannerLattice -> SmacPlannerLattice) : M Reinit unit :=
  modify (fun s =>
    {| this := f (this s);
       reinit_a_star := reinit_a_star s;
       reinit_smoother := reinit_smoother s |}).

Definition set_reinit_a_star : M Reinit unit :=
  modify (fun s =>
    {| this := this s; reinit_a_star := true; reinit_smoother := reinit_smoother s |}).

Definition set_reinit_smoother : M Reinit unit :=
  modify (fun s =>
    {| this := this s; reinit_a_star := reinit_a_star s; reinit_smoother := true |}).

(** The body of the loop over the parameters, lines 313-370. *)
Definition update_parameter (parameter : rclcpp_Parameter) : M Reinit unit :=
  _name <- gets (fun s => _name (this s)) ;;
  let name := get_name parameter in
  match get_value parameter with
  | PDouble d =>
      if name =? _name ++ ".max_planning_time" then
        (set_reinit_a_star ;; assign (set_max_planning_time d))
      else if name =? _name ++ ".lookup_table_size" then
        (set_reinit_a_star ;; assign (set_lookup_table_size d))
      else if name =? _name ++ ".reverse_penalty" then
        (set_reinit_a_star ;;
         assign (on_search_info (set_reverse_penalty (Fp.to_float (Fp.finite d)))))
      else if name =? _name ++ ".change_penalty" then
        (set_reinit_a_star ;;
         assign (on_search_info (set_change_penalty (Fp.to_float (Fp.finite d)))))
      else if name =? _name ++ ".non_straight_penalty" then
        (set_reinit_a_star ;;
         assign (on_search_info (set_non_straight_penalty (Fp.to_float (Fp.finite d)))))
      else if name =? _name ++ ".cost_penalty" then
        (set_reinit_a_star ;;
         assign (on_search_info (set_cost_penalty (Fp.to_float (Fp.finite d)))))
      else if name =? _name ++ ".analytic_expansion_ratio" then
        (set_reinit_a_star ;;
         assign (on_search_info
                   (set_analytic_expansion_ratio (Fp.to_float (Fp.finite d)))))
      else ret tt
  | PBool b =>
      if name =? _name ++ ".allow_unknown" then
        (set_reinit_a_star ;; assign (set_allow_unknown b))
      else if name =? _name ++ ".cache_obstacle_heuristic" then
        (set_reinit_a_star ;;
         assign (on_search_info (set_cache_obstacle_heuristic b)))
      else if name =? _name ++ ".allow_reverse_expansion" then
        (set_reinit_a_star ;;
         assign (on_search_info (set_allow_reverse_expansion b)))
      else ret tt
  | PInteger i =>
      if name =? _name ++ ".max_iterations" then
        (set_reinit_a_star ;;
         assign (set_max_iterations (Int.to_int i)) ;;
         m <- gets (fun s => _max_iterations (this s)) ;;
         if (m <=? 0)%Z then assign (set_max_iterations Int.max) else ret tt)
      else ret tt
  | PString str =>
      if name =? _name ++ ".lattice_filepath" then
        (set_reinit_a_star ;;
         set_reinit_smoother ;;
         assign (on_search_info (set_lattice_filepath str)) ;;
         path <- gets (fun s => lattice_filepath (_search_info (this s))) ;;
         metadata <- lift (getLatticeMetadata path) ;;
         assign (set_metadata metadata) ;;
         assign (fun p =>
           on_search_info
             (set_minimum_turning_radius
                (float_div_double (Fp.finite (min_turning_radius (_metadata p)))
                   (getResolution (_costmap p)))) p))
      else ret tt
  | PNotSet | PArray => ret tt
  end.

(** Lines 373-415: re-init if needed. *)
Definition reinitialize (node : LifecycleNode) (s : Reinit) : SmacPlannerLattice :=
  let p := this s in
  if reinit_a_star s || reinit_smoother s then
    (* convert to grid coordinates *)
    let minimum_turning_radius_global_coords :=
      minimum_turning_radius (_search_info p) in
    let p :=
      on_search_info
        (set_minimum_turning_radius
           (float_div_double (minimum_turning_radius (_search_info p))
              (getResolution (_costmap p)))) p in
    let lookup_table_dim :=
      lookup_table_dim (_lookup_table_size p) (getResolution (_costmap p)) in
    (* Re-Initialize smoother *)
    let p :=
      if reinit_smoother s then
        set_smoother
          {| params := smoother_params node;
             smoother_min_turning_radius := min_turning_radius (_metadata p) |} p
      else p in
    (* Re-Initialize A* template *)
    let p :=
      if reinit_a_star s then
        set_a_star
          (make_a_star (_motion_model p) (_search_info p) (_allow_unknown p)
             (_max_iterations p) Int.max (_max_planning_time p)
             lookup_table_dim (number_of_headings (_metadata p))) p
      else p in
    p
  else p.

(** The callback on the object [p].  When the loop throws, the exception
    leaves the callback and the object stays as the loop left it. *)
Definition dynamicParametersCallback (node : LifecycleNode)
    (parameters : list rclcpp_Parameter) (p : SmacPlannerLattice)
    : result SetParametersResult * SmacPlannerLattice :=
  match for_each update_parameter parameters
          {| this := p; reinit_a_star := false; reinit_smoother := false |} with
  | (Throw e, s) => (Throw e, this s)
  | (Ok _, s) => (Ok {| successful := true |}, reinitialize node s)
  end.

(** *** Vocabulary for the statements *)

(** The options the callback knows, by the kind of value each takes. *)
Definition double_options : list string :=
  [".max_planning_time"; ".lookup_table_size"; ".reverse_penalty";
   ".change_penalty"; ".non_straight_penalty"; ".cost_penalty";
   ".analytic_expansion_ratio"].
Definition bool_options : list string :=
  [".allow_unknown"; ".cache_obstacle_heuristic"; ".allow_reverse_expansion"].
Definition integer_options : list string := [".max_iterations"].
Definition string_options : list string := [".lattice_filepath"].

Definition names (plugin : string) (options : list string)
    (parameter : rclcpp_Parameter) : bool :=
  existsb (fun o => get_name parameter =? plugin ++ o) options.

(** A parameter whose name and type match a recognized option of the
    plugin called [plugin]. *)
Definition recognized (plugin : string) (parameter : rclcpp_Parameter) : bool :=
  match get_value parameter with
  | PDouble _ => names plugin double_options parameter
  | PBool _ => names plugin bool_options parameter
  | PInteger _ => names plugin integer_options parameter
  | PString _ => names plugin string_options parameter
  | PNotSet | PArray => false
  end.

(** The file a parameter asks to load, when it is a lattice file update. *)
Definition lattice_update (plugin : string) (parameter : rclcpp_Parameter)
    : option string :=
  match get_value parameter with
  | PString path =>
      if get_name parameter =? plugin ++ ".lattice_filepath" then Some path else None
  | _ => None
  end.

Definition loads (path : string) : bool :=
  match getLatticeMetadata path with
  | Ok _ => true
  | Throw _ => false
  end.

(** Every lattice file the list asks for loads. *)
Definition loadable (plugin : string) (parameters : list rclcpp_Parameter) : bool :=
  forallb (fun parameter =>
             match lattice_update plugin parameter with
             | Some path => loads path
             | None => true
             end) parameters.

Definition no_lattice_update (plugin : string) (parameters : list rclcpp_Parameter) : bool :=
  forallb (fun parameter =>
             match lattice_update plugin parameter with
             | Some _ => false
             | None => true
             end) parameters.

(** The integer a parameter asks to use as iteration budget, when it is an
    update of max_iterations. *)
Definition max_iterations_update (plugin : string) (parameter : rclcpp_Parameter)
    : option Z :=
  match get_value parameter with
  | PInteger i =>
      if get_name parameter =? plugin ++ ".max_iterations" then Some i else None
  | _ => None
  end.

Definition no_max_iterations_update (plugin : string)
    (parameters : list rclcpp_Parameter) : bool :=
  forallb (fun parameter =>
             match max_iterations_update plugin parameter with
             | Some _ => false
             | None => true
             end) parameters.

(** A search that produced no path: it returned false, or threw. *)
Definition failed (o : CreatePathOutcome) : bool :=
  match o with
  | Returns found _ _ => negb found
  | Throws _ => true
  end.

(** The table size and resolution for which the conversion of the
    quotient to [int] is defined and the cell count stays where a [float]
    holds every integer: below 2^24 in magnitude. *)
Definition table_in_range (lookup_table_size resolution : Q) : Prop :=
  exists cells,
    lookup_table_cells lookup_table_size resolution = Some cells /\
    (Z.abs cells < 16777216)%Z.

(** A failed search that the handler of [createPlan] sees: it returned
    false, or threw an exception the handler catches. *)
Definition recovered (o : CreatePathOutcome) : bool :=
  match o with
  | Returns found _ _ => negb found
  | Throws (runtime_error _) => true
  | Throws (other_exception _) => false
  end.

(** *** createPlan *)

Variable worldToMap : Costmap2D -> Q -> Q -> option (Z * Z).
Variable getYaw : Quaternion -> Q.
Variable getClosestAngularBin : Q -> Z.
Variable getWorldCoords : Q -> Q -> Costmap2D -> Pose.
Variable getWorldOrientation : Q -> Quaternion.

(** [Smoother::smooth(plan, costmap, time_remaining)]: the plan after the
    call. *)
Variable smooth : Smoother -> Path -> Costmap2D -> Fp.t -> Path.

(** The engine's search, run on the engine as [createPlan] prepared it. *)
Variable createPath : AStarAlgorithm -> CreatePathOutcome.

(** What a call reads from outside the object. *)
Record Surroundings : Type := {
  steady_clock_a : Z;           (* steady_clock::now() on entry, ns *)
  steady_clock_b : Z;           (* steady_clock::now() after the search, ns *)
  clock_now : Z;                (* _clock->now() *)
  subscription_count : Z;       (* of the raw plan publisher *)
  mx_my : Z * Z                 (* the locals mx, my before worldToMap *)
}.

(** Lines 241-255: the local [error] after the try block, or the
    exception that its handler does not catch. *)
Definition plan_error (a_star : AStarAlgorithm) (o : CreatePathOutcome)
    : result string :=
  match o with
  | Returns found _ num_iterations =>
      if negb found then
        if (num_iterations <? getMaxIterations a_star)%Z
        then Ok "no valid path found"
        else Ok "exceeded maximum iterations"
      else Ok ""
  | Throws (runtime_error what) => Ok ("invalid use: " ++ what)
  | Throws e => Throw e
  end.

Definition plan_path (o : CreatePathOutcome) : CoordinateVector :=
  match o with
  | Returns _ path _ => path
  | Throws _ => []
  end.

Definition plan_iterations (o : CreatePathOutcome) : Z :=
  match o with
  | Returns _ _ num_iterations => num_iterations
  | Throws _ => 0
  end.

(** One turn of the loop of lines 267-271. *)
Definition world_pose (h : Header) (costmap : Costmap2D) (c : Coordinates) : PoseStamped :=
  {| header := h;
     pose :=
       {| position := position (getWorldCoords (coord_x c) (coord_y c) costmap);
          orientation := getWorldOrientation (coord_theta c) |} |}.

(** The plan before smoothing: the path in world coordinates, last search
    node first. *)
Definition raw_plan (h : Header) (costmap : Costmap2D) (path : CoordinateVector) : Path :=
  {| path_header := h; poses := map (world_pose h costmap) (rev path) |}.

(** The positions and orientations of a plan, in order, without the
    headers of its poses. *)
Definition geometry (plan : Path) : list Pose := map pose (poses plan).

(** Lines 212-226: the engine with the collision checker, the start and
    the goal set. *)
Definition prepare (w : Surroundings) (start_pose goal_pose : PoseStamped)
    (p : SmacPlannerLattice) : AStarAlgorithm :=
  let costmap := _costmap p in
  (* Set collision checker and costmap information *)
  let a_star := setCollisionChecker (_collision_checker p) (_a_star p) in
  (* Set starting point, in A* bin search coordinates *)
  let m :=
    match worldToMap costmap (point_x (position (pose start_pose)))
            (point_y (position (pose start_pose))) with
    | Some c => c
    | None => mx_my w
    end in
  let a_star :=
    setStart (fst m) (snd m)
      (getClosestAngularBin (getYaw (orientation (pose start_pose)))) a_star in
  (* Set goal point, in A* bin search coordinates *)
  let m :=
    match worldToMap costmap (point_x (position (pose goal_pose)))
            (point_y (position (pose goal_pose))) with
    | Some c => c
    | None => m
    end in
  setGoal (fst m) (snd m)
    (getClosestAngularBin (getYaw (orientation (pose goal_pose)))) a_star.

Definition plan_header (w : Surroundings) (p : SmacPlannerLattice) : Header :=
  {| stamp := clock_now w; frame_id := _global_frame p |}.

(** Lines 278-281: [b - a] is a count of nanoseconds, a 64-bit integer;
    [duration_cast] to seconds in [double] converts the count to [double]
    and divides it by 10^9. *)
Definition time_remaining (w : Surroundings) (p : SmacPlannerLattice) : Fp.t :=
  let time_span :=
    Fp.double_div (Fp.double_of_int (steady_clock_b w - steady_clock_a w))
      (Fp.finite 1000000000) in
  Fp.double_sub (Fp.finite (_max_planning_time p)) time_span.

(** The call on the object [p]: what it returns or the exception that
    leaves it, what it does besides, and the object after it. *)
Definition createPlan (w : Surroundings) (start_pose goal_pose : PoseStamped)
    (p : SmacPlannerLattice) : result Path * list Event * SmacPlannerLattice :=
  let costmap := _costmap p in
  let a_star := prepare w start_pose goal_pose p in
  let p := set_a_star a_star p in
  (* Setup message *)
  let h := plan_header w p in
  let plan := {| path_header := h; poses := [] |} in
  (* Compute plan *)
  let o := createPath a_star in
  match plan_error a_star o with
  | Throw e => (Throw e, [], p)
  | Ok error =>
      if negb (error =? "") then
        (Ok plan,
         [Warn (_name p ++ ": failed to create plan, " ++ error ++ ".")],
         p)
      else
        (* Convert to world coordinates *)
        let plan := raw_plan h costmap (plan_path o) in
        (* Publish raw path for debug *)
        let published :=
          if (0 <? subscription_count w)%Z then [Publish plan] else [] in
        (* Find how much time we have left to do smoothing *)
        let time_remaining := time_remaining w p in
        (* Smooth plan *)
        if (1 <? plan_iterations o)%Z
           && (6 <? Z.of_nat (List.length (poses plan)))%Z then
          (Ok (smooth (_smoother p) plan costmap time_remaining),
           (published ++ [Smooth plan time_remaining])%list,
           p)
        else (Ok plan, published, p)
  end.

(** *** The search behind createPath *)

Section Search.

Variable SearchNode : Type.

(** Modelled from the spec: the engine's expand loop is not under src/.
    What one iteration comes to, after section 4.4: the open set is found
    empty, the goal is reached (by expansion or by the analytic shortcut)
    with the path that leads to it, or the search goes on from a new
    state. *)
Inductive Expansion : Type :=
| OpenSetEmpty
| GoalReached (path : CoordinateVector)
| Expanded (next : SearchNode).

(** Modelled from the spec: the four ways the search ends, section 4.4,
    "Termination". *)
Inductive Termination : Type :=
| Success | NoPathFound | IterationsExceeded | TimeExceeded.

(** One pop-and-expand on the search state, the wall clock read at the
    head of iteration [i] as time since the search began, and the search
    state the engine starts from. *)
Variable expand : SearchNode -> Expansion.
Variable elapsed : Z -> Q.
Variable initial : AStarAlgorithm -> SearchNode.

(** Modelled from the spec: [AStarAlgorithm::createPath] is not under
    src/.  Section 4.4: the loop expands one node per iteration; it ends
    in success when the goal is reached, "NoPathFound if open set empties
    before reaching goal", "IterationsExceeded if the iteration budget is
    exhausted before the above", and "wall-clock deadline is checked each
    iteration; expiry yields TimeExceeded".  [budget] is what is left of the
    iteration budget, [iterations] the count so far, which is the
    out-parameter the call site reads. *)
Fixpoint expand_loop (budget : nat) (deadline : Q) (iterations : Z)
    (n : SearchNode) : Termination * CoordinateVector * Z :=
  match budget with
  | O => (IterationsExceeded, [], iterations)
  | S budget' =>
      if Qle_bool deadline (elapsed iterations) then
        (TimeExceeded, [], iterations)
      else
        match expand n with
        | OpenSetEmpty => (NoPathFound, [], iterations)
        | GoalReached path => (Success, path, (iterations + 1)%Z)
        | Expanded n' => expand_loop budget' deadline (iterations + 1)%Z n'
        end
  end.

(** Modelled from the spec: the search of an engine, with the budget and
    the deadline [initialize] gave it. *)
Definition search (a : AStarAlgorithm) : Termination * CoordinateVector * Z :=
  expand_loop (Z.to_nat (getMaxIterations a)) (max_planning_time a) 0%Z (initial a).

Definition termination (a : AStarAlgorithm) : Termination := fst (fst (search a)).

(** Modelled from the spec: [createPath] as the call site sees it; every
    ending but success "manifests as no path produced", the boolean
    false. *)
Definition search_createPath (a : AStarAlgorithm) : CreatePathOutcome :=
  match search a with
  | (Success, path, iterations) => Returns true path iterations
  | (_, path, iterations) => Returns false path iterations
  end.

(** The count handed back lies between the count on entry and the
    budget; it is below the budget when the deadline ended the loop and at
    the budget when the budget did. *)
Lemma expand_loop_count (budget : nat) (deadline : Q) (i : Z) (n : SearchNode)
    (t : Termination) (path : CoordinateVector) (k : Z) :
  expand_loop budget deadline i n = (t, path, k) ->
  (i <= k)%Z /\
  (t = TimeExceeded -> (k < i + Z.of_nat budget)%Z) /\
  (t = IterationsExceeded -> k = (i + Z.of_nat budget)%Z).
Proof.
  revert i n. induction budget as [| budget IH]; intros i n H.
  - cbn in H. injection H as <- <- <-.
    repeat split; try lia; discriminate.
  - cbn [expand_loop] in H.
    destruct (Qle_bool deadline (elapsed i)).
    + injection H as <- <- <-. repeat split; try lia; discriminate.
    + destruct (expand n) as [| found | n'].
      * injection H as <- <- <-. repeat split; try lia; discriminate.
      * injection H as <- <- <-. repeat split; try lia; discriminate.
      * apply IH in H. destruct H as (H1 & H2 & H3).
        repeat split; [lia | intros E; specialize (H2 E); lia
                      | intros E; specialize (H3 E); lia].
Qed.

(** What the call site is handed when the deadline or the budget ended
    the search: false, with a count below the budget in the first case and
    not below it in the second. *)
Lemma search_createPath_count (a : AStarAlgorithm) :
  (termination a = TimeExceeded ->
   exists path k,
     search_createPath a = Returns false path k /\ (k < getMaxIterations a)%Z) /\
  (termination a = IterationsExceeded ->
   exists path k,
     search_createPath a = Returns false path k /\ (getMaxIterations a <= k)%Z).
Proof.
  unfold termination, search_createPath, search.
  destruct (expand_loop _ _ _ _) as [[t path] k] eqn:E. cbn [fst].
  apply expand_loop_count in E. destruct E as (Hk & Hlt & Heq).
  split; intros ->; exists path, k; (split; [reflexivity |]).
  - specialize (Hlt eq_refl). lia.
  - specialize (Heq eq_refl). lia.
Qed.

End Search.

(** ** Facts *)

(** *** Numbers *)

Lemma to_int_in_range (z : Z) : Int.in_range (Int.to_int z).
Proof.
unfold Int.in_range, Int.to_int, Int.min, Int.max.
pose proof (Z.mod_pos_bound (z + 2147483648) 4294967296 eq_refl). lia.
Qed.

Lemma to_int_id (z : Z) : Int.in_range z -> Int.to_int z = z.
Proof.
unfold Int.in_range, Int.to_int, Int.min, Int.max. intros H.
rewrite Z.mod_small by lia. lia.
Qed.


(** *** Integers of at most [prec] bits are left alone *)

Lemma Qred_inject_Z (k : Z) : Qred (inject_Z k) = inject_Z k.
Proof.
unfold Qred, inject_Z.
pose proof (Z.ggcd_gcd k 1) as Hg.
pose proof (Z.ggcd_correct_divisors k 1) as Hd.
destruct (Z.ggcd k 1) as [g [r1 r2]]. simpl in *.
rewrite Z.gcd_1_r in Hg. subst g. destruct Hd as [H1 H2].
replace r1 with k by lia. replace r2 with 1%Z by lia. reflexivity.
Qed.

Lemma round_half_even_comp (p q : Q) :
p == q -> Fp.round_half_even p = Fp.round_half_even q.
Proof.
intros H. unfold Fp.round_half_even.
rewrite (Qfloor_comp _ _ H).
assert (E : p - inject_Z (Qfloor q) == q - inject_Z (Qfloor q))
  by (rewrite H; reflexivity).
rewrite (Qcompare_comp _ _ E _ _ (Qeq_refl (1 # 2))). reflexivity.
Qed.

Lemma round_half_even_Z (k : Z) : Fp.round_half_even (inject_Z k) = k.
Proof.
unfold Fp.round_half_even. rewrite Qfloor_Z.
assert (E : inject_Z k - inject_Z k == 0) by ring.
rewrite (Qcompare_comp _ _ E _ _ (Qeq_refl (1 # 2))). reflexivity.
Qed.

Lemma pow2_nonpos (d : Z) :
(0 <= d)%Z -> Fp.pow2 (- d) == / inject_Z (2 ^ d).
Proof.
intros Hd. unfold Fp.pow2.
destruct (Z.leb_spec 0 (- d)) as [H | H].
- assert (d = 0%Z) by lia. subst d. reflexivity.
- rewrite Z.opp_involutive. reflexivity.
Qed.

Lemma ilog2_inject_Z (k : Z) :
k <> 0%Z -> Fp.ilog2 (inject_Z k) = Z.log2 (Z.abs k).
Proof.
intros Hk. unfold Fp.ilog2. cbn [Qnum Qden inject_Z].
change (Z.log2 1) with 0%Z. rewrite Z.sub_0_r.
pose proof (Z.log2_nonneg (Z.abs k)) as Hn.
unfold Fp.pow2. destruct (Z.leb_spec 0 (Z.log2 (Z.abs k))) as [_ | H]; [| lia].
assert (Hle : Qle_bool (inject_Z (2 ^ Z.log2 (Z.abs k))) (Qabs (inject_Z k)) = true).
{ apply Qle_bool_iff. unfold Qle, Qabs, inject_Z. cbn [Qnum Qden].
  rewrite !Z.mul_1_r. apply Z.log2_spec. lia. }
rewrite Hle. reflexivity.
Qed.

Theorem round_inject_Z (prec emin k : Z) :
(0 < prec)%Z -> (emin <= 0)%Z -> (Z.abs k < 2 ^ prec)%Z ->
Fp.round prec emin (inject_Z k) = inject_Z k.
Proof.
intros Hp He Hk. unfold Fp.round.
destruct (Qeq_bool (inject_Z k) 0) eqn:E0.
- apply Qeq_bool_iff in E0. unfold Qeq, inject_Z in E0. cbn in E0.
  replace k with 0%Z by lia. reflexivity.
- assert (Hk0 : k <> 0%Z).
  { intros ->. discriminate E0. }
  rewrite (ilog2_inject_Z k Hk0).
  set (L := Z.log2 (Z.abs k)).
  assert (HL : (0 <= L < prec)%Z).
  { split; [apply Z.log2_nonneg |].
    apply Z.log2_lt_pow2; lia. }
  rewrite Z.max_l by lia.
  set (d := (prec - 1 - L)%Z).
  replace (L - (prec - 1))%Z with (- d)%Z by (unfold d; lia).
  assert (Hd : (0 <= d)%Z) by (unfold d; lia).
  assert (H2 : ~ inject_Z (2 ^ d) == 0).
  { unfold Qeq, inject_Z. cbn [Qnum Qden].
    pose proof (Z.pow_pos_nonneg 2 d eq_refl Hd). lia. }
  assert (Hq : inject_Z k / Fp.pow2 (- d) == inject_Z (k * 2 ^ d)).
  { rewrite (pow2_nonpos d Hd), inject_Z_mult. field. exact H2. }
  rewrite (round_half_even_comp _ _ Hq), round_half_even_Z.
  transitivity (Qred (inject_Z k)); [| apply Qred_inject_Z].
  apply Qred_complete.
  rewrite (pow2_nonpos d Hd), inject_Z_mult. field. exact H2.
Qed.

Lemma pow2_nonneg_exact (e : Z) : (0 <= e)%Z -> Fp.pow2 e = inject_Z (2 ^ e).
Proof.
  intros H. unfold Fp.pow2.
  destruct (Z.leb_spec 0 e) as [_ | Hlt]; [reflexivity | lia].
Qed.

(** In a format whose largest exponent is at least [prec - 1], an integer
    of at most [prec] bits is a value of the format. *)
Lemma of_Q_inject_Z (prec emin emax k : Z) :
  (0 < prec)%Z -> (emin <= 0)%Z -> (prec - 1 <= emax)%Z ->
  (Z.abs k < 2 ^ prec)%Z ->
  Fp.of_Q prec emin emax (inject_Z k) = Fp.finite (inject_Z k).
Proof.
  intros Hp He Hm Hk. unfold Fp.of_Q. cbn zeta.
  rewrite (round_inject_Z prec emin k Hp He Hk).
  assert (Hle : Qle_bool (Qabs (inject_Z k)) (Fp.largest prec emax) = true).
  { apply Qle_bool_iff. unfold Fp.largest.
    rewrite pow2_nonneg_exact by lia.
    unfold Qle, Qabs, Qmult, inject_Z. cbn [Qnum Qden].
    pose proof (Z.pow_pos_nonneg 2 (emax - (prec - 1)) eq_refl ltac:(lia)).
    change (Z.pos (1 * 1)) with 1%Z. nia. }
  rewrite Hle. reflexivity.
Qed.

Corollary float_of_int_exact (k : Z) :
  (Z.abs k < 16777216)%Z -> Fp.float_of_int k = Fp.finite (inject_Z k).
Proof. intros H. apply of_Q_inject_Z; lia. Qed.

Corollary to_float_inject_Z (k : Z) :
  (Z.abs k < 16777216)%Z ->
  Fp.to_float (Fp.finite (inject_Z k)) = Fp.finite (inject_Z k).
Proof. intros H. apply of_Q_inject_Z; lia. Qed.

Corollary double_of_Q_inject_Z (k : Z) :
  (Z.abs k < 9007199254740992)%Z ->
  Fp.of_Q 53 (-1022) 1023 (inject_Z k) = Fp.finite (inject_Z k).
Proof. intros H. apply of_Q_inject_Z; lia. Qed.

Lemma to_int_inject_Z (n : Z) :
  Int.in_range n -> Fp.to_int (Fp.finite (inject_Z n)) = Some n.
Proof.
  unfold Int.in_range. intros [H1 H2].
  unfold Fp.to_int, inject_Z. cbn [Qnum Qden]. rewrite Z.quot_1_r.
  destruct (Z.leb_spec Int.min n); [| lia].
  destruct (Z.leb_spec n Int.max); [reflexivity | lia].
Qed.

Lemma rem_2_even (n : Z) : (Z.rem n 2 =? 0)%Z = Z.even n.
Proof.
  pose proof (Z.quot_rem' n 2) as Hq.
  destruct (Z.even n) eqn:E.
  - apply Z.even_spec in E. destruct E as [k ->].
    rewrite Z.mul_comm, Z.rem_mul by lia. reflexivity.
  - apply Z.eqb_neq. intros H0.
    assert (Ho : Z.odd n = true) by (rewrite <- Z.negb_even, E; reflexivity).
    apply Z.odd_spec in Ho. destruct Ho as [k Hk]. lia.
Qed.

Lemma inject_Z_plus_1 (n : Z) : (inject_Z n + 1)%Q = inject_Z (n + 1).
Proof.
  unfold Qplus, inject_Z. cbn [Qnum Qden]. f_equal. lia.
Qed.

Lemma is_odd_inject_Z (k : Z) : is_odd (Some (Fp.finite (inject_Z k))) = Z.odd k.
Proof. unfold is_odd. rewrite Qred_inject_Z. reflexivity. Qed.

(** The dimension below 2^24 cells: the cell count, or the next integer
    when the count is even. *)
Lemma lookup_table_dim_exact (size res : Q) (cells : Z) :
  lookup_table_cells size res = Some cells ->
  (Z.abs cells < 16777216)%Z ->
  lookup_table_dim size res =
  Some (Fp.finite (inject_Z (if Z.even cells then cells + 1 else cells))).
Proof.
  unfold lookup_table_cells, lookup_table_dim. intros Hc Hn.
  cbn zeta. rewrite Hc.
  rewrite (float_of_int_exact cells Hn).
  rewrite to_int_inject_Z by (unfold Int.in_range, Int.min, Int.max; lia).
  rewrite rem_2_even.
  destruct (Z.even cells) eqn:E; [| reflexivity].
  unfold Fp.double_add, Fp.add. rewrite inject_Z_plus_1.
  rewrite double_of_Q_inject_Z by lia.
  rewrite to_float_inject_Z; [reflexivity |].
  apply Z.even_spec in E. destruct E as [k Hk]. lia.
Qed.

Lemma lookup_table_dim_is_odd (size res : Q) :
  table_in_range size res ->
  is_odd (lookup_table_dim size res) = true.
Proof.
  intros (cells & Hc & Hn).
  rewrite (lookup_table_dim_exact size res cells Hc Hn), is_odd_inject_Z.
  destruct (Z.even cells) eqn:E.
  - rewrite Z.add_1_r, Z.odd_succ. exact E.
  - rewrite <- Z.negb_even, E. reflexivity.
Qed.

(** *** The parameter loop *)

(** What no parameter touches. *)
Definition frame (s s' : Reinit) : Prop :=
  _a_star (this s') = _a_star (this s) /\
  _smoother (this s') = _smoother (this s) /\
  _collision_checker (this s') = _collision_checker (this s) /\
  _costmap (this s') = _costmap (this s) /\
  _costmap_ros (this s') = _costmap_ros (this s) /\
  _motion_model (this s') = _motion_model (this s) /\
  _name (this s') = _name (this s) /\
  _global_frame (this s') = _global_frame (this s).

Ltac unfold_update :=
  unfold update_parameter, bind, gets, modify, assign, set_reinit_a_star,
    set_reinit_smoother, ret, lift, on_search_info.

Ltac split_update :=
  repeat match goal with
    | |- context [match get_value ?p with _ => _ end] => destruct (get_value p) eqn:?
    | |- context [if (?a =? ?b)%string then _ else _] => destruct (a =? b)%string eqn:?
    | |- context [if (?a <=? ?b)%Z then _ else _] => destruct (a <=? b)%Z eqn:?
    | |- context [match getLatticeMetadata ?x with _ => _ end] =>
        destruct (getLatticeMetadata x) eqn:?
    end.

Lemma frame_refl (s : Reinit) : frame s s.
Proof. repeat split. Qed.

Lemma frame_trans (s1 s2 s3 : Reinit) : frame s1 s2 -> frame s2 s3 -> frame s1 s3.
Proof.
  unfold frame. intros H1 H2.
  repeat match goal with H : _ /\ _ |- _ => destruct H end.
  repeat split; congruence.
Qed.

Lemma update_parameter_frame (parameter : rclcpp_Parameter) (s : Reinit) :
  frame s (snd (update_parameter parameter s)).
Proof.
  unfold_update. cbn. split_update; cbn; apply frame_refl || (repeat split).
Qed.

Lemma for_each_frame (parameters : list rclcpp_Parameter) (s : Reinit) :
  frame s (snd (for_each update_parameter parameters s)).
Proof.
  revert s. induction parameters as [| parameter rest IH]; intros s.
  - apply frame_refl.
  - cbn [for_each]. unfold bind.
    pose proof (update_parameter_frame parameter s) as H1.
    destruct (update_parameter parameter s) as [[[] | e] s1]; cbn [snd] in *.
    + eapply frame_trans; [exact H1 | apply IH].
    + exact H1.
Qed.

Lemma for_each_app {S A : Type} (body : A -> M S unit) (xs ys : list A) (s : S) :
  for_each body (xs ++ ys) s =
  match for_each body xs s with
  | (Ok _, s') => for_each body ys s'
  | (Throw e, s') => (Throw e, s')
  end.
Proof.
  revert s. induction xs as [| x xs IH]; intros s.
  - reflexivity.
  - cbn [for_each app]. unfold bind.
    destruct (body x s) as [[[] | e] s1]; [apply IH | reflexivity].
Qed.

(** A parameter that asks for no lattice file, or for one that loads,
    does not throw. *)
Lemma update_parameter_ok (parameter : rclcpp_Parameter) (s : Reinit) :
  match lattice_update (_name (this s)) parameter with
  | Some path => loads path
  | None => true
  end = true ->
  fst (update_parameter parameter s) = Ok tt.
Proof.
  unfold lattice_update, loads. unfold_update. cbn.
  split_update; cbn; intros H; (reflexivity || discriminate H).
Qed.

Lemma for_each_ok (parameters : list rclcpp_Parameter) (s : Reinit) :
  loadable (_name (this s)) parameters = true ->
  fst (for_each update_parameter parameters s) = Ok tt.
Proof.
  revert s. induction parameters as [| parameter rest IH]; intros s H.
  - reflexivity.
  - cbn [loadable forallb] in H. apply andb_prop in H. destruct H as [H1 H2].
    cbn [for_each]. unfold bind.
    pose proof (update_parameter_ok parameter s H1) as Hok.
    pose proof (update_parameter_frame parameter s) as Hf.
    destruct (update_parameter parameter s) as [r s1]. cbn [fst snd] in *.
    subst r. apply IH.
    destruct Hf as (_ & _ & _ & _ & _ & _ & Hname & _). rewrite Hname. exact H2.
Qed.

(** A parameter that matches no recognized option changes nothing. *)
Lemma update_parameter_unrecognized (parameter : rclcpp_Parameter) (s : Reinit) :
  recognized (_name (this s)) parameter = false ->
  update_parameter parameter s = (Ok tt, s).
Proof.
  unfold recognized, names, double_options, bool_options, integer_options,
    string_options.
  unfold_update. cbn.
  destruct (get_value parameter); cbn [existsb]; intros H;
    repeat (apply orb_false_elim in H; destruct H as [?E H]);
    repeat match goal with E : (_ =? _)%string = false |- _ => rewrite E; clear E end;
    reflexivity.
Qed.

Lemma for_each_unrecognized (parameters : list rclcpp_Parameter) (s : Reinit) :
  forallb (fun parameter => negb (recognized (_name (this s)) parameter)) parameters = true ->
  for_each update_parameter parameters s = (Ok tt, s).
Proof.
  induction parameters as [| parameter rest IH]; intros H.
  - reflexivity.
  - cbn [forallb] in H. apply andb_prop in H. destruct H as [H1 H2].
    apply negb_true_iff in H1.
    cbn [for_each]. unfold bind.
    rewrite (update_parameter_unrecognized parameter s H1). apply IH. exact H2.
Qed.

(** What only a lattice file update touches. *)
Definition lattice_frame (s s' : Reinit) : Prop :=
  _metadata (this s') = _metadata (this s) /\
  minimum_turning_radius (_search_info (this s')) =
    minimum_turning_radius (_search_info (this s)) /\
  lattice_filepath (_search_info (this s')) =
    lattice_filepath (_search_info (this s)) /\
  reinit_smoother s' = reinit_smoother s.

Lemma update_parameter_lattice_frame (parameter : rclcpp_Parameter) (s : Reinit) :
  lattice_update (_name (this s)) parameter = None ->
  fst (update_parameter parameter s) = Ok tt /\
  lattice_frame s (snd (update_parameter parameter s)).
Proof.
  unfold lattice_update, lattice_frame. unfold_update. cbn.
  split_update; cbn; intros H; try discriminate H; repeat split.
Qed.

Lemma for_each_lattice_frame (parameters : list rclcpp_Parameter) (s : Reinit) :
  no_lattice_update (_name (this s)) parameters = true ->
  fst (for_each update_parameter parameters s) = Ok tt /\
  lattice_frame s (snd (for_each update_parameter parameters s)).
Proof.
  revert s. induction parameters as [| parameter rest IH]; intros s H.
  - repeat split.
  - cbn [no_lattice_update forallb] in H. apply andb_prop in H. destruct H as [H1 H2].
    assert (Hn : lattice_update (_name (this s)) parameter = None)
      by (destruct (lattice_update (_name (this s)) parameter); [discriminate H1 | reflexivity]).
    cbn [for_each]. unfold bind.
    destruct (update_parameter_lattice_frame parameter s Hn) as [Hok Hl].
    pose proof (update_parameter_frame parameter s) as Hf.
    destruct (update_parameter parameter s) as [r s1]. cbn [fst snd] in *.
    subst r.
    assert (Hname : _name (this s1) = _name (this s)) by apply Hf.
    destruct (IH s1) as [Hok' Hl']; [rewrite Hname; exact H2 |].
    split; [exact Hok' |].
    unfold lattice_frame in *.
    destruct Hl as (? & ? & ? & ?), Hl' as (? & ? & ? & ?).
    repeat split; congruence.
Qed.

(** What only an update of max_iterations touches; the flag for the
    engine, once set, stays set. *)
Lemma update_parameter_max_iterations (parameter : rclcpp_Parameter) (s : Reinit) :
  max_iterations_update (_name (this s)) parameter = None ->
  _max_iterations (this (snd (update_parameter parameter s))) = _max_iterations (this s).
Proof.
  unfold max_iterations_update. unfold_update. cbn.
  split_update; cbn; intros H; try discriminate H; reflexivity.
Qed.

Lemma update_parameter_flag (parameter : rclcpp_Parameter) (s : Reinit) :
  reinit_a_star s = true ->
  reinit_a_star (snd (update_parameter parameter s)) = true.
Proof.
  unfold_update. cbn. split_update; cbn; intros H; (exact H || reflexivity).
Qed.

Lemma for_each_max_iterations (parameters : list rclcpp_Parameter) (s : Reinit) :
  no_max_iterations_update (_name (this s)) parameters = true ->
  reinit_a_star s = true ->
  _max_iterations (this (snd (for_each update_parameter parameters s))) =
    _max_iterations (this s) /\
  reinit_a_star (snd (for_each update_parameter parameters s)) = true.
Proof.
  revert s. induction parameters as [| parameter rest IH]; intros s H Hflag.
  - split; [reflexivity | exact Hflag].
  - cbn [no_max_iterations_update forallb] in H. apply andb_prop in H.
    destruct H as [H1 H2].
    assert (Hn : max_iterations_update (_name (this s)) parameter = None)
      by (destruct (max_iterations_update (_name (this s)) parameter);
          [discriminate H1 | reflexivity]).
    cbn [for_each]. unfold bind.
    pose proof (update_parameter_max_iterations parameter s Hn) as Hm.
    pose proof (update_parameter_flag parameter s Hflag) as Hfl.
    pose proof (update_parameter_frame parameter s) as Hf.
    destruct (update_parameter parameter s) as [[[] | e] s1]; cbn [fst snd] in *.
    + assert (Hname : _name (this s1) = _name (this s)) by apply Hf.
      destruct (IH s1) as [Hm' Hfl']; [rewrite Hname; exact H2 | exact Hfl |].
      split; [congruence | exact Hfl'].
    + split; [exact Hm | exact Hfl].
Qed.

(** The update of max_iterations with a value that is not positive as an
    [int]. *)
Lemma update_parameter_unbounded (parameter : rclcpp_Parameter) (v : Z) (s : Reinit) :
  max_iterations_update (_name (this s)) parameter = Some v ->
  (Int.to_int v <= 0)%Z ->
  let s' := snd (update_parameter parameter s) in
  fst (update_parameter parameter s) = Ok tt /\
  _max_iterations (this s') = Int.max /\
  reinit_a_star s' = true.
Proof.
  unfold max_iterations_update. unfold_update. cbn.
  destruct (get_value parameter) eqn:Ev; try discriminate.
  destruct (get_name parameter =? _name (this s) ++ ".max_iterations")%string;
    [| discriminate].
  intros Hv Hr. injection Hv as ->.
  cbn. destruct (Z.leb_spec (Int.to_int v) 0) as [_ | Hgt]; [| lia].
  cbn. repeat split.
Qed.

(** *** Rebuilding *)

Lemma reinitialize_keeps (node : LifecycleNode) (s : Reinit) :
  let p' := reinitialize node s in
  _max_iterations p' = _max_iterations (this s) /\
  _lookup_table_size p' = _lookup_table_size (this s) /\
  _costmap p' = _costmap (this s) /\
  _metadata p' = _metadata (this s) /\
  _name p' = _name (this s).
Proof.
  unfold reinitialize, on_search_info.
  destruct (reinit_a_star s), (reinit_smoother s); cbn; repeat split.
Qed.

Lemma reinitialize_a_star (node : LifecycleNode) (s : Reinit) :
  let p' := reinitialize node s in
  if reinit_a_star s then
    getMaxIterations (_a_star p') = _max_iterations (this s) /\
    lookup_table_size (_a_star p') =
      lookup_table_dim (_lookup_table_size (this s)) (getResolution (_costmap (this s))) /\
    minimum_turning_radius (search_info (_a_star p')) =
      float_div_double (minimum_turning_radius (_search_info (this s)))
        (getResolution (_costmap (this s)))
  else _a_star p' = _a_star (this s).
Proof.
  unfold reinitialize, on_search_info.
  destruct (reinit_a_star s), (reinit_smoother s); cbn; repeat split.
Qed.

(** The engine after the callback is the one before it, or one built with
    the dimension computed from the current table size and resolution. *)
Lemma callback_a_star (node : LifecycleNode) (parameters : list rclcpp_Parameter)
    (p : SmacPlannerLattice) :
  let p' := snd (dynamicParametersCallback node parameters p) in
  _a_star p' = _a_star p \/
  lookup_table_size (_a_star p') =
    lookup_table_dim (_lookup_table_size p') (getResolution (_costmap p')).
Proof.
  unfold dynamicParametersCallback.
  set (s0 := {| this := p; reinit_a_star := false; reinit_smoother := false |}).
  pose proof (for_each_frame parameters s0) as Hf.
  destruct (for_each update_parameter parameters s0) as [[[] | e] s]; cbn [snd] in *.
  - pose proof (reinitialize_a_star node s) as Ha.
    pose proof (reinitialize_keeps node s) as (_ & Hsize & Hmap & _).
    cbn zeta in Ha. destruct (reinit_a_star s).
    + right. rewrite Hsize, Hmap. apply Ha.
    + left. rewrite Ha. apply Hf.
  - left. apply Hf.
Qed.

(** The turning radius a rebuilt engine gets when the list loads no
    lattice file: the stored, already scaled radius divided by the
    resolution once more. *)
Lemma callback_turning_radius (node : LifecycleNode)
    (parameters : list rclcpp_Parameter) (p : SmacPlannerLattice) :
  no_lattice_update (_name p) parameters = true ->
  let p' := snd (dynamicParametersCallback node parameters p) in
  _a_star p' = _a_star p \/
  minimum_turning_radius (search_info (_a_star p')) =
    float_div_double (minimum_turning_radius (_search_info p))
      (getResolution (_costmap p)).
Proof.
  intros Hno. unfold dynamicParametersCallback.
  set (s0 := {| this := p; reinit_a_star := false; reinit_smoother := false |}).
  destruct (for_each_lattice_frame parameters s0 Hno) as [Hok (_ & Hr & _)].
  pose proof (for_each_frame parameters s0) as Hf.
  destruct (for_each update_parameter parameters s0) as [r s]; cbn [fst snd] in *.
  subst r. cbn [snd].
  pose proof (reinitialize_a_star node s) as Ha. cbn zeta in Ha.
  destruct (reinit_a_star s).
  - right. destruct Ha as (_ & _ & Ha). rewrite Ha, Hr.
    destruct Hf as (_ & _ & _ & Hc & _). rewrite Hc. reflexivity.
  - left. rewrite Ha. apply Hf.
Qed.

Lemma configure_ok (node : LifecycleNode) (name : string) (costmap_ros : Costmap2DROS)
    (metadata : LatticeMetadata) :
  getLatticeMetadata (param_lattice_filepath node) = Ok metadata ->
  exists p,
    configure node name costmap_ros = Ok p /\
    _max_iterations p =
      (if (Int.to_int (param_max_iterations node) <=? 0)%Z
       then Int.max else Int.to_int (param_max_iterations node)) /\
    getMaxIterations (_a_star p) = _max_iterations p /\
    lookup_table_size (_a_star p) =
      lookup_table_dim (param_lookup_table_size node)
        (getResolution (getCostmap costmap_ros)) /\
    minimum_turning_radius (search_info (_a_star p)) =
      float_div_double (Fp.finite (min_turning_radius metadata))
        (getResolution (getCostmap costmap_ros)).
Proof.
  intros H. unfold configure. rewrite H.
  eexists. split; [reflexivity |]. cbn. repeat split.
Qed.

(** *** The claims about configuration *)

(** X15.  The dimension is odd within the range of cell counts a [float]
    holds exactly.  When the conversion of the table size over the
    resolution to [int] is defined and gives a cell count of magnitude below
    2^24, the dimension is that count if it is odd and that count plus one if
    it is even, so it is odd; [configure] hands this dimension to the engine
    it builds, and after any call of the callback the engine still has an
    odd dimension. *)
Theorem lookup_table_dimension_odd (size res : Q) :
  table_in_range size res ->
  ((exists cells,
      lookup_table_cells size res = Some cells /\
      lookup_table_dim size res =
        Some (Fp.finite (inject_Z (if Z.even cells then cells + 1 else cells)))) /\
   is_odd (lookup_table_dim size res) = true) /\
  (forall node name costmap_ros metadata,
     param_lookup_table_size node = size ->
     getResolution (getCostmap costmap_ros) = res ->
     getLatticeMetadata (param_lattice_filepath node) = Ok metadata ->
     exists p,
       configure node name costmap_ros = Ok p /\
       lookup_table_size (_a_star p) = lookup_table_dim size res /\
       is_odd (lookup_table_size (_a_star p)) = true) /\
  (forall node parameters p,
     is_odd (lookup_table_size (_a_star p)) = true ->
     let p' := snd (dynamicParametersCallback node parameters p) in
     _lookup_table_size p' = size ->
     getResolution (_costmap p') = res ->
     is_odd (lookup_table_size (_a_star p')) = true).
Proof.
  intros Hr.
  pose proof (lookup_table_dim_is_odd size res Hr) as Hodd.
  split; [| split].
  - split; [| exact Hodd].
    destruct Hr as (cells & Hc & Hn). exists cells.
    split; [exact Hc | apply lookup_table_dim_exact; assumption].
  - intros node name costmap_ros metadata Hs Hres Hl.
    destruct (configure_ok node name costmap_ros metadata Hl)
      as (p & Hp & _ & _ & Hdim & _).
    exists p. rewrite Hs, Hres in Hdim.
    split; [exact Hp |]. split; [exact Hdim |]. rewrite Hdim. exact Hodd.
  - intros node parameters p Hinv p' Hs Hres. subst p'.
    pose proof (callback_a_star node parameters p) as H. cbn zeta in H.
    destruct H as [Hsame | Hnew].
    + rewrite Hsame. exact Hinv.
    + rewrite Hnew, Hs, Hres. exact Hodd.
Qed.

(** C4, for the value as the planner's [int] holds it.  A max_iterations
    value whose conversion to [int] is not positive, as is that of every
    value from the least [int] to 0, becomes the largest [int]: at
    [configure], which then succeeds whenever the lattice file loads, and in
    the callback, for any list of updates whose lattice files load and in
    which this is the last update of max_iterations; the callback reports
    success and the rebuilt engine has the largest [int] as its budget. *)
Theorem nonpositive_max_iterations_unbounded (v : Z) :
  (Int.to_int v <= 0)%Z ->
  (forall node name costmap_ros metadata,
     param_max_iterations node = v ->
     getLatticeMetadata (param_lattice_filepath node) = Ok metadata ->
     exists p,
       configure node name costmap_ros = Ok p /\
       _max_iterations p = Int.max /\
       getMaxIterations (_a_star p) = Int.max) /\
  (forall node before parameter after p,
     max_iterations_update (_name p) parameter = Some v ->
     loadable (_name p) (before ++ parameter :: after) = true ->
     no_max_iterations_update (_name p) after = true ->
     exists p',
       dynamicParametersCallback node (before ++ parameter :: after) p =
         (Ok {| successful := true |}, p') /\
       _max_iterations p' = Int.max /\
       getMaxIterations (_a_star p') = Int.max).
Proof.
  intros Hv. split.
  - intros node name costmap_ros metadata Hm Hl.
    destruct (configure_ok node name costmap_ros metadata Hl)
      as (p & Hp & Hmax & Hengine & _).
    exists p. split; [exact Hp |].
    rewrite Hm in Hmax.
    destruct (Z.leb_spec (Int.to_int v) 0) as [_ | Hgt]; [| lia].
    split; [exact Hmax | rewrite Hengine; exact Hmax].
  - intros node before parameter after p Hu Hload Hafter.
    unfold dynamicParametersCallback.
    set (s0 := {| this := p; reinit_a_star := false; reinit_smoother := false |}).
    pose proof (for_each_ok _ s0 Hload) as Hok.
    change (before ++ parameter :: after)%list
      with (before ++ [parameter] ++ after)%list in *.
    rewrite for_each_app in *.
    pose proof (for_each_frame before s0) as Hf1.
    destruct (for_each update_parameter before s0) as [[[] | e1] s1];
      cbn [fst snd] in *; [| discriminate Hok].
    assert (Hn1 : _name (this s1) = _name p) by apply Hf1.
    cbn [for_each app] in *. unfold bind in Hok |- *.
    rewrite <- Hn1 in Hu, Hafter.
    destruct (update_parameter_unbounded parameter v s1 Hu Hv) as (Hok2 & Hmax2 & Hflag2).
    pose proof (update_parameter_frame parameter s1) as Hf2.
    destruct (update_parameter parameter s1) as [r2 s2]; cbn [fst snd] in *.
    subst r2. unfold ret in *.
    assert (Hn2 : _name (this s2) = _name (this s1)) by apply Hf2.
    rewrite <- Hn2 in Hafter.
    destruct (for_each_max_iterations after s2 Hafter Hflag2) as [Hmax3 Hflag3].
    destruct (for_each update_parameter after s2) as [[[] | e3] s3];
      cbn [fst snd] in *; [| discriminate Hok].
    eexists. split; [reflexivity |].
    pose proof (reinitialize_keeps node s3) as (Hk & _).
    pose proof (reinitialize_a_star node s3) as Ha. cbn zeta in Ha.
    rewrite Hflag3 in Ha. destruct Ha as (Ha & _).
    split; [congruence | congruence].
Qed.

(** *** The claims about reconfiguration *)

Lemma for_each_recognized (parameters : list rclcpp_Parameter) (s : Reinit) :
  for_each update_parameter parameters s =
  for_each update_parameter (filter (recognized (_name (this s))) parameters) s.
Proof.
  revert s. induction parameters as [| parameter rest IH]; intros s.
  - reflexivity.
  - cbn [filter]. destruct (recognized (_name (this s)) parameter) eqn:E.
    + cbn [for_each]. unfold bind.
      pose proof (update_parameter_frame parameter s) as Hf.
      destruct (update_parameter parameter s) as [[[] | e] s1]; [| reflexivity].
      cbn [snd] in Hf.
      assert (Hname : _name (this s1) = _name (this s)) by apply Hf.
      rewrite IH, Hname. reflexivity.
    + cbn [for_each]. unfold bind.
      rewrite (update_parameter_unrecognized parameter s E). apply IH.
Qed.

(** C10, for the lists whose lattice files load.  The callback then
    reports success.  A parameter whose name or type matches no recognized
    option leaves the object and both flags as they were, so the callback
    does the same with and without such parameters in the list. *)
Theorem callback_reports_success (node : LifecycleNode)
    (parameters : list rclcpp_Parameter) (p : SmacPlannerLattice) :
  loadable (_name p) parameters = true ->
  fst (dynamicParametersCallback node parameters p) = Ok {| successful := true |} /\
  (forall parameter s,
     recognized (_name (this s)) parameter = false ->
     update_parameter parameter s = (Ok tt, s)) /\
  dynamicParametersCallback node parameters p =
    dynamicParametersCallback node (filter (recognized (_name p)) parameters) p.
Proof.
  intros Hload. split; [| split].
  - unfold dynamicParametersCallback.
    set (s0 := {| this := p; reinit_a_star := false; reinit_smoother := false |}).
    pose proof (for_each_ok parameters s0 Hload) as Hok.
    destruct (for_each update_parameter parameters s0) as [[[] | e] s];
      [reflexivity | discriminate Hok].
  - exact update_parameter_unrecognized.
  - unfold dynamicParametersCallback.
    rewrite (for_each_recognized parameters). reflexivity.
Qed.

Lemma update_parameter_load_fails (parameter : rclcpp_Parameter) (path : string)
    (e : exception) (s : Reinit) :
  lattice_update (_name (this s)) parameter = Some path ->
  getLatticeMetadata path = Throw e ->
  fst (update_parameter parameter s) = Throw e /\
  this (snd (update_parameter parameter s)) =
    on_search_info (set_lattice_filepath path) (this s).
Proof.
  unfold lattice_update. unfold_update. cbn.
  destruct (get_value parameter); try discriminate.
  destruct (get_name parameter =? _name (this s) ++ ".lattice_filepath")%string;
    [| discriminate].
  intros Hp He. injection Hp as ->. rewrite He. cbn. split; reflexivity.
Qed.

(** Whenever the callback throws, engine and smoother are the ones from
    before the call. *)
Lemma callback_throw_keeps_engine (node : LifecycleNode)
    (parameters : list rclcpp_Parameter) (p : SmacPlannerLattice) (e : exception) :
  fst (dynamicParametersCallback node parameters p) = Throw e ->
  _a_star (snd (dynamicParametersCallback node parameters p)) = _a_star p /\
  _smoother (snd (dynamicParametersCallback node parameters p)) = _smoother p.
Proof.
  unfold dynamicParametersCallback.
  set (s0 := {| this := p; reinit_a_star := false; reinit_smoother := false |}).
  pose proof (for_each_frame parameters s0) as Hf.
  destruct (for_each update_parameter parameters s0) as [[[] | e'] s];
    cbn [fst snd] in *; intros H; [discriminate H |].
  split; apply Hf.
Qed.

(** C6, as the code has it.  When the first lattice file update of the
    list names a file that fails to load, the callback ends with the load
    error; the engine, the smoother, the lattice metadata and the scaled
    turning radius are those from before the call; the stored file path is
    the path that failed. *)
Theorem failed_load_keeps_engine (node : LifecycleNode)
    (before : list rclcpp_Parameter) (parameter : rclcpp_Parameter)
    (after : list rclcpp_Parameter) (p : SmacPlannerLattice)
    (path : string) (e : exception) :
  no_lattice_update (_name p) before = true ->
  lattice_update (_name p) parameter = Some path ->
  getLatticeMetadata path = Throw e ->
  exists p',
    dynamicParametersCallback node (before ++ parameter :: after) p = (Throw e, p') /\
    _a_star p' = _a_star p /\
    _smoother p' = _smoother p /\
    _metadata p' = _metadata p /\
    minimum_turning_radius (_search_info p') =
      minimum_turning_radius (_search_info p) /\
    lattice_filepath (_search_info p') = path.
Proof.
  intros Hbefore Hu He.
  unfold dynamicParametersCallback.
  set (s0 := {| this := p; reinit_a_star := false; reinit_smoother := false |}).
  rewrite for_each_app.
  destruct (for_each_lattice_frame before s0 Hbefore) as [Hok1 Hl1].
  pose proof (for_each_frame before s0) as Hf1.
  destruct (for_each update_parameter before s0) as [r1 s1]; cbn [fst snd] in *.
  subst r1.
  assert (Hname : _name (this s1) = _name p) by apply Hf1.
  rewrite <- Hname in Hu.
  destruct (update_parameter_load_fails parameter path e s1 Hu He) as [Hthrow Hthis].
  cbn [for_each]. unfold bind.
  destruct (update_parameter parameter s1) as [r2 s2]; cbn [fst snd] in *.
  subst r2. eexists. split; [reflexivity |].
  rewrite Hthis. unfold on_search_info. cbn.
  destruct Hf1 as (Ha & Hs & _), Hl1 as (Hm & Hr & _).
  repeat split; assumption.
Qed.

(** *** The claims about a planning call *)

Lemma plan_error_recovered (a : AStarAlgorithm) (o : CreatePathOutcome) :
  recovered o = true ->
  exists reason, plan_error a o = Ok reason /\ (reason =? "") = false.
Proof.
  destruct o as [found path n | [what | what]]; cbn; intros H.
  - rewrite H.
    destruct (n <? getMaxIterations a)%Z; eexists; split; reflexivity.
  - eexists. split; reflexivity.
  - discriminate H.
Qed.

(** C5, for the failures the handler sees.  When the search returns false
    or throws std::runtime_error, the call returns the plan with its header
    and no pose, and warns with the reason, which is not empty.  An
    exception of another class is not caught: it leaves the call, which
    returns no plan and logs nothing. *)
Theorem failed_search_returns_empty_plan (w : Surroundings)
    (start_pose goal_pose : PoseStamped) (p : SmacPlannerLattice) :
  let a_star := prepare w start_pose goal_pose p in
  (recovered (createPath a_star) = true ->
   exists reason,
     plan_error a_star (createPath a_star) = Ok reason /\
     reason <> "" /\
     createPlan w start_pose goal_pose p =
       (Ok {| path_header := plan_header w p; poses := [] |},
        [Warn (_name p ++ ": failed to create plan, " ++ reason ++ ".")],
        set_a_star a_star p)) /\
  (forall what,
     createPath a_star = Throws (other_exception what) ->
     createPlan w start_pose goal_pose p =
       (Throw (other_exception what), [], set_a_star a_star p)).
Proof.
  cbn zeta. split.
  - intros H.
    destruct (plan_error_recovered (prepare w start_pose goal_pose p) _ H)
      as (reason & He & Hne).
    exists reason. split; [exact He |]. split.
    + intros E. rewrite E in Hne. discriminate Hne.
    + unfold createPlan. rewrite He, Hne. reflexivity.
  - intros what H. unfold createPlan. rewrite H. reflexivity.
Qed.

Lemma plan_header_set_a_star (w : Surroundings) (a : AStarAlgorithm)
    (p : SmacPlannerLattice) :
  plan_header w (set_a_star a p) = plan_header w p.
Proof. reflexivity. Qed.

Lemma time_remaining_set_a_star (w : Surroundings) (a : AStarAlgorithm)
    (p : SmacPlannerLattice) :
  time_remaining w (set_a_star a p) = time_remaining w p.
Proof. reflexivity. Qed.

Lemma raw_plan_length (h : Header) (costmap : Costmap2D) (path : CoordinateVector) :
  List.length (poses (raw_plan h costmap path)) = List.length path.
Proof. unfold raw_plan. cbn. rewrite length_map, length_rev. reflexivity. Qed.

(** C9.  After a successful search the smoother is called exactly when
    the search took more than one iteration and the plan has more than six
    poses, on the raw plan and with the time that remains; the call returns
    what the smoother made of the plan in that case and the raw plan
    otherwise. *)
Theorem smoothing_condition (w : Surroundings) (start_pose goal_pose : PoseStamped)
    (p : SmacPlannerLattice) (path : CoordinateVector) (n : Z) :
  createPath (prepare w start_pose goal_pose p) = Returns true path n ->
  let raw := raw_plan (plan_header w p) (_costmap p) path in
  let plan := fst (fst (createPlan w start_pose goal_pose p)) in
  let events := snd (fst (createPlan w start_pose goal_pose p)) in
  List.length (poses raw) = List.length path /\
  ((1 < n)%Z /\ (6 < List.length path)%nat ->
     In (Smooth raw (time_remaining w p)) events /\
     plan = Ok (smooth (_smoother p) raw (_costmap p) (time_remaining w p))) /\
  (~ ((1 < n)%Z /\ (6 < List.length path)%nat) ->
     (forall plan' t, ~ In (Smooth plan' t) events) /\
     plan = Ok raw).
Proof.
  intros H raw plan events.
  pose proof (raw_plan_length (plan_header w p) (_costmap p) path) as Hlen.
  fold raw in Hlen.
  split; [exact Hlen |].
  unfold plan, events, createPlan. rewrite H.
  cbn -[raw_plan time_remaining plan_header].
  rewrite !plan_header_set_a_star, !time_remaining_set_a_star.
  fold raw. rewrite Hlen.
  destruct (Z.ltb_spec 1 n) as [Hn | Hn];
    destruct (Z.ltb_spec 6 (Z.of_nat (List.length path))) as [Hp | Hp];
    cbn -[raw_plan time_remaining plan_header].
  - split.
    + intros _. split; [| reflexivity].
      apply in_or_app. right. left. reflexivity.
    + intros Hno. exfalso. apply Hno. split; lia.
  - split; [intros [_ Hc]; lia |].
    intros _. split; [| reflexivity].
    intros plan' t Hin.
    destruct (0 <? subscription_count w)%Z; cbn in Hin;
      [destruct Hin as [Hin | []]; discriminate Hin | exact Hin].
  - split; [intros [Hc _]; lia |].
    intros _. split; [| reflexivity].
    intros plan' t Hin.
    destruct (0 <? subscription_count w)%Z; cbn in Hin;
      [destruct Hin as [Hin | []]; discriminate Hin | exact Hin].
  - split; [intros [Hc _]; lia |].
    intros _. split; [| reflexivity].
    intros plan' t Hin.
    destruct (0 <? subscription_count w)%Z; cbn in Hin;
      [destruct Hin as [Hin | []]; discriminate Hin | exact Hin].
Qed.

Lemma raw_plan_geometry (h1 h2 : Header) (costmap : Costmap2D)
    (path : CoordinateVector) :
  geometry (raw_plan h1 costmap path) = geometry (raw_plan h2 costmap path).
Proof.
  unfold geometry, raw_plan. cbn [poses]. rewrite !map_map. reflexivity.
Qed.

(** The reason depends on the engine through its budget alone. *)
Lemma plan_error_prepare (w : Surroundings) (start_pose goal_pose : PoseStamped)
    (p : SmacPlannerLattice) (o : CreatePathOutcome) :
  plan_error (prepare w start_pose goal_pose p) o = plan_error (_a_star p) o.
Proof. reflexivity. Qed.

(** C7, as the code has it.  Two calls on the same object with the same
    start and goal whose searches hand back the same: both return or both
    let the same exception out; the plans before smoothing list the same
    positions and orientations; so do the returned plans when the smoother
    is not called; and the returned plans are equal when the two calls read
    the same time stamp and have the same time left for smoothing. *)
Theorem repeated_call_same_route (w1 w2 : Surroundings)
    (start_pose goal_pose : PoseStamped) (p : SmacPlannerLattice) :
  let o1 := createPath (prepare w1 start_pose goal_pose p) in
  let o2 := createPath (prepare w2 start_pose goal_pose p) in
  let r1 := fst (fst (createPlan w1 start_pose goal_pose p)) in
  let r2 := fst (fst (createPlan w2 start_pose goal_pose p)) in
  o1 = o2 ->
  (forall e, r1 = Throw e <-> r2 = Throw e) /\
  geometry (raw_plan (plan_header w1 p) (_costmap p) (plan_path o1)) =
    geometry (raw_plan (plan_header w2 p) (_costmap p) (plan_path o2)) /\
  (forall plan1 plan2,
     r1 = Ok plan1 ->
     r2 = Ok plan2 ->
     (~ ((1 < plan_iterations o1)%Z /\ (6 < List.length (plan_path o1))%nat) ->
      geometry plan1 = geometry plan2) /\
     (clock_now w1 = clock_now w2 ->
      time_remaining w1 p = time_remaining w2 p ->
      plan1 = plan2)).
Proof.
  cbn zeta. intros Ho. unfold createPlan. rewrite <- Ho.
  rewrite !plan_header_set_a_star, !time_remaining_set_a_star.
  cbn [_costmap set_a_star _smoother].
  rewrite !plan_error_prepare.
  set (a := _a_star p).
  set (o := createPath (prepare w1 start_pose goal_pose p)).
  split; [| split].
  - intros e.
    unfold plan_error.
    destruct o as [found path n | [what | what]].
    + destruct (negb found); [destruct (n <? _)%Z |]; cbn;
        try (split; intros H; discriminate H).
      destruct (_ && _); destruct (_ && _); split; intros H; discriminate H.
    + cbn. split; intros H; discriminate H.
    + cbn. split; intros H; exact H.
  - apply raw_plan_geometry.
  - intros plan1 plan2.
    destruct (plan_error a o) as [error | e] eqn:Ee;
      [| intros H; discriminate H].
    destruct (negb (error =? "")).
    + cbn. intros H1 H2. injection H1 as <-. injection H2 as <-.
      split; [reflexivity |].
      intros Hc _. unfold plan_header. rewrite Hc. reflexivity.
    + rewrite !raw_plan_length.
      destruct (Z.ltb_spec 1 (plan_iterations o)) as [Hn | Hn];
        destruct (Z.ltb_spec 6 (Z.of_nat (List.length (plan_path o)))) as [Hl | Hl];
        cbn [andb fst];
        intros H1 H2; injection H1 as <-; injection H2 as <-;
        (split;
         [ intros Hno; try apply raw_plan_geometry; exfalso; apply Hno; split; lia
         | intros Hc Ht; unfold plan_header; rewrite Hc; try rewrite Ht;
           reflexivity ]).
Qed.

(** ** Beyond the claims *)

(** *** What stays true of the object *)

(** The iteration budget, stored and in the engine, is a positive [int]. *)
Definition budget_ok (p : SmacPlannerLattice) : Prop :=
  (0 < _max_iterations p <= Int.max)%Z /\
  (0 < getMaxIterations (_a_star p) <= Int.max)%Z.

(** What the constructor and [initialize] gave the engine. *)
Definition engine_settings (a : AStarAlgorithm)
    : MotionModel * SearchInfo * bool * Z * Z * Q * option Fp.t * Z :=
  (motion_model a, search_info a, traverse_unknown a, max_iterations a,
   max_on_approach_iterations a, max_planning_time a, lookup_table_size a,
   dim_3_size a).

(** The engine is the one the stored settings would build. *)
Definition engine_in_sync (p : SmacPlannerLattice) : Prop :=
  engine_settings (_a_star p) =
  (_motion_model p, _search_info p, _allow_unknown p, _max_iterations p,
   Int.max, _max_planning_time p,
   lookup_table_dim (_lookup_table_size p) (getResolution (_costmap p)),
   number_of_headings (_metadata p)).

(** The smoother has the turning radius of the stored lattice metadata. *)
Definition smoother_in_sync (p : SmacPlannerLattice) : Prop :=
  smoother_min_turning_radius (_smoother p) = min_turning_radius (_metadata p).

(** The object and the two flags when the loop starts. *)
Definition entering (p : SmacPlannerLattice) : Reinit :=
  {| this := p; reinit_a_star := false; reinit_smoother := false |}.

Lemma callback_unfold (node : LifecycleNode) (parameters : list rclcpp_Parameter)
    (p : SmacPlannerLattice) :
  dynamicParametersCallback node parameters p =
  match for_each update_parameter parameters (entering p) with
  | (Throw e, s) => (Throw e, this s)
  | (Ok _, s) => (Ok {| successful := true |}, reinitialize node s)
  end.
Proof. reflexivity. Qed.

Lemma for_each_flag (parameters : list rclcpp_Parameter) (s : Reinit) :
  reinit_a_star s = true ->
  reinit_a_star (snd (for_each update_parameter parameters s)) = true.
Proof.
  revert s. induction parameters as [| parameter rest IH]; intros s H.
  - exact H.
  - cbn [for_each]. unfold bind.
    pose proof (update_parameter_flag parameter s H) as H1.
    destruct (update_parameter parameter s) as [[[] | e] s1]; cbn [snd] in *.
    + apply IH. exact H1.
    + exact H1.
Qed.

(** A parameter that leaves the engine flag down has changed nothing. *)
Lemma update_parameter_untouched (parameter : rclcpp_Parameter) (s : Reinit) :
  reinit_a_star (snd (update_parameter parameter s)) = false ->
  update_parameter parameter s = (Ok tt, s).
Proof.
  unfold_update. cbn. split_update; cbn; intros H;
    (discriminate H || reflexivity).
Qed.

Lemma for_each_untouched (parameters : list rclcpp_Parameter) (s : Reinit) :
  reinit_a_star (snd (for_each update_parameter parameters s)) = false ->
  for_each update_parameter parameters s = (Ok tt, s).
Proof.
  revert s. induction parameters as [| parameter rest IH]; intros s H.
  - reflexivity.
  - cbn [for_each] in *. unfold bind in *.
    destruct (reinit_a_star (snd (update_parameter parameter s))) eqn:E.
    + exfalso.
      destruct (update_parameter parameter s) as [[[] | e] s1]; cbn [snd] in *.
      * pose proof (for_each_flag rest s1 E) as Hf. congruence.
      * congruence.
    + rewrite (update_parameter_untouched parameter s E) in *.
      apply IH. exact H.
Qed.

(** The smoother flag goes up only with the engine flag, and while it is
    down the lattice metadata are the ones the loop started with. *)
Definition flags_ok (p : SmacPlannerLattice) (s : Reinit) : Prop :=
  (reinit_smoother s = true -> reinit_a_star s = true) /\
  (reinit_smoother s = false -> _metadata (this s) = _metadata p).

Lemma update_parameter_flags_ok (p : SmacPlannerLattice)
    (parameter : rclcpp_Parameter) (s : Reinit) :
  flags_ok p s -> flags_ok p (snd (update_parameter parameter s)).
Proof.
  unfold flags_ok. unfold_update. cbn.
  split_update; cbn; intros [H1 H2]; split; intros H;
    try discriminate H; auto.
Qed.

Lemma for_each_flags_ok (p : SmacPlannerLattice)
    (parameters : list rclcpp_Parameter) (s : Reinit) :
  flags_ok p s -> flags_ok p (snd (for_each update_parameter parameters s)).
Proof.
  revert s. induction parameters as [| parameter rest IH]; intros s H.
  - exact H.
  - cbn [for_each]. unfold bind.
    pose proof (update_parameter_flags_ok p parameter s H) as H1.
    destruct (update_parameter parameter s) as [[[] | e] s1]; cbn [snd] in *.
    + apply IH. exact H1.
    + exact H1.
Qed.

(** A recognized parameter raises the engine flag, whether or not the
    update then throws. *)
Lemma update_parameter_recognized (parameter : rclcpp_Parameter) (s : Reinit) :
  recognized (_name (this s)) parameter = true ->
  reinit_a_star (snd (update_parameter parameter s)) = true.
Proof.
  unfold recognized, names, double_options, bool_options, integer_options,
    string_options.
  unfold_update. cbn.
  destruct (get_value parameter); cbn [existsb]; try discriminate;
    split_update; cbn; intros H; (reflexivity || discriminate H).
Qed.

Lemma for_each_recognized_flag (parameters : list rclcpp_Parameter) (s : Reinit) :
  existsb (recognized (_name (this s))) parameters = true ->
  fst (for_each update_parameter parameters s) = Ok tt ->
  reinit_a_star (snd (for_each update_parameter parameters s)) = true.
Proof.
  revert s. induction parameters as [| parameter rest IH]; intros s H Hok.
  - discriminate H.
  - cbn [existsb] in H. cbn [for_each] in *. unfold bind in *.
    pose proof (update_parameter_frame parameter s) as Hf.
    destruct (recognized (_name (this s)) parameter) eqn:E.
    + pose proof (update_parameter_recognized parameter s E) as H1.
      destruct (update_parameter parameter s) as [[[] | e] s1]; cbn [fst snd] in *.
      * apply for_each_flag. exact H1.
      * exact H1.
    + rewrite (update_parameter_unrecognized parameter s E) in *.
      apply IH; assumption.
Qed.

(** The budget the loop stores stays a positive [int]. *)
Lemma update_parameter_budget (parameter : rclcpp_Parameter) (s : Reinit) :
  (0 < _max_iterations (this s) <= Int.max)%Z ->
  (0 < _max_iterations (this (snd (update_parameter parameter s))) <= Int.max)%Z.
Proof.
  unfold_update. cbn. split_update; cbn; intros H; try exact H.
  - unfold Int.max. lia.
  - pose proof (to_int_in_range i) as Hr. unfold Int.in_range in Hr.
    match goal with E : (_ <=? 0)%Z = false |- _ => apply Z.leb_gt in E end.
    lia.
Qed.

Lemma for_each_budget (parameters : list rclcpp_Parameter) (s : Reinit) :
  (0 < _max_iterations (this s) <= Int.max)%Z ->
  (0 < _max_iterations (this (snd (for_each update_parameter parameters s)))
   <= Int.max)%Z.
Proof.
  revert s. induction parameters as [| parameter rest IH]; intros s H.
  - exact H.
  - cbn [for_each]. unfold bind.
    pose proof (update_parameter_budget parameter s H) as H1.
    destruct (update_parameter parameter s) as [[[] | e] s1]; cbn [snd] in *.
    + apply IH. exact H1.
    + exact H1.
Qed.

(** X1.  The iteration budget is always a positive [int], in the object
    and in the engine: [configure] leaves it so whenever the lattice file
    loads, whatever max_iterations the node holds, and every call of the
    callback keeps it so, whatever the parameters and whether the call
    returns or throws. *)
Theorem budget_always_positive (node : LifecycleNode) :
  (forall name costmap_ros metadata,
     getLatticeMetadata (param_lattice_filepath node) = Ok metadata ->
     exists p, configure node name costmap_ros = Ok p /\ budget_ok p) /\
  (forall parameters p,
     budget_ok p ->
     budget_ok (snd (dynamicParametersCallback node parameters p))).
Proof.
  split.
  - intros name costmap_ros metadata Hl.
    destruct (configure_ok node name costmap_ros metadata Hl)
      as (p & Hp & Hmax & Hengine & _).
    exists p. split; [exact Hp |].
    assert (Hb : (0 < _max_iterations p <= Int.max)%Z).
    { rewrite Hmax.
      pose proof (to_int_in_range (param_max_iterations node)) as Hr.
      unfold Int.in_range in Hr.
      destruct (Z.leb_spec (Int.to_int (param_max_iterations node)) 0);
        [unfold Int.max |]; lia. }
    split; [exact Hb | rewrite Hengine; exact Hb].
  - intros parameters p [Hb He]. rewrite callback_unfold.
    pose proof (for_each_budget parameters (entering p) Hb) as Hb'.
    pose proof (for_each_frame parameters (entering p)) as Hf.
    destruct (for_each update_parameter parameters (entering p)) as [[[] | e] s];
      cbn [snd] in *.
    + pose proof (reinitialize_keeps node s) as (Hk & _).
      pose proof (reinitialize_a_star node s) as Ha. cbn zeta in Ha.
      split; [rewrite Hk; exact Hb' |].
      destruct (reinit_a_star s).
      * destruct Ha as (Ha & _). rewrite Ha. exact Hb'.
      * rewrite Ha. destruct Hf as (Hf & _). cbn in Hf. rewrite Hf. exact He.
    + split; [exact Hb' |].
      destruct Hf as (Hf & _). cbn in Hf. rewrite Hf. exact He.
Qed.

Lemma reinitialize_in_sync (node : LifecycleNode) (s : Reinit) :
  (reinit_a_star s = true -> engine_in_sync (reinitialize node s)) /\
  (reinit_smoother s = true -> smoother_in_sync (reinitialize node s)) /\
  (reinit_smoother s = false -> _smoother (reinitialize node s) = _smoother (this s)) /\
  (reinit_a_star s = false -> reinit_smoother s = false ->
   reinitialize node s = this s).
Proof.
  unfold reinitialize, engine_in_sync, smoother_in_sync, engine_settings,
    on_search_info.
  destruct (reinit_a_star s), (reinit_smoother s); cbn;
    repeat split; intros; try discriminate; reflexivity.
Qed.

Lemma flags_ok_entering (p : SmacPlannerLattice) : flags_ok p (entering p).
Proof. split; [discriminate | reflexivity]. Qed.

(** X2.  The engine is a snapshot of the stored settings.  After
    [configure] the engine holds the stored search information, unknown
    flag, budget, planning time, the table dimension computed from the stored
    table size, and the heading count of the stored lattice metadata, and the
    smoother holds their turning radius.  A call of the callback that returns
    keeps all this true, and makes the engine part true whatever the state
    before when at least one parameter is recognized. *)
Theorem engine_follows_settings (node : LifecycleNode) :
  (forall name costmap_ros metadata,
     getLatticeMetadata (param_lattice_filepath node) = Ok metadata ->
     exists p,
       configure node name costmap_ros = Ok p /\
       engine_in_sync p /\ smoother_in_sync p) /\
  (forall parameters p r,
     fst (dynamicParametersCallback node parameters p) = Ok r ->
     engine_in_sync p -> smoother_in_sync p ->
     engine_in_sync (snd (dynamicParametersCallback node parameters p)) /\
     smoother_in_sync (snd (dynamicParametersCallback node parameters p))) /\
  (forall parameters p r,
     fst (dynamicParametersCallback node parameters p) = Ok r ->
     existsb (recognized (_name p)) parameters = true ->
     engine_in_sync (snd (dynamicParametersCallback node parameters p))).
Proof.
  split; [| split].
  - intros name costmap_ros metadata Hl.
    unfold configure. rewrite Hl. eexists. split; [reflexivity |].
    split; reflexivity.
  - intros parameters p r Hr He Hs. rewrite callback_unfold in *.
    pose proof (for_each_flags_ok p parameters (entering p) (flags_ok_entering p))
      as [Hfl Hmeta].
    pose proof (for_each_frame parameters (entering p)) as Hf.
    pose proof (for_each_untouched parameters (entering p)) as Hu.
    destruct (for_each update_parameter parameters (entering p)) as [[[] | e] s];
      cbn [fst snd] in *; [| discriminate Hr].
    destruct (reinitialize_in_sync node s) as (Ha & Hsm & Hkeep & Hsame).
    pose proof (reinitialize_keeps node s) as (_ & _ & _ & Hm & _).
    destruct (reinit_a_star s) eqn:Ea.
    + split; [apply Ha; reflexivity |].
      destruct (reinit_smoother s) eqn:Es; [apply Hsm; reflexivity |].
      unfold smoother_in_sync. rewrite Hkeep, Hm, Hmeta by reflexivity.
      destruct Hf as (_ & Hf & _). cbn in Hf. rewrite Hf. exact Hs.
    + destruct (reinit_smoother s) eqn:Es; [specialize (Hfl eq_refl); discriminate |].
      rewrite Hsame by reflexivity.
      specialize (Hu eq_refl). injection Hu as ->. split; assumption.
  - intros parameters p r Hr Hex. rewrite callback_unfold in *.
    pose proof (for_each_recognized_flag parameters (entering p) Hex) as Hflag.
    destruct (for_each update_parameter parameters (entering p)) as [[[] | e] s];
      cbn [fst snd] in *; [| discriminate Hr].
    apply (reinitialize_in_sync node s). apply Hflag. reflexivity.
Qed.

(** *** Reconfiguring twice, and in two parts *)

(** The settings a parameter can change, the scaled turning radius apart. *)
Inductive Setting : Type :=
| allow_unknown_setting
| max_iterations_setting
| max_planning_time_setting
| lookup_table_size_setting
| reverse_penalty_setting
| change_penalty_setting
| non_straight_penalty_setting
| cost_penalty_setting
| analytic_expansion_ratio_setting
| cache_obstacle_heuristic_setting
| allow_reverse_expansion_setting
| lattice_filepath_setting
| lattice_metadata_setting.

Inductive SettingValue : Type :=
| a_bool (b : bool)
| an_int (i : Z)
| a_number (q : Q)
| a_float (x : Fp.t)
| a_string (s : string)
| a_lattice (m : LatticeMetadata).

(** The stored value of a setting. *)
Definition setting (f : Setting) (p : SmacPlannerLattice) : SettingValue :=
  match f with
  | allow_unknown_setting => a_bool (_allow_unknown p)
  | max_iterations_setting => an_int (_max_iterations p)
  | max_planning_time_setting => a_number (_max_planning_time p)
  | lookup_table_size_setting => a_number (_lookup_table_size p)
  | reverse_penalty_setting => a_float (reverse_penalty (_search_info p))
  | change_penalty_setting => a_float (change_penalty (_search_info p))
  | non_straight_penalty_setting => a_float (non_straight_penalty (_search_info p))
  | cost_penalty_setting => a_float (cost_penalty (_search_info p))
  | analytic_expansion_ratio_setting =>
      a_float (analytic_expansion_ratio (_search_info p))
  | cache_obstacle_heuristic_setting =>
      a_bool (cache_obstacle_heuristic (_search_info p))
  | allow_reverse_expansion_setting =>
      a_bool (allow_reverse_expansion (_search_info p))
  | lattice_filepath_setting => a_string (lattice_filepath (_search_info p))
  | lattice_metadata_setting => a_lattice (_metadata p)
  end.

(** From two objects [x] and [y] to [x'] and [y']: each setting is either
    written, to the same value in both, or left as it was in both. *)
Definition overwritten (x y x' y' : SmacPlannerLattice) : Prop :=
  forall f,
    setting f x' = setting f y' \/
    (setting f x' = setting f x /\ setting f y' = setting f y).

Lemma update_parameter_overwrites (parameter : rclcpp_Parameter) (s t : Reinit) :
  _name (this s) = _name (this t) ->
  fst (update_parameter parameter s) = fst (update_parameter parameter t) /\
  overwritten (this s) (this t)
    (this (snd (update_parameter parameter s)))
    (this (snd (update_parameter parameter t))).
Proof.
  unfold overwritten. unfold_update. cbn. intros Hn. rewrite Hn.
  split_update; cbn; (split; [reflexivity |]); intros f; destruct f; cbn; auto.
Qed.

Lemma for_each_overwrites (parameters : list rclcpp_Parameter) (s t : Reinit) :
  _name (this s) = _name (this t) ->
  fst (for_each update_parameter parameters s) =
    fst (for_each update_parameter parameters t) /\
  overwritten (this s) (this t)
    (this (snd (for_each update_parameter parameters s)))
    (this (snd (for_each update_parameter parameters t))).
Proof.
  revert s t. induction parameters as [| parameter rest IH]; intros s t Hn.
  - split; [reflexivity |]. intros f. right. split; reflexivity.
  - cbn [for_each]. unfold bind.
    destruct (update_parameter_overwrites parameter s t Hn) as [Hr Ho].
    pose proof (update_parameter_frame parameter s) as Hfs.
    pose proof (update_parameter_frame parameter t) as Hft.
    destruct (update_parameter parameter s) as [rs s1].
    destruct (update_parameter parameter t) as [rt t1].
    cbn [fst snd] in *. subst rt.
    destruct rs as [[] | e]; [| split; [reflexivity | exact Ho]].
    assert (Hn1 : _name (this s1) = _name (this t1)).
    { destruct Hfs as (_ & _ & _ & _ & _ & _ & Hs & _).
      destruct Hft as (_ & _ & _ & _ & _ & _ & Ht & _). congruence. }
    destruct (IH s1 t1 Hn1) as [Hr' Ho'].
    split; [exact Hr' |].
    intros f. destruct (Ho' f) as [E | [E1 E2]]; [left; exact E |].
    destruct (Ho f) as [E' | [E1' E2']].
    + left. congruence.
    + right. split; congruence.
Qed.

Lemma reinitialize_setting (node : LifecycleNode) (s : Reinit) (f : Setting) :
  setting f (reinitialize node s) = setting f (this s).
Proof.
  unfold reinitialize, on_search_info.
  destruct (reinit_a_star s), (reinit_smoother s); destruct f; reflexivity.
Qed.

(** The callback on two objects of the same name that agree on every
    setting: the same result, and agreement on every setting after. *)
Lemma callback_settings (node : LifecycleNode) (parameters : list rclcpp_Parameter)
    (s t : Reinit) :
  _name (this s) = _name (this t) ->
  (forall f, setting f (this s) = setting f (this t)) ->
  fst (for_each update_parameter parameters s) =
    fst (for_each update_parameter parameters t) /\
  forall f,
    setting f (this (snd (for_each update_parameter parameters s))) =
    setting f (this (snd (for_each update_parameter parameters t))).
Proof.
  intros Hn Hs. destruct (for_each_overwrites parameters s t Hn) as [Hr Ho].
  split; [exact Hr |]. intros f.
  destruct (Ho f) as [E | [E1 E2]]; [exact E |]. rewrite E1, E2. apply Hs.
Qed.

(** The result and the settings of a call, from those of the loop. *)
Lemma callback_outcome (node : LifecycleNode) (parameters : list rclcpp_Parameter)
    (p : SmacPlannerLattice) :
  let s := snd (for_each update_parameter parameters (entering p)) in
  let c := dynamicParametersCallback node parameters p in
  (fst (for_each update_parameter parameters (entering p)) = Ok tt ->
   fst c = Ok {| successful := true |}) /\
  (forall e, fst (for_each update_parameter parameters (entering p)) = Throw e ->
   fst c = Throw e) /\
  (forall f, setting f (snd c) = setting f (this s)) /\
  _name (snd c) = _name p.
Proof.
  cbn zeta. rewrite callback_unfold.
  pose proof (for_each_frame parameters (entering p)) as Hf.
  destruct (for_each update_parameter parameters (entering p)) as [[[] | e] s];
    cbn [fst snd] in *.
  - repeat split; try discriminate.
    + intros f. apply reinitialize_setting.
    + pose proof (reinitialize_keeps node s) as (_ & _ & _ & _ & Hk).
      rewrite Hk. apply Hf.
  - repeat split; try discriminate.
    + intros e' H. injection H as ->. reflexivity.
    + apply Hf.
Qed.

Lemma callback_result_cases (node : LifecycleNode)
    (parameters : list rclcpp_Parameter) (p : SmacPlannerLattice) :
  fst (for_each update_parameter parameters (entering p)) = Ok tt \/
  exists e, fst (for_each update_parameter parameters (entering p)) = Throw e.
Proof.
  destruct (fst (for_each update_parameter parameters (entering p))) as [[] | e];
    [left; reflexivity | right; exists e; reflexivity].
Qed.

Lemma callback_congruence (node : LifecycleNode) (parameters : list rclcpp_Parameter)
    (p q : SmacPlannerLattice) :
  _name p = _name q ->
  (forall f, setting f p = setting f q) ->
  fst (dynamicParametersCallback node parameters p) =
    fst (dynamicParametersCallback node parameters q) /\
  forall f,
    setting f (snd (dynamicParametersCallback node parameters p)) =
    setting f (snd (dynamicParametersCallback node parameters q)).
Proof.
  intros Hn Hs.
  destruct (callback_settings node parameters (entering p) (entering q) Hn Hs)
    as [Hr Hset].
  destruct (callback_outcome node parameters p) as (Hok & Hth & Hsp & _).
  destruct (callback_outcome node parameters q) as (Hok' & Hth' & Hsq & _).
  split.
  - destruct (callback_result_cases node parameters p) as [E | [e E]].
    + rewrite (Hok E), (Hok' (eq_trans (eq_sym Hr) E)). reflexivity.
    + rewrite (Hth e E), (Hth' e (eq_trans (eq_sym Hr) E)). reflexivity.
  - intros f. rewrite Hsp, Hsq. apply Hset.
Qed.

(** X3.  Repeating a reconfiguration changes no setting.  A second call
    of the callback with the same parameters ends as the first did, returning
    or throwing the same, and leaves every setting, the scaled turning radius
    apart, at the value the first call left. *)
Theorem reconfiguration_idempotent_on_settings (node : LifecycleNode)
    (parameters : list rclcpp_Parameter) (p : SmacPlannerLattice) :
  let once := dynamicParametersCallback node parameters p in
  let twice := dynamicParametersCallback node parameters (snd once) in
  fst twice = fst once /\
  forall f, setting f (snd twice) = setting f (snd once).
Proof.
  cbn zeta.
  destruct (callback_outcome node parameters p) as (Hok & Hth & Hsp & Hnp).
  set (p1 := snd (dynamicParametersCallback node parameters p)) in *.
  set (s1 := snd (for_each update_parameter parameters (entering p))) in *.
  (* the loop from the object the first loop left *)
  assert (Hn1 : _name (this (entering (this s1))) = _name (this (entering p))).
  { pose proof (for_each_frame parameters (entering p)) as Hf. apply Hf. }
  destruct (for_each_overwrites parameters (entering (this s1)) (entering p) Hn1)
    as [Hr Ho]. fold s1 in Ho.
  assert (Hidem : forall f,
            setting f (this (snd (for_each update_parameter parameters
                                    (entering (this s1))))) =
            setting f (this s1)).
  { intros f. destruct (Ho f) as [E | [E _]]; exact E. }
  (* the second call starts from an object with the settings of [this s1] *)
  assert (Hn : _name p1 = _name (this s1)) by (rewrite Hnp; symmetry; exact Hn1).
  destruct (callback_congruence node parameters p1 (this s1) Hn Hsp) as [Hr2 Hs2].
  destruct (callback_outcome node parameters (this s1)) as (Hok' & Hth' & Hs' & _).
  split.
  - rewrite Hr2.
    destruct (callback_result_cases node parameters p) as [E | [e E]].
    + rewrite (Hok E). apply Hok'. rewrite Hr. exact E.
    + rewrite (Hth e E). apply Hth'. rewrite Hr. exact E.
  - intros f. rewrite Hs2, Hs', Hidem. symmetry. apply Hsp.
Qed.

(** X4.  One call or two.  When a first call with the parameters [first]
    returns, a second call with the parameters [second] ends as one call
    with both lists would have, and leaves every setting, the scaled turning
    radius apart, at the same value. *)
Theorem reconfiguration_in_two_parts (node : LifecycleNode)
    (first second : list rclcpp_Parameter) (p : SmacPlannerLattice)
    (r : SetParametersResult) :
  fst (dynamicParametersCallback node first p) = Ok r ->
  let two :=
    dynamicParametersCallback node second
      (snd (dynamicParametersCallback node first p)) in
  let one := dynamicParametersCallback node (first ++ second) p in
  fst two = fst one /\
  forall f, setting f (snd two) = setting f (snd one).
Proof.
  intros H1. cbn zeta.
  destruct (callback_outcome node first p) as (_ & Hth & Hsp & Hnp).
  set (p1 := snd (dynamicParametersCallback node first p)) in *.
  pose proof (for_each_frame first (entering p)) as Hf1.
  destruct (callback_result_cases node first p) as [E | [e E]];
    [| rewrite (Hth e E) in H1; discriminate H1].
  (* one call: the loop goes on from where [first] left it *)
  destruct (callback_outcome node (first ++ second) p) as (Hok & Hth2 & Hs2 & _).
  rewrite for_each_app in Hok, Hth2, Hs2.
  destruct (for_each update_parameter first (entering p)) as [r1 s1];
    cbn [fst snd] in *. subst r1.
  assert (Hn : _name (this (entering p1)) = _name (this s1)).
  { cbn. rewrite Hnp. symmetry. apply Hf1. }
  destruct (callback_settings node second (entering p1) s1 Hn Hsp) as [Hr Hset].
  destruct (callback_outcome node second p1) as (Hok' & Hth' & Hs' & _).
  split.
  - destruct (callback_result_cases node second p1) as [E' | [e' E']].
    + rewrite (Hok' E'). symmetry. apply Hok. rewrite <- Hr. exact E'.
    + rewrite (Hth' e' E'). symmetry. apply Hth2. rewrite <- Hr. exact E'.
  - intros f. rewrite Hs', Hs2. apply Hset.
Qed.

(** *** Planning and reconfiguring *)

(** The loop does not look at the engine. *)
Definition with_engine (a : AStarAlgorithm) (s : Reinit) : Reinit :=
  {| this := set_a_star a (this s);
     reinit_a_star := reinit_a_star s;
     reinit_smoother := reinit_smoother s |}.

Lemma update_parameter_with_engine (a : AStarAlgorithm)
    (parameter : rclcpp_Parameter) (s : Reinit) :
  update_parameter parameter (with_engine a s) =
  (fst (update_parameter parameter s),
   with_engine a (snd (update_parameter parameter s))).
Proof.
  unfold with_engine. unfold_update. cbn. split_update; reflexivity.
Qed.

Lemma for_each_with_engine (a : AStarAlgorithm)
    (parameters : list rclcpp_Parameter) (s : Reinit) :
  for_each update_parameter parameters (with_engine a s) =
  (fst (for_each update_parameter parameters s),
   with_engine a (snd (for_each update_parameter parameters s))).
Proof.
  revert s. induction parameters as [| parameter rest IH]; intros s.
  - reflexivity.
  - cbn [for_each]. unfold bind.
    rewrite update_parameter_with_engine.
    destruct (update_parameter parameter s) as [[[] | e] s1]; cbn [fst snd].
    + apply IH.
    + reflexivity.
Qed.

Lemma reinitialize_with_engine (node : LifecycleNode) (a : AStarAlgorithm)
    (s : Reinit) :
  reinit_a_star s = true ->
  reinitialize node (with_engine a s) = reinitialize node s.
Proof.
  unfold reinitialize, with_engine, on_search_info. cbn. intros ->.
  destruct (reinit_smoother s); reflexivity.
Qed.

Lemma createPlan_object (w : Surroundings) (start_pose goal_pose : PoseStamped)
    (p : SmacPlannerLattice) :
  snd (createPlan w start_pose goal_pose p) =
  set_a_star (prepare w start_pose goal_pose p) p.
Proof.
  unfold createPlan.
  destruct (plan_error _ _) as [error | e]; [| reflexivity].
  destruct (negb _); [reflexivity |].
  destruct (_ && _); reflexivity.
Qed.

(** X5.  A planning call and the configuration.  The call leaves every
    setting, the smoother and what the engine was built with as they were
    (it sets the engine's collision checker, start and goal).  A later call
    of the callback ends as it would have without the planning call, and when
    it returns with at least one recognized parameter it leaves the very same
    object: the rebuilt engine remembers nothing of the planning call. *)
Theorem reconfiguration_forgets_planning (node : LifecycleNode)
    (w : Surroundings) (start_pose goal_pose : PoseStamped)
    (parameters : list rclcpp_Parameter) (p : SmacPlannerLattice) :
  let planned := snd (createPlan w start_pose goal_pose p) in
  ((forall f, setting f planned = setting f p) /\
   _smoother planned = _smoother p /\
   engine_settings (_a_star planned) = engine_settings (_a_star p)) /\
  fst (dynamicParametersCallback node parameters planned) =
    fst (dynamicParametersCallback node parameters p) /\
  (forall r,
     fst (dynamicParametersCallback node parameters p) = Ok r ->
     existsb (recognized (_name p)) parameters = true ->
     snd (dynamicParametersCallback node parameters planned) =
     snd (dynamicParametersCallback node parameters p)).
Proof.
  cbn zeta. rewrite createPlan_object.
  set (a := prepare w start_pose goal_pose p).
  split; [| split].
  - split; [intros f; destruct f; reflexivity |]. split; reflexivity.
  - rewrite !callback_unfold.
    change (entering (set_a_star a p)) with (with_engine a (entering p)).
    rewrite for_each_with_engine.
    destruct (for_each update_parameter parameters (entering p)) as [[[] | e] s];
      reflexivity.
  - intros r Hr Hex. rewrite !callback_unfold in *.
    change (entering (set_a_star a p)) with (with_engine a (entering p)).
    rewrite for_each_with_engine.
    pose proof (for_each_recognized_flag parameters (entering p) Hex) as Hflag.
    destruct (for_each update_parameter parameters (entering p)) as [[[] | e] s];
      cbn [fst snd] in *; [| discriminate Hr].
    apply reinitialize_with_engine. apply Hflag. reflexivity.
Qed.

(** X6.  Any recognized parameter rebuilds the engine.  When the callback
    returns and the list holds a parameter whose name and type match a
    recognized option, be it one that sets the value already stored, the
    engine is a new one: it has no collision checker, start or goal until
    the next planning call sets them.  When no parameter is recognized the
    object is untouched. *)
Theorem recognized_parameter_rebuilds_engine (node : LifecycleNode)
    (parameters : list rclcpp_Parameter) (p : SmacPlannerLattice) :
  (forall r,
     fst (dynamicParametersCallback node parameters p) = Ok r ->
     existsb (recognized (_name p)) parameters = true ->
     let p' := snd (dynamicParametersCallback node parameters p) in
     _a_star p' =
       make_a_star (_motion_model p') (_search_info p') (_allow_unknown p')
         (_max_iterations p') Int.max (_max_planning_time p')
         (lookup_table_dim (_lookup_table_size p') (getResolution (_costmap p')))
         (number_of_headings (_metadata p')) /\
     collision_checker (_a_star p') = None /\
     start (_a_star p') = None /\
     goal (_a_star p') = None) /\
  (existsb (recognized (_name p)) parameters = false ->
   dynamicParametersCallback node parameters p = (Ok {| successful := true |}, p)).
Proof.
  split.
  - intros r Hr Hex. cbn zeta. rewrite callback_unfold in *.
    pose proof (for_each_recognized_flag parameters (entering p) Hex) as Hflag.
    destruct (for_each update_parameter parameters (entering p)) as [[[] | e] s];
      cbn [fst snd] in *; [| discriminate Hr].
    specialize (Hflag eq_refl).
    unfold reinitialize, on_search_info. rewrite Hflag. cbn.
    destruct (reinit_smoother s); cbn; repeat split.
  - intros Hex. rewrite callback_unfold.
    rewrite for_each_unrecognized.
    + reflexivity.
    + cbn. clear - Hex. induction parameters as [| q rest IH]; [reflexivity |].
      cbn [existsb forallb] in *. apply orb_false_elim in Hex.
      destruct Hex as [H1 H2]. rewrite H1. cbn. apply IH. exact H2.
Qed.

(** *** The plan *)

(** Lines 266-271 as they are written: [i] runs from [path.size() - 1]
    down to 0 and each turn pushes the pose of [path[i]] at the back of
    [plan.poses].  [turns] is the number of turns left, [i + 1]. *)
Fixpoint convert (h : Header) (costmap : Costmap2D) (path : CoordinateVector)
    (turns : nat) (plan_poses : list PoseStamped) : list PoseStamped :=
  match turns with
  | O => plan_poses
  | S i =>
      match nth_error path i with
      | Some c => convert h costmap path i (plan_poses ++ [world_pose h costmap c])
      | None => plan_poses
      end
  end.

Lemma firstn_succ {A : Type} (l : list A) (i : nat) (c : A) :
  nth_error l i = Some c -> firstn (S i) l = (firstn i l ++ [c])%list.
Proof.
  revert i. induction l as [| x l IH]; intros [| i] H; cbn in *;
    try discriminate.
  - injection H as ->. reflexivity.
  - rewrite (IH i H). reflexivity.
Qed.

Lemma convert_firstn (h : Header) (costmap : Costmap2D) (path : CoordinateVector)
    (turns : nat) (plan_poses : list PoseStamped) :
  (turns <= List.length path)%nat ->
  convert h costmap path turns plan_poses =
  (plan_poses ++ map (world_pose h costmap) (rev (firstn turns path)))%list.
Proof.
  revert plan_poses. induction turns as [| i IH]; intros plan_poses Hle.
  - cbn. rewrite app_nil_r. reflexivity.
  - cbn [convert].
    destruct (nth_error path i) as [c |] eqn:E.
    + rewrite IH by lia. rewrite (firstn_succ path i c E).
      rewrite rev_app_distr. cbn. rewrite <- app_assoc. reflexivity.
    + exfalso. apply (proj2 (nth_error_Some path i)); [lia | exact E].
Qed.

(** X7.  The plan is the path of the engine turned round.  The loop that
    converts the path yields the plan of the planning call before smoothing;
    it has one pose per node of the path, pose [i] is the world pose of node
    [size - 1 - i], so the first pose is the last node of the path and the
    last pose its first node, and every pose carries the header of the
    plan. *)
Theorem plan_is_path_reversed (h : Header) (costmap : Costmap2D)
    (path : CoordinateVector) :
  convert h costmap path (List.length path) [] = poses (raw_plan h costmap path) /\
  List.length (poses (raw_plan h costmap path)) = List.length path /\
  (forall i,
     (i < List.length path)%nat ->
     nth_error (poses (raw_plan h costmap path)) i =
     option_map (world_pose h costmap)
       (nth_error path (List.length path - 1 - i))) /\
  (forall ps, In ps (poses (raw_plan h costmap path)) -> header ps = h).
Proof.
  split; [| split; [| split]].
  - rewrite convert_firstn by lia. rewrite firstn_all. reflexivity.
  - apply raw_plan_length.
  - intros i Hi. unfold raw_plan. cbn [poses].
    rewrite nth_error_map, nth_error_rev.
    destruct (Nat.ltb_spec i (List.length path)) as [_ | Hge]; [| lia].
    replace (List.length path - S i)%nat with (List.length path - 1 - i)%nat by lia.
    reflexivity.
  - intros ps Hin. unfold raw_plan in Hin. cbn [poses] in Hin.
    apply in_map_iff in Hin. destruct Hin as (c & <- & _). reflexivity.
Qed.

Ltac in_events H :=
  cbn in H;
  repeat match type of H with
    | _ \/ _ => destruct H as [H | H]
    | False => contradiction
    end.

Ltac failed_events :=
  split; [| split; [| split]];
  [ intros plan; split;
    [ intros H; in_events H; discriminate H | intros [H _]; discriminate H ]
  | intros plan t H; in_events H; discriminate H
  | intros msg H; in_events H; injection H as <-; split; reflexivity
  | discriminate ].

(** X8.  What a planning call publishes and when.  Whatever the search
    hands back: a plan is published exactly when the search found a path and
    the raw plan topic has a subscriber, and it is the plan before smoothing;
    the smoother, when called, is called after that, on the same plan and
    with the time that remains; a warning is logged only when the search
    failed, and then nothing is published or smoothed. *)
Theorem publishes_unsmoothed_plan (w : Surroundings)
    (start_pose goal_pose : PoseStamped) (p : SmacPlannerLattice) :
  let o := createPath (prepare w start_pose goal_pose p) in
  let raw := raw_plan (plan_header w p) (_costmap p) (plan_path o) in
  let events := snd (fst (createPlan w start_pose goal_pose p)) in
  (forall plan,
     In (Publish plan) events <->
     failed o = false /\ (0 < subscription_count w)%Z /\ plan = raw) /\
  (forall plan t,
     In (Smooth plan t) events ->
     failed o = false /\ plan = raw /\ t = time_remaining w p) /\
  (forall msg, In (Warn msg) events -> failed o = true /\ events = [Warn msg]) /\
  (failed o = false ->
   exists published smoothed,
     events = (published ++ smoothed)%list /\
     (forall e, In e published -> e = Publish raw) /\
     (forall e, In e smoothed -> e = Smooth raw (time_remaining w p))).
Proof.
  cbn zeta. unfold createPlan.
  set (a := prepare w start_pose goal_pose p).
  rewrite !plan_header_set_a_star, !time_remaining_set_a_star.
  destruct (createPath a) as [[|] path n | [what | what]].
  - cbn [plan_error negb failed plan_path plan_iterations].
    set (raw := raw_plan (plan_header w p) (_costmap p) path).
    change (negb ("" =? "")%string) with false. cbn iota.
    cbn [_costmap set_a_star _smoother].
    destruct (0 <? subscription_count w)%Z eqn:Es;
      destruct ((1 <? n)%Z && (6 <? Z.of_nat (List.length (poses raw)))%Z) eqn:Ec;
      cbn [fst snd app];
      (split; [| split; [| split]]).
    all: try (intros plan; split;
              [ intros H; in_events H; try discriminate H;
                injection H as <-; repeat split; lia
              | intros (_ & Hs & ->); cbn; auto; lia ]).
    all: try (intros plan t H; in_events H; try discriminate H;
              injection H as <- <-; repeat split).
    all: try (intros msg H; in_events H; discriminate H).
    + intros _. exists [Publish raw], [Smooth raw (time_remaining w p)].
      split; [reflexivity |].
      split; intros e [H | []]; symmetry; exact H.
    + intros _. exists [Publish raw], [].
      split; [reflexivity |].
      split; [intros e [H | []]; symmetry; exact H | intros e []].
    + intros _. exists [], [Smooth raw (time_remaining w p)].
      split; [reflexivity |].
      split; [intros e [] | intros e [H | []]; symmetry; exact H].
    + intros _. exists [], [].
      split; [reflexivity |]. split; intros e [].
  - cbn [plan_error negb failed]. destruct (n <? _)%Z; cbn; failed_events.
  - cbn; failed_events.
  - cbn; failed_events.
Qed.

(** *** The scaled turning radius *)

Lemma reinitialize_radius (node : LifecycleNode) (s : Reinit) :
  reinit_a_star s = true ->
  let p' := reinitialize node s in
  minimum_turning_radius (_search_info p') =
    float_div_double (minimum_turning_radius (_search_info (this s)))
      (getResolution (_costmap (this s))) /\
  search_info (_a_star p') = _search_info p' /\
  dim_3_size (_a_star p') = number_of_headings (_metadata (this s)) /\
  (reinit_smoother s = true ->
   smoother_min_turning_radius (_smoother p') = min_turning_radius (_metadata (this s))).
Proof.
  unfold reinitialize, on_search_info. intros ->.
  destruct (reinit_smoother s); cbn; repeat split; intros; try discriminate.
Qed.

(** X9.  The stored turning radius is divided again at every rebuild.
    When the list holds a recognized parameter and no lattice file update,
    the callback returns, and the scaled turning radius it stores and hands
    to the rebuilt engine is the one stored before divided by the resolution,
    while the lattice metadata and the smoother stay as they were. *)
Theorem rebuild_divides_turning_radius (node : LifecycleNode)
    (parameters : list rclcpp_Parameter) (p : SmacPlannerLattice) :
  existsb (recognized (_name p)) parameters = true ->
  no_lattice_update (_name p) parameters = true ->
  exists p',
    dynamicParametersCallback node parameters p = (Ok {| successful := true |}, p') /\
    minimum_turning_radius (_search_info p') =
      float_div_double (minimum_turning_radius (_search_info p))
        (getResolution (_costmap p)) /\
    minimum_turning_radius (search_info (_a_star p')) =
      minimum_turning_radius (_search_info p') /\
    _metadata p' = _metadata p /\
    _smoother p' = _smoother p.
Proof.
  intros Hex Hno. rewrite callback_unfold.
  destruct (for_each_lattice_frame parameters (entering p) Hno)
    as [Hok (Hm & Hr & _ & Hsm)].
  pose proof (for_each_recognized_flag parameters (entering p) Hex) as Hflag.
  pose proof (for_each_frame parameters (entering p)) as Hf.
  destruct (for_each update_parameter parameters (entering p)) as [r s];
    cbn [fst snd] in *. subst r. specialize (Hflag eq_refl).
  eexists. split; [reflexivity |].
  destruct (reinitialize_radius node s Hflag) as (Hrad & Hinfo & _).
  destruct (reinitialize_in_sync node s) as (_ & _ & Hkeep & _).
  pose proof (reinitialize_keeps node s) as (_ & _ & _ & Hmeta & _).
  destruct Hf as (_ & Hs & _ & Hc & _). cbn in Hs, Hc, Hm, Hr, Hsm.
  split; [rewrite Hrad, Hr, Hc; reflexivity |].
  split; [rewrite Hinfo; reflexivity |].
  split; [rewrite Hmeta; exact Hm |].
  rewrite Hkeep by exact Hsm. exact Hs.
Qed.

Lemma update_parameter_loads_file (parameter : rclcpp_Parameter) (path : string)
    (m : LatticeMetadata) (s : Reinit) :
  lattice_update (_name (this s)) parameter = Some path ->
  getLatticeMetadata path = Ok m ->
  let s' := snd (update_parameter parameter s) in
  fst (update_parameter parameter s) = Ok tt /\
  _metadata (this s') = m /\
  lattice_filepath (_search_info (this s')) = path /\
  minimum_turning_radius (_search_info (this s')) =
    float_div_double (Fp.finite (min_turning_radius m))
      (getResolution (_costmap (this s))) /\
  reinit_a_star s' = true /\
  reinit_smoother s' = true.
Proof.
  unfold lattice_update. unfold_update. cbn.
  destruct (get_value parameter); try discriminate.
  destruct (get_name parameter =? _name (this s) ++ ".lattice_filepath")%string;
    [| discriminate].
  intros Hp Hm. injection Hp as ->. rewrite Hm. cbn. repeat split.
Qed.

(** X10.  What a lattice file update gives the engine and the smoother.
    When the last lattice file update of a list names a file that loads, and
    the files asked for before it load too, the callback returns with the
    metadata of that file stored; the smoother is rebuilt with their turning
    radius, in metres; the engine is rebuilt with their heading count and with
    that radius divided by the resolution twice. *)
Theorem lattice_update_rebuilds (node : LifecycleNode)
    (before : list rclcpp_Parameter) (parameter : rclcpp_Parameter)
    (after : list rclcpp_Parameter) (p : SmacPlannerLattice)
    (path : string) (m : LatticeMetadata) :
  loadable (_name p) before = true ->
  lattice_update (_name p) parameter = Some path ->
  getLatticeMetadata path = Ok m ->
  no_lattice_update (_name p) after = true ->
  exists p',
    dynamicParametersCallback node (before ++ parameter :: after) p =
      (Ok {| successful := true |}, p') /\
    _metadata p' = m /\
    lattice_filepath (_search_info p') = path /\
    smoother_min_turning_radius (_smoother p') = min_turning_radius m /\
    dim_3_size (_a_star p') = number_of_headings m /\
    minimum_turning_radius (search_info (_a_star p')) =
      float_div_double
        (float_div_double (Fp.finite (min_turning_radius m))
           (getResolution (_costmap p)))
        (getResolution (_costmap p)).
Proof.
  intros Hbefore Hu Hm Hafter. rewrite callback_unfold.
  change (before ++ parameter :: after)%list
    with (before ++ [parameter] ++ after)%list.
  rewrite for_each_app.
  pose proof (for_each_ok before (entering p) Hbefore) as Hok1.
  pose proof (for_each_frame before (entering p)) as Hf1.
  destruct (for_each update_parameter before (entering p)) as [r1 s1];
    cbn [fst snd] in *. subst r1.
  assert (Hn1 : _name (this s1) = _name p) by apply Hf1.
  assert (Hc1 : _costmap (this s1) = _costmap p) by apply Hf1.
  rewrite <- Hn1 in Hu, Hafter.
  destruct (update_parameter_loads_file parameter path m s1 Hu Hm)
    as (Hok2 & Hm2 & Hp2 & Hr2 & Ha2 & Hs2).
  pose proof (update_parameter_frame parameter s1) as Hf2.
  cbn [for_each app]. unfold bind.
  destruct (update_parameter parameter s1) as [r2 s2]; cbn [fst snd] in *.
  subst r2.
  assert (Hn2 : _name (this s2) = _name (this s1)) by apply Hf2.
  assert (Hc2 : _costmap (this s2) = _costmap (this s1)) by apply Hf2.
  rewrite <- Hn2 in Hafter.
  destruct (for_each_lattice_frame after s2 Hafter) as [Hok3 (Hm3 & Hr3 & Hp3 & Hs3)].
  pose proof (for_each_flag after s2 Ha2) as Ha3.
  pose proof (for_each_frame after s2) as Hf3.
  destruct (for_each update_parameter after s2) as [r3 s3]; cbn [fst snd] in *.
  subst r3.
  assert (Hc3 : _costmap (this s3) = _costmap (this s2)) by apply Hf3.
  eexists. split; [reflexivity |].
  destruct (reinitialize_radius node s3 Ha3) as (Hrad & Hinfo & Hdim & Hsmooth).
  pose proof (reinitialize_keeps node s3) as (_ & _ & _ & Hmeta & _).
  split; [rewrite Hmeta; congruence |].
  split.
  { unfold reinitialize, on_search_info. rewrite Ha3.
    destruct (reinit_smoother s3); cbn; congruence. }
  split; [rewrite Hsmooth by congruence; congruence |].
  split; [rewrite Hdim; congruence |].
  rewrite Hinfo, Hrad, Hr3, Hr2, Hc3, Hc2, Hc1. reflexivity.
Qed.

(** *** A table of at least one cell *)

Lemma pow2_pos (e : Z) : (0 < Fp.pow2 e)%Q.
Proof.
  unfold Fp.pow2. destruct (Z.leb_spec 0 e) as [H | H].
  - unfold Qlt, inject_Z. cbn [Qnum Qden].
    pose proof (Z.pow_pos_nonneg 2 e eq_refl H). lia.
  - apply Qinv_lt_0_compat. unfold Qlt, inject_Z. cbn [Qnum Qden].
    assert (0 <= - e)%Z by lia.
    pose proof (Z.pow_pos_nonneg 2 (- e) eq_refl H0). lia.
Qed.

Lemma round_half_even_nonneg (q : Q) :
  (0 <= q)%Q -> (0 <= Fp.round_half_even q)%Z.
Proof.
  intros H. unfold Fp.round_half_even.
  assert (Hf : (0 <= Qfloor q)%Z).
  { change 0%Z with (Qfloor 0). apply Qfloor_resp_le. exact H. }
  destruct (Qcompare _ _); [destruct (Z.even _) | |]; lia.
Qed.

Lemma round_nonneg (prec emin : Z) (q : Q) :
  (0 <= q)%Q -> (0 <= Fp.round prec emin q)%Q.
Proof.
  intros H. unfold Fp.round.
  destruct (Qeq_bool q 0); [apply Qle_refl |].
  rewrite Qred_correct.
  set (ulp := Fp.pow2 _).
  assert (Hu : (0 < ulp)%Q) by apply pow2_pos.
  apply Qmult_le_0_compat; [| apply Qlt_le_weak; exact Hu].
  change 0%Q with (inject_Z 0). rewrite <- Zle_Qle.
  apply round_half_even_nonneg.
  unfold Qdiv. apply Qmult_le_0_compat; [exact H |].
  apply Qinv_le_0_compat. apply Qlt_le_weak. exact Hu.
Qed.

(** A floating value that is not below zero. *)
Definition not_negative (x : Fp.t) : Prop :=
  match x with
  | Fp.finite r => (0 <= r)%Q
  | Fp.infinity s => s = false
  | Fp.nan => True
  end.

Lemma negative_nonneg (q : Q) : (0 <= q)%Q -> Fp.negative q = false.
Proof.
  intros H. unfold Fp.negative.
  rewrite (proj2 (Qle_bool_iff 0 q) H). reflexivity.
Qed.

Lemma of_Q_not_negative (prec emin emax : Z) (q : Q) :
  (0 <= q)%Q -> not_negative (Fp.of_Q prec emin emax q).
Proof.
  intros H. unfold Fp.of_Q. cbn zeta.
  destruct (Qle_bool _ _); cbn.
  - apply round_nonneg. exact H.
  - apply negative_nonneg. exact H.
Qed.

Lemma div_not_negative (prec emin emax : Z) (a b : Fp.t) :
  not_negative a -> not_negative b -> not_negative (Fp.div prec emin emax a b).
Proof.
  destruct a as [n | s |], b as [d | s' |]; cbn; intros Ha Hb; try exact I.
  - destruct (Qeq_bool d 0) eqn:Ed.
    + destruct (Qeq_bool n 0); cbn; [exact I | apply negative_nonneg; exact Ha].
    + apply of_Q_not_negative.
      unfold Qdiv. apply Qmult_le_0_compat; [exact Ha |].
      apply Qinv_le_0_compat. exact Hb.
  - apply Qle_refl.
  - subst s. rewrite (negative_nonneg d Hb). reflexivity.
Qed.

Lemma to_int_not_negative (x : Fp.t) (n : Z) :
  not_negative x -> Fp.to_int x = Some n -> (0 <= n)%Z.
Proof.
  destruct x as [q | s |]; cbn; intros H E; try discriminate E.
  destruct (_ && _); [| discriminate E]. injection E as <-.
  apply Z.quot_pos; [| lia]. unfold Qle in H. cbn in H. lia.
Qed.

Lemma lookup_table_cells_nonneg (size res : Q) (cells : Z) :
  (0 <= size)%Q -> (0 <= res)%Q ->
  lookup_table_cells size res = Some cells -> (0 <= cells)%Z.
Proof.
  intros Hs Hr. unfold lookup_table_cells, lookup_table_quotient.
  apply to_int_not_negative. apply div_not_negative.
  - apply of_Q_not_negative. exact Hs.
  - apply of_Q_not_negative. exact Hr.
Qed.

(** X11.  A table of at least one cell.  For a table size that is not
    negative and a resolution that is positive, when the conversion of their
    quotient to [int] is defined and gives a cell count below 2^24, the
    dimension is a whole number, at least 1 and at most one more than the
    cell count: a table size of 0, or one smaller than a cell, still gives
    the engine a table of one cell. *)
Theorem table_has_a_cell (size res : Q) :
  (0 <= size)%Q ->
  (0 < res)%Q ->
  table_in_range size res ->
  exists cells k,
    lookup_table_cells size res = Some cells /\
    lookup_table_dim size res = Some (Fp.finite (inject_Z k)) /\
    (1 <= k)%Z /\
    (cells <= k <= cells + 1)%Z /\
    (cells = 0%Z -> k = 1%Z).
Proof.
  intros Hs Hr (cells & Hc & Hn).
  pose proof (lookup_table_cells_nonneg size res cells Hs
                (Qlt_le_weak _ _ Hr) Hc) as H0.
  exists cells. eexists. split; [exact Hc |].
  split; [apply (lookup_table_dim_exact size res cells Hc Hn) |].
  destruct (Z.even cells) eqn:E.
  - repeat split; lia.
  - assert (cells <> 0%Z).
    { intros Hz. rewrite Hz in E. discriminate E. }
    repeat split; lia.
Qed.

(** *** The reason given with an unbounded budget *)

Lemma prepare_settings (w : Surroundings) (start_pose goal_pose : PoseStamped)
    (p : SmacPlannerLattice) :
  engine_settings (prepare w start_pose goal_pose p) = engine_settings (_a_star p).
Proof. reflexivity. Qed.

(** X12.  With the budget disabled, a failed search is "no valid path
    found".  After [configure] with a max_iterations whose conversion to
    [int] is not positive, every planning call whose search returns false
    after fewer iterations than the largest [int] returns the plan with no
    pose and warns with "no valid path found", whatever the count: also when
    it was the deadline that ended the search. *)
Theorem unbounded_budget_reports_no_path (node : LifecycleNode) (name : string)
    (costmap_ros : Costmap2DROS) (metadata : LatticeMetadata) :
  (Int.to_int (param_max_iterations node) <= 0)%Z ->
  getLatticeMetadata (param_lattice_filepath node) = Ok metadata ->
  exists p,
    configure node name costmap_ros = Ok p /\
    forall w start_pose goal_pose path n,
      createPath (prepare w start_pose goal_pose p) = Returns false path n ->
      (n < Int.max)%Z ->
      fst (createPlan w start_pose goal_pose p) =
        (Ok {| path_header := plan_header w p; poses := [] |},
         [Warn (name ++ ": failed to create plan, no valid path found.")]).
Proof.
  intros Hv Hl.
  destruct (configure_ok node name costmap_ros metadata Hl)
    as (p & Hp & Hmax & Hengine & _).
  exists p. split; [exact Hp |].
  intros w start_pose goal_pose path n Ho Hn.
  assert (Hname : _name p = name).
  { unfold configure in Hp. rewrite Hl in Hp. injection Hp as <-. reflexivity. }
  assert (Hb : getMaxIterations (prepare w start_pose goal_pose p) = Int.max).
  { change (getMaxIterations (prepare w start_pose goal_pose p))
      with (getMaxIterations (_a_star p)).
    rewrite Hengine, Hmax.
    destruct (Z.leb_spec (Int.to_int (param_max_iterations node)) 0);
      [reflexivity | lia]. }
  unfold createPlan. rewrite Ho. cbn [plan_error negb].
  rewrite Hb. destruct (Z.ltb_spec n Int.max) as [_ | Hge]; [| lia].
  cbn. rewrite Hname. reflexivity.
Qed.

(** *** A batch that fails half way *)

(** X13.  A failed load leaves the batch half applied.  When a lattice
    file update names a file that fails to load and the files asked for
    before it load, the callback throws the load error, and then: every
    setting but the file path is what a call with only the parameters before
    the failing one would have stored, the file path is the failing one, the
    engine and the smoother are those from before the call, so the engine
    does not have the settings just stored, and the parameters after the
    failing one play no part. *)
Theorem failed_load_applies_earlier_updates (node : LifecycleNode)
    (before : list rclcpp_Parameter) (parameter : rclcpp_Parameter)
    (after : list rclcpp_Parameter) (p : SmacPlannerLattice)
    (path : string) (e : exception) :
  loadable (_name p) before = true ->
  lattice_update (_name p) parameter = Some path ->
  getLatticeMetadata path = Throw e ->
  exists p',
    dynamicParametersCallback node (before ++ parameter :: after) p = (Throw e, p') /\
    (forall f,
       f <> lattice_filepath_setting ->
       setting f p' = setting f (snd (dynamicParametersCallback node before p))) /\
    lattice_filepath (_search_info p') = path /\
    _a_star p' = _a_star p /\
    _smoother p' = _smoother p /\
    dynamicParametersCallback node (before ++ [parameter]) p = (Throw e, p').
Proof.
  intros Hbefore Hu He.
  destruct (callback_outcome node before p) as (_ & _ & Hset & _).
  set (q := snd (dynamicParametersCallback node before p)) in *.
  rewrite !callback_unfold, !for_each_app.
  pose proof (for_each_ok before (entering p) Hbefore) as Hok1.
  pose proof (for_each_frame before (entering p)) as Hf1.
  destruct (for_each update_parameter before (entering p)) as [r1 s1];
    cbn [fst snd] in *. subst r1.
  assert (Hn1 : _name (this s1) = _name p) by apply Hf1.
  rewrite <- Hn1 in Hu.
  destruct (update_parameter_load_fails parameter path e s1 Hu He) as [Hthrow Hthis].
  cbn [for_each]. unfold bind.
  destruct (update_parameter parameter s1) as [r2 s2]; cbn [fst snd] in *.
  subst r2. eexists. split; [reflexivity |].
  rewrite Hthis. unfold on_search_info.
  split.
  { intros f Hf. rewrite Hset. destruct f; try reflexivity. contradiction. }
  split; [reflexivity |].
  destruct Hf1 as (Ha & Hs & _). cbn in Ha, Hs.
  split; [exact Ha |]. split; [exact Hs | reflexivity].
Qed.

(** *** Rounding does not step over a number that needs none *)

Section Rounding.

Local Open Scope Q_scope.

Lemma pow2_power (e : Z) : Fp.pow2 e == 2 ^ e.
Proof.
  unfold Fp.pow2. destruct (Z.leb_spec 0 e) as [H | H].
  - apply (Zpower_Qpower 2 e H).
  - replace e with (- - e)%Z at 2 by lia.
    rewrite Qpower_opp. apply Qinv_comp.
    apply (Zpower_Qpower 2 (- e)). lia.
Qed.

Lemma pow2_add (a b : Z) : Fp.pow2 (a + b) == Fp.pow2 a * Fp.pow2 b.
Proof. rewrite !pow2_power. apply Qpower_plus. discriminate. Qed.

Lemma pow2_le (a b : Z) : (a <= b)%Z -> Fp.pow2 a <= Fp.pow2 b.
Proof.
  intros H. rewrite !pow2_power. apply Qpower_le_compat_l; [exact H |].
  discriminate.
Qed.

Lemma pow2_lt (a b : Z) : (a < b)%Z -> Fp.pow2 a < Fp.pow2 b.
Proof.
  intros H. rewrite !pow2_power. apply Qpower_lt_compat_l; [exact H |].
  reflexivity.
Qed.

(** pow2 (x - y) as a quotient of integers *)
Lemma pow2_sub_cross (x y : Z) (n : Z) (d : positive) :
  (0 <= x)%Z -> (0 <= y)%Z ->
  (Fp.pow2 (x - y) <= n # d <-> (2 ^ x * Zpos d <= n * 2 ^ y)%Z) /\
  (n # d < Fp.pow2 (x - y) <-> (n * 2 ^ y < 2 ^ x * Zpos d)%Z).
Proof.
  intros Hx Hy.
  assert (Hpy : (0 < 2 ^ y)%Z) by (apply Z.pow_pos_nonneg; lia).
  assert (E : Fp.pow2 (x - y) == inject_Z (2 ^ x) / inject_Z (2 ^ y)).
  { assert (Hy0 : ~ inject_Z (2 ^ y) == 0).
    { unfold Qeq, inject_Z. cbn. lia. }
    rewrite <- (pow2_nonneg_exact x Hx), <- (pow2_nonneg_exact y Hy).
    rewrite <- (pow2_nonneg_exact y Hy) in Hy0.
    replace x with ((x - y) + y)%Z at 2 by lia. rewrite pow2_add. field. exact Hy0. }
  rewrite E.
  assert (Q : inject_Z (2 ^ x) / inject_Z (2 ^ y) == (2 ^ x) # (Z.to_pos (2 ^ y))).
  { unfold Qdiv, Qinv, Qmult, Qeq, inject_Z. cbn [Qnum Qden].
    destruct (2 ^ y)%Z eqn:Ey; try lia. cbn. lia. }
  rewrite Q. unfold Qle, Qlt. cbn [Qnum Qden].
  rewrite Z2Pos.id by lia. split; split; lia.
Qed.

Lemma ilog2_spec (q : Q) :
  ~ q == 0 ->
  Fp.pow2 (Fp.ilog2 q) <= Qabs q /\ Qabs q < Fp.pow2 (Fp.ilog2 q + 1).
Proof.
  intros Hq. unfold Fp.ilog2.
  destruct q as [n d]. cbn [Qnum Qden].
  assert (Hn : (0 < Z.abs n)%Z).
  { unfold Qeq in Hq. cbn in Hq. lia. }
  set (la := Z.log2 (Z.abs n)). set (lb := Z.log2 (Zpos d)).
  assert (Hla : (0 <= la)%Z) by apply Z.log2_nonneg.
  assert (Hlb : (0 <= lb)%Z) by apply Z.log2_nonneg.
  destruct (Z.log2_spec (Z.abs n) Hn) as [Ha1 Ha2]. fold la in Ha1, Ha2.
  destruct (Z.log2_spec (Zpos d) eq_refl) as [Hb1 Hb2]. fold lb in Hb1, Hb2.
  assert (Hpa : (0 < 2 ^ la)%Z) by (apply Z.pow_pos_nonneg; lia).
  assert (Hpb : (0 < 2 ^ lb)%Z) by (apply Z.pow_pos_nonneg; lia).
  rewrite Z.pow_succ_r in Ha2, Hb2 by assumption.
  change (Qabs (n # d)) with (Z.abs n # d).
  destruct (Qle_bool (Fp.pow2 (la - lb)) (Z.abs n # d)) eqn:T.
  - split; [apply Qle_bool_iff; exact T |].
    replace (la - lb + 1)%Z with ((la + 1) - lb)%Z by lia.
    apply (pow2_sub_cross (la + 1) lb (Z.abs n) d); [lia | lia |].
    rewrite Z.pow_add_r by lia. change (2 ^ 1)%Z with 2%Z. nia.
  - split.
    + replace (la - lb - 1)%Z with (la - (lb + 1))%Z by lia.
      apply (pow2_sub_cross la (lb + 1) (Z.abs n) d); [lia | lia |].
      rewrite Z.pow_add_r by lia. change (2 ^ 1)%Z with 2%Z. nia.
    + replace (la - lb - 1 + 1)%Z with (la - lb)%Z by lia.
      apply Qnot_le_lt. intros H. apply Qle_bool_iff in H. congruence.
Qed.

Lemma round_half_even_le (q : Q) (n : Z) :
  q <= inject_Z n -> (Fp.round_half_even q <= n)%Z.
Proof.
  intros H. unfold Fp.round_half_even.
  assert (Hf : (Qfloor q <= n)%Z).
  { rewrite <- (Qfloor_Z n). apply Qfloor_resp_le. exact H. }
  assert (Hup : 0 < q - inject_Z (Qfloor q) -> (Qfloor q + 1 <= n)%Z).
  { intros Hpos.
    destruct (Z.eq_dec (Qfloor q) n) as [E | E]; [| lia].
    exfalso. rewrite E in Hpos.
    apply (Qlt_irrefl 0). eapply Qlt_le_trans; [exact Hpos |].
    apply (Qplus_le_l _ _ (inject_Z n)). ring_simplify. exact H. }
  destruct (Qcompare (q - inject_Z (Qfloor q)) (1 # 2)) eqn:C.
  - destruct (Z.even (Qfloor q)); [exact Hf |].
    apply Hup. apply Qeq_alt in C. rewrite C. reflexivity.
  - exact Hf.
  - apply Hup. apply Qgt_alt in C. eapply Qlt_trans; [| exact C]. reflexivity.
Qed.

(** The exponent and the unit of the last place [round] uses for [q]. *)
Definition exponent (emin : Z) (q : Q) : Z := Z.max (Fp.ilog2 q) emin.
Definition ulp (prec emin : Z) (q : Q) : Q := Fp.pow2 (exponent emin q - (prec - 1)).

Lemma round_nonzero (prec emin : Z) (q : Q) :
  ~ q == 0 ->
  Fp.round prec emin q ==
  inject_Z (Fp.round_half_even (q / ulp prec emin q)) * ulp prec emin q.
Proof.
  intros H. unfold Fp.round.
  destruct (Qeq_bool q 0) eqn:E; [apply Qeq_bool_iff in E; contradiction |].
  apply Qred_correct.
Qed.

Lemma round_zero (prec emin : Z) (q : Q) : q == 0 -> Fp.round prec emin q == 0.
Proof.
  intros H. unfold Fp.round.
  apply Qeq_bool_iff in H. rewrite H. reflexivity.
Qed.

Lemma ulp_pos (prec emin : Z) (q : Q) : 0 < ulp prec emin q.
Proof. apply pow2_pos. Qed.

(** Rounding does not step over a number that needs no rounding. *)
Lemma round_le (prec emin : Z) (z x : Q) :
  (0 < prec)%Z ->
  Fp.round prec emin x == x ->
  z <= x ->
  Fp.round prec emin z <= x.
Proof.
  intros Hp Hx Hzx.
  destruct (Qeq_dec z 0) as [Hz0 | Hz0].
  { rewrite (round_zero prec emin z Hz0), <- Hz0. exact Hzx. }
  rewrite (round_nonzero prec emin z Hz0).
  pose proof (ulp_pos prec emin z) as Huz.
  set (uz := ulp prec emin z) in *.
  assert (Huz0 : ~ uz == 0).
  { intros E. rewrite E in Huz. discriminate Huz. }
  (* it is enough to find an integer n with z / uz <= n and n * uz <= x *)
  assert (Enough : forall n : Z,
             z / uz <= inject_Z n -> inject_Z n * uz <= x ->
             inject_Z (Fp.round_half_even (z / uz)) * uz <= x).
  { intros n H1 H2. eapply Qle_trans; [| exact H2].
    apply Qmult_le_compat_r; [| apply Qlt_le_weak; exact Huz].
    rewrite <- Zle_Qle. apply round_half_even_le. exact H1. }
  destruct (Qeq_dec x 0) as [Hx0 | Hx0].
  { apply (Enough 0%Z).
    - apply Qle_shift_div_r; [exact Huz |]. rewrite Qmult_0_l, <- Hx0. exact Hzx.
    - rewrite Qmult_0_l, Hx0. apply Qle_refl. }
  rewrite (round_nonzero prec emin x Hx0) in Hx.
  set (kx := Fp.round_half_even (x / ulp prec emin x)) in *.
  destruct (Z.le_gt_cases (exponent emin z) (exponent emin x)) as [Hle | Hgt].
  - (* x is a multiple of uz *)
    set (d := (exponent emin x - exponent emin z)%Z).
    assert (Hd : (0 <= d)%Z) by (unfold d; lia).
    assert (Eu : ulp prec emin x == inject_Z (2 ^ d) * uz).
    { unfold ulp, uz, ulp.
      replace (exponent emin x - (prec - 1))%Z
        with (d + (exponent emin z - (prec - 1)))%Z by (unfold d; lia).
      rewrite pow2_add, (pow2_nonneg_exact d Hd). reflexivity. }
    apply (Enough (kx * 2 ^ d)%Z).
    + apply Qle_shift_div_r; [exact Huz |].
      rewrite inject_Z_mult, <- Qmult_assoc, <- Eu, Hx. exact Hzx.
    + rewrite inject_Z_mult, <- Qmult_assoc, <- Eu, Hx. apply Qle_refl.
  - (* z is negative and beyond the binade of x *)
    assert (Ez : exponent emin z = Fp.ilog2 z) by (unfold exponent in *; lia).
    assert (Hlog : (Fp.ilog2 x + 1 <= Fp.ilog2 z)%Z) by (unfold exponent in *; lia).
    destruct (ilog2_spec z Hz0) as [Hz1 _].
    destruct (ilog2_spec x Hx0) as [_ Hx2].
    pose proof (pow2_le _ _ Hlog) as Hpow.
    assert (Hxz : Qabs x < Qabs z).
    { eapply Qlt_le_trans; [exact Hx2 |]. eapply Qle_trans; [exact Hpow | exact Hz1]. }
    assert (Hneg : z < 0).
    { apply Qnot_le_lt. intros Hpos.
      apply (Qlt_irrefl (Qabs x)). eapply Qlt_le_trans; [exact Hxz |].
      rewrite (Qabs_pos z Hpos). eapply Qle_trans; [exact Hzx |]. apply Qle_Qabs. }
    assert (Habs : Qabs z == - z) by (apply Qabs_neg; apply Qlt_le_weak; exact Hneg).
    assert (Eexp : Fp.pow2 (Fp.ilog2 z) == inject_Z (2 ^ (prec - 1)) * uz).
    { unfold uz, ulp. rewrite Ez.
      replace (Fp.ilog2 z) with ((prec - 1) + (Fp.ilog2 z - (prec - 1)))%Z at 1 by lia.
      rewrite pow2_add, (pow2_nonneg_exact (prec - 1)) by lia. reflexivity. }
    apply (Enough (- 2 ^ (prec - 1))%Z).
    + apply Qle_shift_div_r; [exact Huz |].
      rewrite inject_Z_opp.
      setoid_replace (- inject_Z (2 ^ (prec - 1)) * uz)
        with (- (inject_Z (2 ^ (prec - 1)) * uz)) by ring.
      rewrite <- Eexp.
      apply Qopp_le_compat in Hz1. rewrite Habs, Qopp_involutive in Hz1. exact Hz1.
    + rewrite inject_Z_opp.
      setoid_replace (- inject_Z (2 ^ (prec - 1)) * uz)
        with (- (inject_Z (2 ^ (prec - 1)) * uz)) by ring.
      rewrite <- Eexp.
      apply Qle_trans with (- Qabs x).
      * apply Qopp_le_compat. apply Qlt_le_weak.
        eapply Qlt_le_trans; [exact Hx2 | exact Hpow].
      * rewrite <- (Qopp_involutive x) at 2. apply Qopp_le_compat.
        rewrite <- Qabs_opp. apply Qle_Qabs.
Qed.

End Rounding.

(** *** The time left for smoothing *)

Lemma of_Q_nonneg_cases (prec emin emax : Z) (q : Q) :
  (0 <= q)%Q ->
  (exists r, Fp.of_Q prec emin emax q = Fp.finite r /\ (0 <= r)%Q) \/
  Fp.of_Q prec emin emax q = Fp.infinity false.
Proof.
  intros H. unfold Fp.of_Q. cbn zeta.
  destruct (Qle_bool _ _).
  - left. eexists. split; [reflexivity | apply round_nonneg; exact H].
  - right. rewrite (negative_nonneg q H). reflexivity.
Qed.

(** A value of the format computed from a real number that is at most
    [x], a number of the format, is at most [x]. *)
Lemma of_Q_le (prec emin emax : Z) (z x : Q) :
  (0 < prec)%Z ->
  (Fp.round prec emin x == x)%Q ->
  (Qabs x <= Fp.largest prec emax)%Q ->
  (z <= x)%Q ->
  Fp.le (Fp.of_Q prec emin emax z) x.
Proof.
  intros Hp Hx Hmax Hzx.
  pose proof (round_le prec emin z x Hp Hx Hzx) as Hr.
  unfold Fp.of_Q. cbn zeta.
  destruct (Qle_bool (Qabs (Fp.round prec emin z)) (Fp.largest prec emax)) eqn:E;
    cbn; [exact Hr |].
  unfold Fp.negative. destruct (Qle_bool 0 z) eqn:Ez; [| reflexivity].
  exfalso. apply Qle_bool_iff in Ez.
  assert (Hle : Qle_bool (Qabs (Fp.round prec emin z)) (Fp.largest prec emax) = true).
  { apply Qle_bool_iff.
    rewrite (Qabs_pos _ (round_nonneg prec emin z Ez)).
    eapply Qle_trans; [exact Hr |].
    eapply Qle_trans; [apply Qle_Qabs | exact Hmax]. }
  congruence.
Qed.

Lemma is_double_round (q : Q) :
  Fp.is_double q ->
  (Fp.round 53 (-1022) q == q)%Q /\ (Qabs q <= Fp.largest 53 1023)%Q.
Proof.
  unfold Fp.is_double, Fp.to_double, Fp.convert, Fp.of_Q. cbn zeta.
  destruct (Qle_bool (Qabs (Fp.round 53 (-1022) q)) (Fp.largest 53 1023)) eqn:E;
    [| discriminate].
  intros H. injection H as H.
  assert (Hq : (Fp.round 53 (-1022) q == q)%Q) by (rewrite H; apply Qred_correct).
  split; [exact Hq |].
  apply Qle_bool_iff in E. rewrite Hq in E. exact E.
Qed.

Lemma smooth_event_time (w : Surroundings) (start_pose goal_pose : PoseStamped)
    (p : SmacPlannerLattice) (plan : Path) (t : Fp.t) :
  In (Smooth plan t) (snd (fst (createPlan w start_pose goal_pose p))) ->
  t = time_remaining w p.
Proof.
  unfold createPlan.
  rewrite !time_remaining_set_a_star.
  destruct (plan_error _ _) as [error | e]; [| intros []].
  destruct (negb _).
  - intros H. in_events H. discriminate H.
  - destruct (0 <? subscription_count w)%Z; destruct (_ && _);
      intros H; in_events H; try discriminate H;
      injection H as _ <-; reflexivity.
Qed.

(** X14.  The smoother is never given more than the planning time.  When
    the steady clock has not run backwards between its two readings and the
    stored max_planning_time is a [double], the time that remains is at most
    max_planning_time, and so is the time of every call of the smoother a
    planning call makes. *)
Theorem smoothing_time_within_budget (w : Surroundings) (p : SmacPlannerLattice) :
  (steady_clock_a w <= steady_clock_b w)%Z ->
  Fp.is_double (_max_planning_time p) ->
  Fp.le (time_remaining w p) (_max_planning_time p) /\
  (forall start_pose goal_pose plan t,
     In (Smooth plan t) (snd (fst (createPlan w start_pose goal_pose p))) ->
     Fp.le t (_max_planning_time p)).
Proof.
  intros Hclock Hdouble.
  destruct (is_double_round _ Hdouble) as [Hround Hmax].
  assert (H : Fp.le (time_remaining w p) (_max_planning_time p)).
  { unfold time_remaining. cbn zeta.
    set (count := (steady_clock_b w - steady_clock_a w)%Z).
    assert (Hcount : (0 <= inject_Z count)%Q).
    { change 0%Q with (inject_Z 0). rewrite <- Zle_Qle. unfold count. lia. }
    unfold Fp.double_sub, Fp.double_div, Fp.double_of_int.
    destruct (of_Q_nonneg_cases 53 (-1022) 1023 _ Hcount) as [(n & -> & Hn) | ->].
    - unfold Fp.div. change (Qeq_bool 1000000000 0) with false. cbn iota.
      assert (Hq : (0 <= n / 1000000000)%Q).
      { unfold Qdiv. apply Qmult_le_0_compat; [exact Hn | discriminate]. }
      destruct (of_Q_nonneg_cases 53 (-1022) 1023 _ Hq) as [(span & -> & Hspan) | ->].
      + unfold Fp.opp, Fp.add.
        apply of_Q_le; [lia | exact Hround | exact Hmax |].
        rewrite (Qred_correct (- span)).
        apply (Qplus_le_l _ _ span). ring_simplify.
        rewrite <- (Qplus_0_r (_max_planning_time p)) at 1.
        apply Qplus_le_r. exact Hspan.
      + reflexivity.
    - reflexivity. }
  split; [exact H |].
  intros start_pose goal_pose plan t Hin.
  rewrite (smooth_event_time w start_pose goal_pose p plan t Hin). exact H.
Qed.

End Planner.

Arguments getCostmap {Costmap2D Footprint} _.
Arguments search_info {Costmap2D Footprint} _.
Arguments lookup_table_size {Costmap2D Footprint} _.
Arguments getMaxIterations {Costmap2D Footprint} _.
Arguments make_a_star {Costmap2D Footprint} _ _ _ _ _ _ _ _.
Arguments plan_error {Costmap2D Footprint} _ _.
Arguments _a_star {Costmap2D Footprint SmootherParams} _.
Arguments _smoother {Costmap2D Footprint SmootherParams} _.
Arguments _search_info {Costmap2D Footprint SmootherParams} _.
Arguments _max_iterations {Costmap2D Footprint SmootherParams} _.
Arguments _metadata {Costmap2D Footprint SmootherParams} _.
Arguments _name {Costmap2D Footprint SmootherParams} _.
Arguments configure {Costmap2D} getResolution {Footprint SmootherParams} _ _ _ _ _.
Arguments dynamicParametersCallback {Costmap2D} getResolution {Footprint SmootherParams} _ _ _ _.
Arguments prepare {Costmap2D Footprint SmootherParams} _ _ _ _ _ _ _.
Arguments createPlan {Costmap2D Footprint SmootherParams} _ _ _ _ _ _ _ _ _ _ _.
Arguments plan_header {Costmap2D Footprint SmootherParams} _ _.
Arguments time_remaining {Costmap2D Footprint SmootherParams} _ _.
Arguments raw_plan {Costmap2D} _ _ _ _ _.
Arguments set_a_star {Costmap2D Footprint SmootherParams} _ _.
Arguments Expanded {SearchNode} _.
Arguments termination {Costmap2D Footprint SearchNode} _ _ _ _.
Arguments search_createPath {Costmap2D Footprint SearchNode} _ _ _ _.

Arguments search_createPath_count {Costmap2D Footprint SearchNode} _ _ _ _.
Arguments Expansion SearchNode : clear implicits.

(** ** A planning call on the modelled search *)

Section PlanningOnSearch.

Local Open Scope string_scope.

Variable Costmap2D Footprint SmootherParams SearchNode : Type.
Variable worldToMap : Costmap2D -> Q -> Q -> option (Z * Z).
Variable getYaw : Quaternion -> Q.
Variable getClosestAngularBin : Q -> Z.
Variable getWorldCoords : Q -> Q -> Costmap2D -> Pose.
Variable getWorldOrientation : Q -> Quaternion.
Variable smooth : Smoother SmootherParams -> Path -> Costmap2D -> Fp.t -> Path.
Variable expand : SearchNode -> Expansion SearchNode.
Variable initial : AStarAlgorithm Costmap2D Footprint -> SearchNode.

(** The planning call when the engine's [createPath] is the modelled
    search and the wall clock reads [elapsed]. *)
Definition createPlan_on_search (elapsed : Z -> Q) (w : Surroundings)
    (start_pose goal_pose : PoseStamped)
    (p : SmacPlannerLattice Costmap2D Footprint SmootherParams)
    : result Path * list Event * SmacPlannerLattice Costmap2D Footprint SmootherParams :=
  createPlan worldToMap getYaw getClosestAngularBin getWorldCoords
    getWorldOrientation smooth (search_createPath expand elapsed initial)
    w start_pose goal_pose p.

(** The search the call runs: on the engine as the call prepared it. *)
Definition call_termination (elapsed : Z -> Q) (w : Surroundings)
    (start_pose goal_pose : PoseStamped)
    (p : SmacPlannerLattice Costmap2D Footprint SmootherParams) : Termination :=
  termination expand elapsed initial
    (prepare worldToMap getYaw getClosestAngularBin w start_pose goal_pose p).

(** C3.  A planning call whose search the deadline ended returns the plan
    with no pose and warns with the reason "no valid path found"; one whose
    search the iteration budget ended returns the plan with no pose and
    warns with the reason "exceeded maximum iterations": two different
    reasons. *)
Theorem deadline_reported_apart_from_budget (elapsed1 elapsed2 : Z -> Q)
    (w1 w2 : Surroundings) (start1 goal1 start2 goal2 : PoseStamped)
    (p1 p2 : SmacPlannerLattice Costmap2D Footprint SmootherParams) :
  call_termination elapsed1 w1 start1 goal1 p1 = TimeExceeded ->
  call_termination elapsed2 w2 start2 goal2 p2 = IterationsExceeded ->
  exists reason1 reason2,
    fst (createPlan_on_search elapsed1 w1 start1 goal1 p1) =
      (Ok {| path_header := plan_header w1 p1; poses := [] |},
       [Warn (_name p1 ++ ": failed to create plan, " ++ reason1 ++ ".")]) /\
    fst (createPlan_on_search elapsed2 w2 start2 goal2 p2) =
      (Ok {| path_header := plan_header w2 p2; poses := [] |},
       [Warn (_name p2 ++ ": failed to create plan, " ++ reason2 ++ ".")]) /\
    reason1 = "no valid path found" /\
    reason2 = "exceeded maximum iterations" /\
    reason1 <> reason2.
Proof.
  unfold call_termination, createPlan_on_search. intros H1 H2.
  set (a1 := prepare worldToMap getYaw getClosestAngularBin w1 start1 goal1 p1) in *.
  set (a2 := prepare worldToMap getYaw getClosestAngularBin w2 start2 goal2 p2) in *.
  destruct (search_createPath_count expand elapsed1 initial a1) as [Hdeadline _].
  destruct (Hdeadline H1) as (path1 & k1 & Ho1 & Hk1).
  destruct (search_createPath_count expand elapsed2 initial a2) as [_ Hbudget].
  destruct (Hbudget H2) as (path2 & k2 & Ho2 & Hk2).
  exists "no valid path found", "exceeded maximum iterations".
  split; [| split; [| repeat split; discriminate]].
  - unfold createPlan. fold a1. rewrite Ho1. cbn [plan_error negb].
    destruct (Z.ltb_spec k1 (getMaxIterations a1)) as [_ | Hge];
      [reflexivity | lia].
  - unfold createPlan. fold a2. rewrite Ho2. cbn [plan_error negb].
    destruct (Z.ltb_spec k2 (getMaxIterations a2)) as [Hlt | _];
      [lia | reflexivity].
Qed.

End PlanningOnSearch.

Arguments createPlan_on_search {Costmap2D Footprint SmootherParams SearchNode}
  _ _ _ _ _ _ _ _ _ _ _ _ _.
Arguments call_termination {Costmap2D Footprint SmootherParams SearchNode}
  _ _ _ _ _ _ _ _ _ _.

(** ** A planner to run *)

Module Scenario.

Local Open Scope string_scope.

(** A costmap, by its resolution: cells of a quarter of a metre. *)
Definition resolution (c : Q) : Q := c.

Definition default_model : LatticeMetadata :=
  {| min_turning_radius := 1 # 2; grid_resolution := 1 # 4; number_of_headings := 16 |}.

Definition wide_model : LatticeMetadata :=
  {| min_turning_radius := 1; grid_resolution := 1 # 4; number_of_headings := 16 |}.

(** The lattice files there are. *)
Definition lattice_files (path : string) : result LatticeMetadata :=
  if path =? "default_model.json" then Ok default_model
  else if path =? "wide_model.json" then Ok wide_model
  else Throw (runtime_error "Could not open lattice file").

Definition costmap_ros : Costmap2DROS Q unit :=
  {| getCostmap := 1 # 4;
     getGlobalFrameID := "map";
     getRobotFootprint := tt;
     getUseRadius := true |}.

Definition circumscribed (c : Costmap2DROS Q unit) : Q := 0.

(** The node with the defaults [configure] declares. *)
Definition node : LifecycleNode unit :=
  {| param_allow_unknown := true;
     param_max_iterations := 1000000;
     param_lattice_filepath := "default_model.json";
     param_cache_obstacle_heuristic := false;
     param_reverse_penalty := 2;
     param_change_penalty := 1 # 20;
     param_non_straight_penalty := 21 # 20;
     param_cost_penalty := 2;
     param_analytic_expansion_ratio := 7 # 2;
     param_max_planning_time := 5;
     param_lookup_table_size := 20;
     param_allow_reverse_expansion := false;
     smoother_params := tt |}.

Definition with_max_iterations (v : Z) (n : LifecycleNode unit) : LifecycleNode unit :=
  {| param_allow_unknown := param_allow_unknown _ n;
     param_max_iterations := v;
     param_lattice_filepath := param_lattice_filepath _ n;
     param_cache_obstacle_heuristic := param_cache_obstacle_heuristic _ n;
     param_reverse_penalty := param_reverse_penalty _ n;
     param_change_penalty := param_change_penalty _ n;
     param_non_straight_penalty := param_non_straight_penalty _ n;
     param_cost_penalty := param_cost_penalty _ n;
     param_analytic_expansion_ratio := param_analytic_expansion_ratio _ n;
     param_max_planning_time := param_max_planning_time _ n;
     param_lookup_table_size := param_lookup_table_size _ n;
     param_allow_reverse_expansion := param_allow_reverse_expansion _ n;
     smoother_params := smoother_params _ n |}.

Definition with_lookup_table_size (v : Q) (n : LifecycleNode unit) : LifecycleNode unit :=
  {| param_allow_unknown := param_allow_unknown _ n;
     param_max_iterations := param_max_iterations _ n;
     param_lattice_filepath := param_lattice_filepath _ n;
     param_cache_obstacle_heuristic := param_cache_obstacle_heuristic _ n;
     param_reverse_penalty := param_reverse_penalty _ n;
     param_change_penalty := param_change_penalty _ n;
     param_non_straight_penalty := param_non_straight_penalty _ n;
     param_cost_penalty := param_cost_penalty _ n;
     param_analytic_expansion_ratio := param_analytic_expansion_ratio _ n;
     param_max_planning_time := param_max_planning_time _ n;
     param_lookup_table_size := v;
     param_allow_reverse_expansion := param_allow_reverse_expansion _ n;
     smoother_params := smoother_params _ n |}.

(** What [configure] makes of them. *)
Definition information : SearchInfo :=
  {| minimum_turning_radius := Fp.finite 2;
     non_straight_penalty := Fp.to_float (Fp.finite (21 # 20));
     change_penalty := Fp.to_float (Fp.finite (1 # 20));
     reverse_penalty := Fp.finite 2;
     cost_penalty := Fp.finite 2;
     analytic_expansion_ratio := Fp.finite (7 # 2);
     lattice_filepath := "default_model.json";
     cache_obstacle_heuristic := false;
     allow_reverse_expansion := false |}.

Definition planner : SmacPlannerLattice Q unit unit :=
  {| _a_star :=
       make_a_star STATE_LATTICE information true 1000000 Int.max 5
         (Some (Fp.finite 81)) 16;
     _collision_checker :=
       {| checker_costmap := 1 # 4;
          num_quantizations := 72;
          footprint := tt;
          use_radius := true;
          circumscribed_cost := 0 |};
     _smoother := {| params := tt; smoother_min_turning_radius := 1 # 2 |};
     _costmap := 1 # 4;
     _costmap_ros := costmap_ros;
     _search_info := information;
     _allow_unknown := true;
     _max_iterations := 1000000;
     _max_planning_time := 5;
     _lookup_table_size := 20;
     _metadata := default_model;
     _motion_model := STATE_LATTICE;
     _name := "GridBased";
     _global_frame := "map" |}.

Definition set_double (option : string) (d : Q) : rclcpp_Parameter :=
  {| get_name := "GridBased" ++ option; get_value := PDouble d |}.
Definition set_integer (option : string) (i : Z) : rclcpp_Parameter :=
  {| get_name := "GridBased" ++ option; get_value := PInteger i |}.
Definition set_string (option : string) (v : string) : rclcpp_Parameter :=
  {| get_name := "GridBased" ++ option; get_value := PString v |}.

Definition reconfigure (parameters : list rclcpp_Parameter)
    (p : SmacPlannerLattice Q unit unit) :=
  dynamicParametersCallback resolution lattice_files node parameters p.

(** Stand-ins for the costmap and pose helpers, and a smoother that hands
    the plan back. *)
Definition worldToMap (c : Q) (wx wy : Q) : option (Z * Z) :=
  if Qle_bool 0 wx && Qle_bool 0 wy
  then Some (Qfloor (wx / c), Qfloor (wy / c))
  else None.
Definition getYaw (q : Quaternion) : Q := 0.
Definition getClosestAngularBin (yaw : Q) : Z := 0.
Definition upright : Quaternion := {| quat_x := 0; quat_y := 0; quat_z := 0; quat_w := 1 |}.
Definition getWorldCoords (mx my : Q) (c : Q) : Pose :=
  {| position :=
       {| point_x := (mx + (1 # 2)) * c; point_y := (my + (1 # 2)) * c; point_z := 0 |};
     orientation := upright |}.
Definition getWorldOrientation (theta : Q) : Quaternion := upright.
Definition smooth (s : Smoother unit) (plan : Path) (c : Q) (time : Fp.t) : Path :=
  plan.

Definition pose_at (px py : Q) : PoseStamped :=
  {| header := {| stamp := 0; frame_id := "map" |};
     pose := {| position := {| point_x := px; point_y := py; point_z := 0 |};
                orientation := upright |} |}.

Definition surroundings : Surroundings :=
  {| steady_clock_a := 0;
     steady_clock_b := 1500000000;
     clock_now := 42;
     subscription_count := 0;
     mx_my := (0, 0)%Z |}.

Definition plan_with (createPath : AStarAlgorithm Q unit -> CreatePathOutcome) :=
  createPlan worldToMap getYaw getClosestAngularBin getWorldCoords
    getWorldOrientation smooth createPath surroundings (pose_at 0 0) (pose_at 2 0) planner.

Definition prepared : AStarAlgorithm Q unit :=
  prepare worldToMap getYaw getClosestAngularBin surroundings (pose_at 0 0) (pose_at 2 0) planner.

(** Four engines: one that throws std::runtime_error, one that finds
    nothing, one that throws an exception of another class, one that finds a
    straight path of eight cells, goal first. *)
Definition throwing (a : AStarAlgorithm Q unit) : CreatePathOutcome :=
  Throws (runtime_error "Start or goal was not specified").
Definition blocked (a : AStarAlgorithm Q unit) : CreatePathOutcome :=
  Returns false [] 3.
Definition escaping (a : AStarAlgorithm Q unit) : CreatePathOutcome :=
  Throws (other_exception "std::bad_alloc").
Definition cell (i : Z) : Coordinates :=
  {| coord_x := inject_Z i; coord_y := 0; coord_theta := 0 |}.
Definition straight_path : CoordinateVector :=
  [cell 7; cell 6; cell 5; cell 4; cell 3; cell 2; cell 1; cell 0].
Definition straight (a : AStarAlgorithm Q unit) : CreatePathOutcome :=
  Returns true straight_path 8.

(** A search that never reaches its goal, one second per iteration. *)
Definition wander (n : unit) : Expansion unit := Expanded tt.
Definition seconds (i : Z) : Q := inject_Z i.
Definition from_start (a : AStarAlgorithm Q unit) : unit := tt.

Lemma configure_planner :
  configure resolution lattice_files circumscribed node "GridBased" costmap_ros = Ok planner.
Proof. vm_compute. reflexivity. Qed.

(** *** The claims, run *)

Definition load_error : exception := runtime_error "Could not open lattice file".

(** Cells of one metre, and a table of 2^24 metres. *)
Definition metre_cells : Costmap2DROS Q unit :=
  {| getCostmap := 1%Q;
     getGlobalFrameID := "map";
     getRobotFootprint := tt;
     getUseRadius := true |}.

Definition unknown_option : rclcpp_Parameter :=
  {| get_name := "GridBased.no_such_option"; get_value := PInteger 3 |}.

Definition short_path : CoordinateVector := [cell 2; cell 1; cell 0].
Definition short (a : AStarAlgorithm Q unit) : CreatePathOutcome :=
  Returns true short_path 3.

Definition header42 : Header := {| stamp := 42; frame_id := "map" |}.

(** C1 on the planner above: turning radius 0.5 m, cells of 0.25 m, so a
    scaled radius of 2 cells.  [configure] gives the engine 2.  A
    reconfiguration that only sets max_planning_time, to the value it
    already has, rebuilds the engine with 8, and the same reconfiguration
    once more with 32, while the lattice metadata stay as loaded. *)
Theorem turning_radius_divided_again :
  float_div_double (Fp.finite (min_turning_radius default_model))
    (resolution (1 # 4)) = Fp.finite 2 /\
  minimum_turning_radius (search_info (_a_star planner)) = Fp.finite 2 /\
  reconfigure [set_double ".max_planning_time" 5] planner =
    (Ok {| successful := true |},
     snd (reconfigure [set_double ".max_planning_time" 5] planner)) /\
  _metadata (snd (reconfigure [set_double ".max_planning_time" 5] planner)) =
    default_model /\
  minimum_turning_radius
    (search_info (_a_star (snd (reconfigure [set_double ".max_planning_time" 5] planner))))
    = Fp.finite 8 /\
  minimum_turning_radius
    (search_info
       (_a_star
          (snd (reconfigure [set_double ".max_planning_time" 5]
                  (snd (reconfigure [set_double ".max_planning_time" 5] planner))))))
    = Fp.finite 32.
Proof. vm_compute. repeat split. Qed.

(** C2 on a table of 2^24 m over cells of one metre: 2^24 cells, an even
    count, and the dimension [configure] hands to the engine stays 2^24,
    since 2^24 + 1 is no [float]: "lookup_table_dim += 1.0" under "Make sure
    its an odd number" leaves it even.  The same on reconfiguration: 2^22 m
    over cells of 0.25 m. *)
Theorem lookup_table_dimension_even_at_2_pow_24 :
  lookup_table_cells 16777216 1 = Some 16777216%Z /\
  Z.even 16777216 = true /\
  lookup_table_dim 16777216 1 = Some (Fp.finite 16777216) /\
  (exists p,
     configure resolution lattice_files circumscribed
       (with_lookup_table_size 16777216 node) "GridBased" metre_cells = Ok p /\
     lookup_table_size (_a_star p) = Some (Fp.finite 16777216) /\
     is_odd (lookup_table_size (_a_star p)) = false) /\
  lookup_table_size
    (_a_star (snd (reconfigure [set_double ".lookup_table_size" 4194304] planner)))
    = Some (Fp.finite 16777216) /\
  is_odd
    (lookup_table_size
       (_a_star (snd (reconfigure [set_double ".lookup_table_size" 4194304] planner))))
    = false.
Proof.
  split; [vm_compute; reflexivity |].
  split; [reflexivity |]. split; [vm_compute; reflexivity |].
  split; [| split; vm_compute; reflexivity].
  eexists. split; [vm_compute; reflexivity |].
  split; vm_compute; reflexivity.
Qed.

(** max_iterations set to -1, in the node and in a list of updates. *)
Lemma nonpositive_max_iterations_unbounded_witness :
  (Int.to_int (-1) <= 0)%Z /\
  (exists p,
     configure resolution lattice_files circumscribed
       (with_max_iterations (-1) node) "GridBased" costmap_ros = Ok p /\
     _max_iterations p = Int.max /\
     getMaxIterations (_a_star p) = Int.max) /\
  (exists p',
     reconfigure
       [set_double ".max_planning_time" 2; set_integer ".max_iterations" (-1);
        set_double ".cost_penalty" 3] planner = (Ok {| successful := true |}, p') /\
     _max_iterations p' = Int.max /\
     getMaxIterations (_a_star p') = Int.max).
Proof.
  assert (H : (Int.to_int (-1) <= 0)%Z) by (vm_compute; discriminate).
  destruct (nonpositive_max_iterations_unbounded Q resolution unit unit
              lattice_files circumscribed (-1)%Z H) as [Hc Hr].
  split; [exact H |]. split.
  - exact (Hc (with_max_iterations (-1) node) "GridBased" costmap_ros
             default_model eq_refl eq_refl).
  - exact (Hr node [set_double ".max_planning_time" 2]
             (set_integer ".max_iterations" (-1))
             [set_double ".cost_penalty" 3] planner eq_refl eq_refl eq_refl).
Defined.

(** max_iterations set to 1 - 2^32, a value of the 64-bit parameter that
    is not positive: as an [int] it is 1, and the budget is one iteration,
    at [configure] and in the callback. *)
Lemma max_iterations_below_int_range_gives_budget_1 :
  (-4294967295 <= 0)%Z /\
  Int.to_int (-4294967295) = 1%Z /\
  (exists p,
     configure resolution lattice_files circumscribed
       (with_max_iterations (-4294967295) node) "GridBased" costmap_ros = Ok p /\
     _max_iterations p = 1%Z /\
     getMaxIterations (_a_star p) = 1%Z) /\
  (exists p',
     reconfigure [set_integer ".max_iterations" (-4294967295)] planner =
       (Ok {| successful := true |}, p') /\
     _max_iterations p' = 1%Z /\
     getMaxIterations (_a_star p') = 1%Z) /\
  1%Z <> Int.max.
Proof.
  split; [lia |]. split; [reflexivity |].
  split; [| split; [| discriminate]].
  - eexists. split; [vm_compute; reflexivity |]. split; reflexivity.
  - eexists. split; [vm_compute; reflexivity |]. split; reflexivity.
Qed.

(** A list whose lattice file update names a file that is not there. *)
Lemma failed_load_keeps_engine_witness :
  lattice_files "missing.json" = Throw load_error /\
  exists p',
    reconfigure
      [set_double ".max_planning_time" 2; set_string ".lattice_filepath" "missing.json";
       set_integer ".max_iterations" 7] planner = (Throw load_error, p') /\
    _a_star p' = _a_star planner /\
    _smoother p' = _smoother planner /\
    _metadata p' = _metadata planner /\
    minimum_turning_radius (_search_info p') =
      minimum_turning_radius (_search_info planner) /\
    lattice_filepath (_search_info p') = "missing.json".
Proof.
  split; [reflexivity |].
  exact (failed_load_keeps_engine Q resolution unit unit lattice_files node
           [set_double ".max_planning_time" 2]
           (set_string ".lattice_filepath" "missing.json")
           [set_integer ".max_iterations" 7] planner "missing.json" load_error
           eq_refl eq_refl eq_refl).
Defined.

(** The file path does not survive a failed load, and the metadata do not
    either when the same list loaded another file before. *)
Lemma failed_load_changes_path_and_metadata :
  lattice_files "missing.json" = Throw load_error /\
  fst (reconfigure [set_string ".lattice_filepath" "missing.json"] planner) =
    Throw load_error /\
  lattice_filepath (_search_info planner) = "default_model.json" /\
  lattice_filepath
    (_search_info (snd (reconfigure [set_string ".lattice_filepath" "missing.json"] planner)))
    = "missing.json" /\
  fst (reconfigure
         [set_string ".lattice_filepath" "wide_model.json";
          set_string ".lattice_filepath" "missing.json"] planner) = Throw load_error /\
  _metadata planner = default_model /\
  _metadata
    (snd (reconfigure
            [set_string ".lattice_filepath" "wide_model.json";
             set_string ".lattice_filepath" "missing.json"] planner)) = wide_model /\
  wide_model <> default_model.
Proof. vm_compute. repeat split. discriminate. Qed.

(** A list with an unknown name, a known name with the wrong type, and a
    lattice file that loads. *)
Lemma callback_reports_success_witness :
  loadable lattice_files "GridBased"
    [set_double ".max_planning_time" 2; unknown_option;
     set_double ".max_iterations" 7; set_string ".lattice_filepath" "wide_model.json"]
    = true /\
  fst (reconfigure
         [set_double ".max_planning_time" 2; unknown_option;
          set_double ".max_iterations" 7;
          set_string ".lattice_filepath" "wide_model.json"] planner)
    = Ok {| successful := true |} /\
  reconfigure
    [set_double ".max_planning_time" 2; unknown_option;
     set_double ".max_iterations" 7;
     set_string ".lattice_filepath" "wide_model.json"] planner =
  reconfigure
    [set_double ".max_planning_time" 2;
     set_string ".lattice_filepath" "wide_model.json"] planner.
Proof.
  destruct (callback_reports_success Q resolution unit unit lattice_files node
              [set_double ".max_planning_time" 2; unknown_option;
               set_double ".max_iterations" 7;
               set_string ".lattice_filepath" "wide_model.json"] planner eq_refl)
    as (Hs & _ & Hf).
  split; [reflexivity |]. split; [exact Hs | exact Hf].
Defined.

(** The callback given a lattice file that is not there: it throws, and
    reports nothing. *)
Lemma callback_throws_on_missing_file :
  fst (reconfigure [set_string ".lattice_filepath" "missing.json"] planner) =
    Throw load_error /\
  fst (reconfigure [set_string ".lattice_filepath" "missing.json"] planner) <>
    Ok {| successful := true |}.
Proof. vm_compute. split; [reflexivity | discriminate]. Qed.

(** An engine that throws std::runtime_error, and one that returns false
    after 3 iterations. *)
Lemma failed_search_returns_empty_plan_witness :
  recovered (throwing prepared) = true /\
  recovered (blocked prepared) = true /\
  plan_with throwing =
    (Ok {| path_header := header42; poses := [] |},
     [Warn "GridBased: failed to create plan, invalid use: Start or goal was not specified."],
     set_a_star prepared planner) /\
  plan_with blocked =
    (Ok {| path_header := header42; poses := [] |},
     [Warn "GridBased: failed to create plan, no valid path found."],
     set_a_star prepared planner).
Proof.
  split; [reflexivity |]. split; [reflexivity |]. split.
  - destruct (failed_search_returns_empty_plan Q unit unit worldToMap getYaw
                getClosestAngularBin getWorldCoords getWorldOrientation smooth
                throwing surroundings (pose_at 0 0) (pose_at 2 0) planner)
      as [H _].
    destruct (H eq_refl) as (reason & Hr & _ & Hp).
    injection Hr as <-. exact Hp.
  - destruct (failed_search_returns_empty_plan Q unit unit worldToMap getYaw
                getClosestAngularBin getWorldCoords getWorldOrientation smooth
                blocked surroundings (pose_at 0 0) (pose_at 2 0) planner)
      as [H _].
    destruct (H eq_refl) as (reason & Hr & _ & Hp).
    injection Hr as <-. exact Hp.
Defined.

(** An engine that throws an exception of another class: the search has
    failed, and the call returns no plan and logs nothing; the exception
    leaves it. *)
Lemma failed_search_lets_exception_out :
  failed (escaping prepared) = true /\
  plan_with escaping =
    (Throw (other_exception "std::bad_alloc"), [], set_a_star prepared planner) /\
  (forall plan, fst (fst (plan_with escaping)) <> Ok plan).
Proof.
  split; [reflexivity |]. split; [reflexivity |].
  intros plan H. discriminate H.
Qed.

(** A path of eight cells found in 8 iterations is smoothed; a path of
    three cells is returned as it is. *)
Lemma smoothing_condition_witness :
  straight prepared = Returns true straight_path 8 /\
  In (Smooth (raw_plan getWorldCoords getWorldOrientation header42 (1 # 4) straight_path)
        (time_remaining surroundings planner))
     (snd (fst (plan_with straight))) /\
  fst (fst (plan_with short)) =
    Ok (raw_plan getWorldCoords getWorldOrientation header42 (1 # 4) short_path) /\
  snd (fst (plan_with short)) = [].
Proof.
  split; [reflexivity |]. split; [| split].
  - apply (smoothing_condition Q unit unit worldToMap getYaw getClosestAngularBin
             getWorldCoords getWorldOrientation smooth straight surroundings
             (pose_at 0 0) (pose_at 2 0) planner straight_path 8 eq_refl).
    split; [lia | cbn; lia].
  - apply (smoothing_condition Q unit unit worldToMap getYaw getClosestAngularBin
             getWorldCoords getWorldOrientation smooth short surroundings
             (pose_at 0 0) (pose_at 2 0) planner short_path 3 eq_refl).
    cbn. lia.
  - vm_compute. reflexivity.
Defined.

(** The planner above with a deadline of 3 s and a budget of 10
    iterations, and with a budget of 2 iterations and its deadline of 5 s. *)
Definition hurried : SmacPlannerLattice Q unit unit :=
  snd (reconfigure
         [set_integer ".max_iterations" 10; set_double ".max_planning_time" 3]
         planner).
Definition frugal : SmacPlannerLattice Q unit unit :=
  snd (reconfigure [set_integer ".max_iterations" 2] planner).

Definition plan_on_search (p : SmacPlannerLattice Q unit unit) :=
  createPlan_on_search worldToMap getYaw getClosestAngularBin getWorldCoords
    getWorldOrientation smooth wander from_start seconds surroundings
    (pose_at 0 0) (pose_at 2 0) p.

(** On a search that never reaches its goal, one second per iteration. *)
Lemma deadline_reported_apart_from_budget_witness :
  call_termination worldToMap getYaw getClosestAngularBin wander from_start
    seconds surroundings (pose_at 0 0) (pose_at 2 0) hurried = TimeExceeded /\
  call_termination worldToMap getYaw getClosestAngularBin wander from_start
    seconds surroundings (pose_at 0 0) (pose_at 2 0) frugal = IterationsExceeded /\
  fst (plan_on_search hurried) =
    (Ok {| path_header := header42; poses := [] |},
     [Warn "GridBased: failed to create plan, no valid path found."]) /\
  fst (plan_on_search frugal) =
    (Ok {| path_header := header42; poses := [] |},
     [Warn "GridBased: failed to create plan, exceeded maximum iterations."]).
Proof.
  split; [reflexivity |]. split; [reflexivity |].
  destruct (deadline_reported_apart_from_budget Q unit unit unit worldToMap getYaw
              getClosestAngularBin getWorldCoords getWorldOrientation smooth
              wander from_start seconds seconds surroundings surroundings
              (pose_at 0 0) (pose_at 2 0) (pose_at 0 0) (pose_at 2 0)
              hurried frugal eq_refl eq_refl)
    as (reason1 & reason2 & H1 & H2 & -> & -> & _).
  split; [exact H1 | exact H2].
Defined.

(** The same call a moment later: another time stamp, and nothing else
    read from outside differs. *)
Definition later : Surroundings :=
  {| steady_clock_a := 0;
     steady_clock_b := 1500000000;
     clock_now := 43;
     subscription_count := 0;
     mx_my := (0, 0)%Z |}.

Definition plan_later (createPath : AStarAlgorithm Q unit -> CreatePathOutcome) :=
  createPlan worldToMap getYaw getClosestAngularBin getWorldCoords
    getWorldOrientation smooth createPath later (pose_at 0 0) (pose_at 2 0) planner.

(** Two calls with the same planner, start and goal, on the same costmap
    and with a search that finds the same path of three cells: the poses
    returned differ, in their time stamp. *)
Lemma repeated_call_other_poses :
  exists plan1 plan2,
    fst (fst (plan_with short)) = Ok plan1 /\
    fst (fst (plan_later short)) = Ok plan2 /\
    poses plan1 <> poses plan2 /\
    geometry plan1 = geometry plan2.
Proof.
  eexists. eexists. split; [reflexivity |]. split; [reflexivity |].
  split; [intros H; discriminate H | reflexivity].
Qed.

(** The two calls above: the same positions and orientations. *)
Lemma repeated_call_same_route_witness :
  short prepared =
    short (prepare worldToMap getYaw getClosestAngularBin later
             (pose_at 0 0) (pose_at 2 0) planner) /\
  exists plan1 plan2,
    fst (fst (plan_with short)) = Ok plan1 /\
    fst (fst (plan_later short)) = Ok plan2 /\
    geometry plan1 = geometry plan2.
Proof.
  split; [reflexivity |].
  destruct (repeated_call_same_route Q unit unit worldToMap getYaw
              getClosestAngularBin getWorldCoords getWorldOrientation smooth
              short surroundings later (pose_at 0 0) (pose_at 2 0) planner eq_refl)
    as (_ & _ & H).
  eexists. eexists. split; [reflexivity |]. split; [reflexivity |].
  apply (H _ _ eq_refl eq_refl). cbn. lia.
Defined.

(** *** Beyond the claims, run *)

(** A table of 20 m over cells of 0.25 m: 80 cells, dimension 81. *)
Lemma lookup_table_dimension_odd_witness :
  table_in_range 20 (1 # 4) /\
  lookup_table_dim 20 (1 # 4) = Some (Fp.finite 81) /\
  is_odd (lookup_table_size (_a_star planner)) = true.
Proof.
  assert (H : table_in_range 20 (1 # 4)).
  { exists 80%Z. split; [vm_compute; reflexivity | lia]. }
  destruct (lookup_table_dimension_odd Q resolution unit unit lattice_files
              circumscribed 20 (1 # 4) H) as (_ & Hc & _).
  split; [exact H |]. split; [vm_compute; reflexivity |].
  destruct (Hc node "GridBased" costmap_ros default_model eq_refl eq_refl eq_refl)
    as (p & Hp & _ & Hodd).
  rewrite configure_planner in Hp. injection Hp as <-. exact Hodd.
Defined.


Arguments budget_ok {Costmap2D Footprint SmootherParams} _.
Arguments engine_in_sync {Costmap2D} getResolution {Footprint SmootherParams} _.
Arguments smoother_in_sync {Costmap2D Footprint SmootherParams} _.
Arguments setting {Costmap2D Footprint SmootherParams} _ _.
Arguments collision_checker {Costmap2D Footprint} _.
Arguments dim_3_size {Costmap2D Footprint} _.
Arguments smoother_min_turning_radius {SmootherParams} _.
Arguments world_pose {Costmap2D} _ _ _ _ _.

(** The same surroundings with one subscriber to the raw plan. *)
Definition watched : Surroundings :=
  {| steady_clock_a := 0;
     steady_clock_b := 1500000000;
     clock_now := 42;
     subscription_count := 1;
     mx_my := (0, 0)%Z |}.

Definition in_two_parts_first : list rclcpp_Parameter :=
  [set_double ".max_planning_time" 2; set_string ".lattice_filepath" "wide_model.json"].
Definition in_two_parts_second : list rclcpp_Parameter :=
  [set_integer ".max_iterations" 0; set_double ".max_planning_time" 3].

(** The planner above, after a budget of -5 and after a failed load. *)
Lemma budget_always_positive_witness :
  budget_ok planner /\
  budget_ok (snd (reconfigure [set_integer ".max_iterations" (-5)] planner)) /\
  budget_ok (snd (reconfigure [set_string ".lattice_filepath" "missing.json"] planner)).
Proof.
  destruct (budget_always_positive Q resolution unit unit lattice_files
              circumscribed node) as [Hc Hr].
  destruct (Hc "GridBased" costmap_ros default_model eq_refl) as (p & Hp & Hb).
  rewrite configure_planner in Hp. injection Hp as <-.
  split; [exact Hb |]. split; apply Hr; exact Hb.
Defined.

(** The planner above, and after two updates. *)
Lemma engine_follows_settings_witness :
  engine_in_sync resolution planner /\
  smoother_in_sync planner /\
  engine_in_sync resolution (snd (reconfigure in_two_parts_first planner)) /\
  smoother_in_sync (snd (reconfigure in_two_parts_first planner)).
Proof.
  destruct (engine_follows_settings Q resolution unit unit lattice_files
              circumscribed node) as (Hc & Hr & _).
  destruct (Hc "GridBased" costmap_ros default_model eq_refl) as (p & Hp & He & Hs).
  rewrite configure_planner in Hp. injection Hp as <-.
  split; [exact He |]. split; [exact Hs |].
  exact (Hr in_two_parts_first planner {| successful := true |} eq_refl He Hs).
Defined.

(** Two updates, then two more, against the four at once. *)
Lemma reconfiguration_in_two_parts_witness :
  fst (reconfigure in_two_parts_first planner) = Ok {| successful := true |} /\
  fst (reconfigure in_two_parts_second (snd (reconfigure in_two_parts_first planner))) =
    fst (reconfigure (in_two_parts_first ++ in_two_parts_second) planner) /\
  forall f,
    setting f
      (snd (reconfigure in_two_parts_second
              (snd (reconfigure in_two_parts_first planner)))) =
    setting f (snd (reconfigure (in_two_parts_first ++ in_two_parts_second) planner)).
Proof.
  split; [reflexivity |].
  exact (reconfiguration_in_two_parts Q resolution unit unit lattice_files node
           in_two_parts_first in_two_parts_second planner
           {| successful := true |} eq_refl).
Defined.

(** A planning call, then a new cost penalty. *)
Lemma reconfiguration_forgets_planning_witness :
  snd (reconfigure [set_double ".cost_penalty" 3] (snd (plan_with straight))) =
  snd (reconfigure [set_double ".cost_penalty" 3] planner).
Proof.
  destruct (reconfiguration_forgets_planning Q resolution unit unit lattice_files
              worldToMap getYaw getClosestAngularBin getWorldCoords
              getWorldOrientation smooth straight node surroundings
              (pose_at 0 0) (pose_at 2 0)
              [set_double ".cost_penalty" 3] planner) as (_ & _ & H).
  exact (H {| successful := true |} eq_refl eq_refl).
Defined.

(** max_planning_time set to the 5 s it already is, and an unknown option. *)
Lemma recognized_parameter_rebuilds_engine_witness :
  collision_checker
    (_a_star (snd (reconfigure [set_double ".max_planning_time" 5]
                     (snd (plan_with straight))))) = None /\
  reconfigure [unknown_option] planner = (Ok {| successful := true |}, planner).
Proof.
  split.
  - destruct (recognized_parameter_rebuilds_engine Q resolution unit unit
                lattice_files node [set_double ".max_planning_time" 5]
                (snd (plan_with straight))) as [H _].
    exact (proj1 (proj2 (H {| successful := true |} eq_refl eq_refl))).
  - destruct (recognized_parameter_rebuilds_engine Q resolution unit unit
                lattice_files node [unknown_option] planner) as [_ H].
    exact (H eq_refl).
Defined.

(** The first pose of the plan of the straight path is its last node. *)
Lemma plan_is_path_reversed_witness :
  (0 < List.length straight_path)%nat /\
  nth_error
    (poses (raw_plan getWorldCoords getWorldOrientation header42 (1 # 4) straight_path))
    0 =
  Some (world_pose getWorldCoords getWorldOrientation header42 (1 # 4) (cell 0)).
Proof.
  assert (H : (0 < List.length straight_path)%nat) by (cbn; lia).
  split; [exact H |].
  destruct (plan_is_path_reversed Q getWorldCoords getWorldOrientation header42
              (1 # 4) straight_path) as (_ & _ & Hnth & _).
  exact (Hnth 0%nat H).
Defined.

(** With a subscriber, the plan of the straight path is published as it
    was before smoothing. *)
Lemma publishes_unsmoothed_plan_witness :
  In (Publish (raw_plan getWorldCoords getWorldOrientation header42 (1 # 4) straight_path))
     (snd (fst (createPlan worldToMap getYaw getClosestAngularBin getWorldCoords
                  getWorldOrientation smooth straight watched
                  (pose_at 0 0) (pose_at 2 0) planner))).
Proof.
  destruct (publishes_unsmoothed_plan Q unit unit worldToMap getYaw
              getClosestAngularBin getWorldCoords getWorldOrientation smooth
              straight watched (pose_at 0 0) (pose_at 2 0) planner) as (H & _).
  apply H. split; [reflexivity |]. split; [reflexivity | reflexivity].
Defined.

(** max_planning_time set on the planner above: 2 cells become 8. *)
Lemma rebuild_divides_turning_radius_witness :
  exists p',
    reconfigure [set_double ".max_planning_time" 5] planner =
      (Ok {| successful := true |}, p') /\
    minimum_turning_radius (_search_info p') =
      float_div_double (Fp.finite 2) (1 # 4) /\
    minimum_turning_radius (search_info (_a_star p')) =
      minimum_turning_radius (_search_info p') /\
    _metadata p' = default_model /\
    _smoother p' = _smoother planner.
Proof.
  exact (rebuild_divides_turning_radius Q resolution unit unit lattice_files node
           [set_double ".max_planning_time" 5] planner eq_refl eq_refl).
Defined.

(** The wide model loaded on the planner above: a radius of 1 m for the
    smoother, of 1 / 0.25 / 0.25 cells for the engine. *)
Lemma lattice_update_rebuilds_witness :
  exists p',
    reconfigure
      [set_double ".max_planning_time" 2;
       set_string ".lattice_filepath" "wide_model.json";
       set_integer ".max_iterations" 7] planner = (Ok {| successful := true |}, p') /\
    _metadata p' = wide_model /\
    lattice_filepath (_search_info p') = "wide_model.json" /\
    smoother_min_turning_radius (_smoother p') = 1%Q /\
    dim_3_size (_a_star p') = 16%Z /\
    minimum_turning_radius (search_info (_a_star p')) =
      float_div_double (float_div_double (Fp.finite 1) (1 # 4)) (1 # 4).
Proof.
  exact (lattice_update_rebuilds Q resolution unit unit lattice_files node
           [set_double ".max_planning_time" 2]
           (set_string ".lattice_filepath" "wide_model.json")
           [set_integer ".max_iterations" 7] planner "wide_model.json" wide_model
           eq_refl eq_refl eq_refl eq_refl).
Defined.

(** A table size of 0 m: one cell. *)
Lemma table_has_a_cell_witness :
  (0 <= 0)%Q /\
  (0 < 1 # 4)%Q /\
  table_in_range 0 (1 # 4) /\
  lookup_table_dim 0 (1 # 4) = Some (Fp.finite 1).
Proof.
  assert (H0 : (0 <= 0)%Q) by apply Qle_refl.
  assert (Hr : (0 < 1 # 4)%Q) by reflexivity.
  assert (H : table_in_range 0 (1 # 4)).
  { exists 0%Z. split; [vm_compute; reflexivity | lia]. }
  split; [exact H0 |]. split; [exact Hr |]. split; [exact H |].
  destruct (table_has_a_cell 0 (1 # 4) H0 Hr H) as (cells & k & Hc & Hd & _ & _ & Hk).
  assert (Hz : cells = 0%Z).
  { vm_compute in Hc. injection Hc as <-. reflexivity. }
  rewrite Hd, (Hk Hz). reflexivity.
Defined.

(** max_iterations -1 and a search that gives up after 3 iterations. *)
Lemma unbounded_budget_reports_no_path_witness :
  exists p,
    configure resolution lattice_files circumscribed
      (with_max_iterations (-1) node) "GridBased" costmap_ros = Ok p /\
    fst (createPlan worldToMap getYaw getClosestAngularBin getWorldCoords
           getWorldOrientation smooth blocked surroundings
           (pose_at 0 0) (pose_at 2 0) p) =
      (Ok {| path_header := plan_header surroundings p; poses := [] |},
       [Warn "GridBased: failed to create plan, no valid path found."]).
Proof.
  assert (Hv : (Int.to_int (-1) <= 0)%Z) by (vm_compute; discriminate).
  destruct (unbounded_budget_reports_no_path Q resolution unit unit lattice_files
              circumscribed worldToMap getYaw getClosestAngularBin getWorldCoords
              getWorldOrientation smooth blocked (with_max_iterations (-1) node)
              "GridBased" costmap_ros default_model Hv eq_refl) as (p & Hp & H).
  exists p. split; [exact Hp |].
  apply (H surroundings (pose_at 0 0) (pose_at 2 0) [] 3%Z); [reflexivity |].
  unfold Int.max. lia.
Defined.

(** A new planning time, then a lattice file that is not there. *)
Lemma failed_load_applies_earlier_updates_witness :
  exists p',
    reconfigure
      [set_double ".max_planning_time" 2;
       set_string ".lattice_filepath" "missing.json";
       set_integer ".max_iterations" 7] planner = (Throw load_error, p') /\
    (forall f,
       f <> lattice_filepath_setting ->
       setting f p' =
       setting f (snd (reconfigure [set_double ".max_planning_time" 2] planner))) /\
    lattice_filepath (_search_info p') = "missing.json" /\
    _a_star p' = _a_star planner /\
    _smoother p' = _smoother planner /\
    reconfigure
      [set_double ".max_planning_time" 2;
       set_string ".lattice_filepath" "missing.json"] planner = (Throw load_error, p').
Proof.
  exact (failed_load_applies_earlier_updates Q resolution unit unit lattice_files
           node [set_double ".max_planning_time" 2]
           (set_string ".lattice_filepath" "missing.json")
           [set_integer ".max_iterations" 7] planner "missing.json" load_error
           eq_refl eq_refl eq_refl).
Defined.

(** A search of 1.5 s within a planning time of 5 s: 3.5 s are left. *)
Lemma smoothing_time_within_budget_witness :
  (steady_clock_a surroundings <= steady_clock_b surroundings)%Z /\
  Fp.is_double 5 /\
  time_remaining surroundings planner = Fp.finite (7 # 2) /\
  Fp.le (time_remaining surroundings planner) 5.
Proof.
  assert (Hc : (steady_clock_a surroundings <= steady_clock_b surroundings)%Z)
    by (cbn; lia).
  assert (Hd : Fp.is_double 5) by (vm_compute; reflexivity).
  split; [exact Hc |]. split; [exact Hd |].
  split; [vm_compute; reflexivity |].
  exact (proj1 (smoothing_time_within_budget Q unit unit worldToMap getYaw
                  getClosestAngularBin getWorldCoords getWorldOrientation smooth
                  straight surroundings planner Hc Hd)).
Defined.

End Scenario.
